(** * wiki-scraper.py: the beta-firmware table extractor

    A shallow embedding of [BetaScraper] (src/wiki-scraper.py): the page
    gate and the per-row extraction of [build_api], the signing pass
    [get_signing_status] and the persistence step [write_api].

    Conventions.
    - Python [str] is [string], a character being a code point below 256
      (ASCII and the Latin-1 supplement); text with other characters is
      outside the model.  In this range the decimal digits are 0-9, and
      [str.isnumeric] holds of six more characters (the superscripts one,
      two, three and the fractions a quarter, a half and three quarters),
      which [int] refuses.
    - Firmware records are Python dicts that [build_api] shares between
      several device lists; they live in a store ([heap]) and the device
      lists hold locations, so mutation through one alias is seen by all.
    - Exceptions are values of [exn]; a computation that raises keeps the
      state it had reached.
    - The wikitext parser (wikitextparser) and the wiki client (mwclient)
      are libraries: their results enter as functions of the cell text. *)

From Stdlib Require Import ZArith Ascii String List Bool Lia.
From stdpp Require Import gmap strings list fin_maps sorting.

Set Warnings "-clear-no-such-hyp".

Open Scope string_scope.
Open Scope list_scope.

(** ** Python string primitives *)

(** [s[n:]] *)
Fixpoint drop_str (n : nat) (s : string) : string :=
  match n, s with
  | O, _ => s
  | S k, String _ s' => drop_str k s'
  | S _, EmptyString => EmptyString
  end.

(** [s[:n]] *)
Fixpoint take_str (n : nat) (s : string) : string :=
  match n, s with
  | O, _ => EmptyString
  | S k, String c s' => String c (take_str k s')
  | S _, EmptyString => EmptyString
  end.

(** [s[:-k]] for a positive literal [k] *)
Definition drop_last (k : nat) (s : string) : string :=
  take_str (String.length s - k) s.

(** [s.endswith(suf)] *)
Definition endswith (suf s : string) : bool :=
  (String.length suf <=? String.length s)%nat
  && String.eqb (drop_str (String.length s - String.length suf) s) suf.

(** [x in s] for strings *)
Fixpoint contains (x s : string) : bool :=
  String.prefix x s
  || match s with
     | EmptyString => false
     | String _ s' => contains x s'
     end.

(** [s.split(sep)] for a non-empty separator (every call site passes a
    non-empty literal).  [skip] counts the characters of a separator
    occurrence that are still to be consumed; [cur] is the piece being
    built. *)
Fixpoint split_go (sep : string) (skip : nat) (cur s : string) : list string :=
  match s with
  | EmptyString => [cur]
  | String c s' =>
      match skip with
      | S k => split_go sep k cur s'
      | O =>
          if String.prefix sep s
          then cur :: split_go sep (String.length sep - 1) EmptyString s'
          else split_go sep 0 (cur +:+ String c EmptyString) s'
      end
  end.

Definition py_split (sep s : string) : list string := split_go sep 0 EmptyString s.

(** [sep.join(l)] *)
Fixpoint py_join (sep : string) (l : list string) : string :=
  match l with
  | [] => EmptyString
  | [x] => x
  | x :: l' => x +:+ sep +:+ py_join sep l'
  end.

(** [s.replace(old, new)]: every non-overlapping occurrence, left to right;
    an empty [old] matches between all characters and at both ends. *)
Fixpoint replace_go (old new : string) (skip : nat) (s : string) : string :=
  match s with
  | EmptyString => EmptyString
  | String c s' =>
      match skip with
      | S k => replace_go old new k s'
      | O =>
          if String.prefix old s
          then new +:+ replace_go old new (String.length old - 1) s'
          else String c (replace_go old new 0 s')
      end
  end.

Fixpoint replace_empty (new s : string) : string :=
  match s with
  | EmptyString => new
  | String c s' => new +:+ String c (replace_empty new s')
  end.

Definition py_replace (old new s : string) : string :=
  match old with
  | EmptyString => replace_empty new s
  | _ => replace_go old new 0 s
  end.

Definition is_digit (c : ascii) : bool :=
  let n := nat_of_ascii c in (48 <=? n)%nat && (n <=? 57)%nat.

Fixpoint all_digits (s : string) : bool :=
  match s with
  | EmptyString => true
  | String c s' => is_digit c && all_digits s'
  end.

(** [s.isdecimal()]: non-empty and all decimal digits; these are the words
    [int] reads as a plain decimal number. *)
Definition isdecimal (s : string) : bool :=
  match s with
  | EmptyString => false
  | _ => all_digits s
  end.

(** The characters with the Unicode numeric property: the digits, the
    superscripts two, three (178, 179) and one (185), and the fractions
    (188-190). *)
Definition is_numeric_char (c : ascii) : bool :=
  let n := nat_of_ascii c in
  is_digit c || (n =? 178)%nat || (n =? 179)%nat || (n =? 185)%nat
  || ((188 <=? n)%nat && (n <=? 190)%nat).

Fixpoint all_numeric (s : string) : bool :=
  match s with
  | EmptyString => true
  | String c s' => is_numeric_char c && all_numeric s'
  end.

(** [s.isnumeric()] *)
Definition isnumeric (s : string) : bool :=
  match s with
  | EmptyString => false
  | _ => all_numeric s
  end.

(** Text of ASCII characters only. *)
Fixpoint is_ascii (s : string) : bool :=
  match s with
  | EmptyString => true
  | String c s' => (nat_of_ascii c <? 128)%nat && is_ascii s'
  end.

Definition digit_val (c : ascii) : Z := Z.of_nat (nat_of_ascii c) - 48.

Fixpoint digits_val (acc : Z) (s : string) : Z :=
  match s with
  | EmptyString => acc
  | String c s' => digits_val (10 * acc + digit_val c) s'
  end.

(** The characters [int] skips around the number: tab to carriage return,
    the space, the next-line control (133) and the no-break space (160). *)
Definition is_space (c : ascii) : bool :=
  let n := nat_of_ascii c in
  ((9 <=? n)%nat && (n <=? 13)%nat) || (n =? 32)%nat || (n =? 133)%nat || (n =? 160)%nat.

Fixpoint lstrip (s : string) : string :=
  match s with
  | String c s' => if is_space c then lstrip s' else s
  | EmptyString => EmptyString
  end.

Fixpoint rstrip (s : string) : string :=
  match s with
  | EmptyString => EmptyString
  | String c s' =>
      match rstrip s' with
      | EmptyString => if is_space c then EmptyString else String c EmptyString
      | r => String c r
      end
  end.

(** The digit groups of an integer literal: digits, with single underscores
    allowed between two digits.  [prev] tells whether the previous character
    was a digit. *)
Fixpoint int_body (prev : bool) (acc : Z) (s : string) : option Z :=
  match s with
  | EmptyString => if prev then Some acc else None
  | String c s' =>
      if is_digit c then int_body true (10 * acc + digit_val c) s'
      else if (nat_of_ascii c =? 95)%nat && prev then
        match s' with
        | String d _ => if is_digit d then int_body false acc s' else None
        | EmptyString => None
        end
      else None
  end.

(** [int(s)]: surrounding whitespace, an optional sign, then the digits;
    [None] stands for [ValueError]. *)
Definition py_int (s : string) : option Z :=
  match rstrip (lstrip s) with
  | String c b =>
      if Ascii.eqb c "+" then int_body false 0 b
      else if Ascii.eqb c "-" then Z.opp <$> int_body false 0 b
      else int_body false 0 (String c b)
  | EmptyString => None
  end.

(** [str(x)] for an optional string: [None] prints as the word None. *)
Definition py_str (o : option string) : string :=
  match o with
  | Some s => s
  | None => "None"
  end.


(** ** Values, records and the object store *)

Inductive pyval :=
  | VStr (s : string)
  | VInt (n : Z)
  | VBool (b : bool).

Global Instance pyval_eq_dec : EqDecision pyval.
Proof. solve_decision. Defined.

(** Python [==] on the values a record holds ([True == 1] holds in Python). *)
Definition py_eq (a b : pyval) : bool :=
  match a, b with
  | VStr x, VStr y => String.eqb x y
  | VInt x, VInt y => Z.eqb x y
  | VBool x, VBool y => Bool.eqb x y
  | VInt x, VBool y | VBool y, VInt x => Z.eqb x (if y then 1 else 0)
  | _, _ => false
  end.

(** Truthiness of a value, as [if] tests it. *)
Definition truthy (v : pyval) : bool :=
  match v with
  | VStr s => negb (String.eqb s EmptyString)
  | VInt n => negb (Z.eqb n 0)
  | VBool b => b
  end.

(** A firmware record is a dict from field name to value. *)
Abbreviation pydict := (gmap string pyval).

(** [d1 == d2] on dicts: same keys, equal values. *)
Definition dict_eq (d1 d2 : pydict) : bool :=
  bool_decide (dom d1 = dom d2)
  && forallb (fun kv => match d2 !! kv.1 with
                        | Some v => py_eq kv.2 v
                        | None => false
                        end) (map_to_list d1).

Abbreviation loc := nat.

(** [self.api] and the records it refers to.  [heap !! l] is the dict
    object at location [l]; [api !! device] is the device's list object. *)
Record scraper := Scraper {
  heap : list pydict;
  api : gmap string (list loc)
}.

Definition empty_scraper : scraper := Scraper [] ∅.

(** The dict at a location (locations handed out by [alloc] are in range). *)
Definition deref (h : list pydict) (l : loc) : pydict := default ∅ (h !! l).

(** The records of a device, read through the store. *)
Definition records_of (s : scraper) (device : string) : list pydict :=
  deref (heap s) <$> default [] (api s !! device).

(** ** Exceptions and the scraper monad *)

Inductive exn :=
  | StopIteration
  | IndexError
  | KeyError
  | TypeError
  | ValueError
  | OSError.

Inductive outcome (A : Type) :=
  | Ok (a : A)
  | Raise (e : exn).
Arguments Ok {A} a.
Arguments Raise {A} e.

Definition obind {A B} (m : outcome A) (k : A -> outcome B) : outcome B :=
  match m with
  | Ok a => k a
  | Raise e => Raise e
  end.

Notation "'let?' x ':=' m 'in' k" := (obind m (fun x => k))
  (at level 10, x name, m at level 100, k at level 200).

Definition M (A : Type) : Type := scraper -> outcome A * scraper.

Definition ret {A} (a : A) : M A := fun s => (Ok a, s).

Definition bind {A B} (m : M A) (k : A -> M B) : M B :=
  fun s => match m s with
           | (Ok a, s') => k a s'
           | (Raise e, s') => (Raise e, s')
           end.

Definition lift {A} (o : outcome A) : M A := fun s => (o, s).

Notation "'let!' x ':=' m 'in' k" := (bind m (fun x => k))
  (at level 10, x name, m at level 100, k at level 200).
Notation "'do!' m 'in' k" := (bind m (fun _ => k))
  (at level 10, m at level 100, k at level 200).

(** [for x in l: body(x)] *)
Fixpoint for_each {A} (l : list A) (body : A -> M unit) : M unit :=
  match l with
  | [] => ret tt
  | x :: l' => do! body x in for_each l' body
  end.

(** [l[i]] for a non-negative index *)
Definition get_item {A} (l : list A) (i : nat) : outcome A :=
  match l !! i with
  | Some x => Ok x
  | None => Raise IndexError
  end.

(** [l[-1]] *)
Definition get_last {A} (l : list A) : outcome A :=
  match last l with
  | Some x => Ok x
  | None => Raise IndexError
  end.

(** [d[k]] *)
Definition dict_get (d : pydict) (k : string) : outcome pyval :=
  match d !! k with
  | Some v => Ok v
  | None => Raise KeyError
  end.

(** [dict()]: a fresh object *)
Definition alloc : M loc :=
  fun s => (Ok (length (heap s)), Scraper (heap s ++ [∅]) (api s)).

(** The dict object at [l] *)
Definition load (l : loc) : M pydict :=
  fun s => (Ok (deref (heap s) l), s).

(** [obj[k] = v] on the dict object at [l] *)
Definition set_key (l : loc) (k : string) (v : pyval) : M unit :=
  fun s => (Ok tt, Scraper (<[l := <[k := v]> (deref (heap s) l)]> (heap s)) (api s)).

(** [if device not in self.api.keys(): self.api[device] = list()] *)
Definition ensure_device (device : string) : M unit :=
  fun s => match api s !! device with
           | Some _ => (Ok tt, s)
           | None => (Ok tt, Scraper (heap s) (<[device := []]> (api s)))
           end.

(** [self.api[device]] *)
Definition device_list (device : string) : M (list loc) :=
  fun s => match api s !! device with
           | Some ls => (Ok ls, s)
           | None => (Raise KeyError, s)
           end.

(** [self.api[device].append(obj)]: the list object is extended in place. *)
Definition append_record (device : string) (l : loc) : M unit :=
  let! ls := device_list device in
  fun s => (Ok tt, Scraper (heap s) (<[device := ls ++ [l]]> (api s))).

(** ** The wikitext parser's results *)

(** A [WikiLink]: [wl_string] is [str(link)], the raw markup of the link;
    [wl_text] is [link.text], which the parser gives as [None] for a link
    written without a pipe. *)
Record WikiLink := {
  wl_string : string;
  wl_text : option string
}.

(** An [ExternalLink] with its [url]. *)
Record ExternalLink := { url : string }.

(** [table.data()]: rows of cells, a cell being a string or [None]. *)
Abbreviation table_data := (list (list (option string))).

(** The wiki: the titles [site.search('Beta Firmware/')] yields, and the
    tables of [wtp.parse(site.pages[title].text())]. *)
Record Site := {
  search : list string;
  page_tables : string -> list table_data
}.

(** ** [build_api] *)

(** [self.device_regex.match(s)] followed by [.group()]:
    [(iPhone|AppleTV|iPad|iPod)[0-9]+,[0-9]+] anchored at the start. *)
Definition device_prefixes : list string := ["iPhone"; "AppleTV"; "iPad"; "iPod"].

Fixpoint span_digits (s : string) : string * string :=
  match s with
  | String c s' =>
      if is_digit c
      then let (d, r) := span_digits s' in (String c d, r)
      else (EmptyString, s)
  | EmptyString => (EmptyString, EmptyString)
  end.

Definition match_numbers (s : string) : option string :=
  let (d1, r1) := span_digits s in
  match d1, r1 with
  | String _ _, String "," r2 =>
      let (d2, _) := span_digits r2 in
      match d2 with
      | String _ _ => Some (d1 +:+ "," +:+ d2)
      | EmptyString => None
      end
  | _, _ => None
  end.

Fixpoint match_alternatives (ps : list string) (s : string) : option string :=
  match ps with
  | [] => None
  | p :: ps' =>
      match (if String.prefix p s
             then match_numbers (drop_str (String.length p) s)
             else None) with
      | Some t => Some (p +:+ t)
      | None => match_alternatives ps' s
      end
  end.

Definition device_match (s : string) : option string :=
  match_alternatives device_prefixes s.

(** The value of [0 if ... else 1] on line 78. *)
Definition firm_index (n d : nat) : nat :=
  if ((n =? 4)%nat && ((d =? 0)%nat || (d =? 1)%nat)) || ((n =? 2)%nat && (d =? 0)%nat)
  then 0%nat else 1%nat.

(** [int(result['title'].split('/')[2][:-2])] *)
Definition major_version (title : string) : outcome Z :=
  let? part := get_item (py_split "/" title) 2 in
  match py_int (drop_last 2 part) with
  | Some n => Ok n
  | None => Raise ValueError
  end.

(** Lines 27-32: [Ok true] when the page goes on to be parsed, [Ok false]
    when one of the two [continue]s is taken.  The second test is the
    conditional expression
    [(major_version < 9) if ('Apple TV' not in title) else 7]. *)
Definition page_gate (device_types : list string) (title : string) : outcome bool :=
  if negb (contains ".x" title) || negb (existsb (fun x => contains x title) device_types)
  then Ok false
  else
    let? mv := major_version title in
    let test := if negb (contains "Apple TV" title)
                then VBool (mv <? 9)%Z
                else VInt 7 in
    if truthy test then Ok false else Ok true.

(** [next(template.index(x) for x in template if any(i in x for i in
    ('Codename', 'Keys')))]: the first label that passes the test, then its
    first position.  [i in x] on a [None] label is a [TypeError]; an
    exhausted generator is [StopIteration]. *)
Fixpoint first_label (template : list (option string)) : outcome string :=
  match template with
  | [] => Raise StopIteration
  | None :: _ => Raise TypeError
  | Some x :: t' =>
      if contains "Codename" x || contains "Keys" x then Ok x else first_label t'
  end.

Fixpoint list_index (x : string) (l : list (option string)) : outcome nat :=
  match l with
  | [] => Raise ValueError
  | y :: l' =>
      if bool_decide (y = Some x) then Ok 0%nat
      else let? i := list_index x l' in Ok (S i)
  end.

Definition template_index (template : list (option string)) : outcome nat :=
  let? x := first_label template in
  list_index x template.

(** Lines 54-59 *)
Definition row_buildids (cell : string) : list string :=
  let parts := py_split "   | " cell in
  if (1 <? length parts)%nat
  then (fun b => drop_last 1 (default EmptyString (last (py_split " = " b))))
         <$> removelast (tail parts)
  else parts.

(** Lines 69-72: the loop over the words of the last cell. *)
Fixpoint sizes_loop (words : list string) (ipsw_sizes : list Z) : outcome (list Z) :=
  match words with
  | [] => Ok ipsw_sizes
  | word :: words' =>
      if isnumeric word then
        match py_int word with
        | None => Raise ValueError
        | Some n =>
            if (10 <? n)%Z then sizes_loop words' (ipsw_sizes ++ [n])
            else sizes_loop words' ipsw_sizes
        end
      else sizes_loop words' ipsw_sizes
  end.

(** The one-character string of a line feed. *)
Definition newline : string := String "010"%char EmptyString.

Definition row_words (cell : string) : list string :=
  (fun x => py_replace newline EmptyString (py_replace "," EmptyString x))
    <$> py_split " " cell.

Definition row_sizes (cell : string) : outcome (list Z) :=
  sizes_loop (row_words cell) [].

(** [any(f['buildid'] == firm['buildid'] for f in records)] *)
Fixpoint any_same_buildid (h : list pydict) (firm : pydict) (records : list loc)
  : outcome bool :=
  match records with
  | [] => Ok false
  | f :: records' =>
      let? a := dict_get (deref h f) "buildid" in
      let? b := dict_get firm "buildid" in
      if py_eq a b then Ok true else any_same_buildid h firm records'
  end.

Section Extractor.

(** [wtp.parse(cell).wikilinks] and [wtp.parse(cell).external_links] *)
Variable wikilinks : string -> list WikiLink.
Variable external_links : string -> list ExternalLink.

(** Lines 39-44 *)
Definition row_devices (cell : string) : list string :=
  omap (fun device => device_match (py_str (wl_text device))) (wikilinks cell).

(** Lines 48-52.  [str.replace] with [None] as replacement is a
    [TypeError]. *)
Definition row_version (cell : string) : outcome string :=
  match wikilinks cell with
  | w :: _ =>
      match wl_text w with
      | Some t => Ok (py_replace (wl_string w) t cell)
      | None => Raise TypeError
      end
  | [] => Ok cell
  end.

(** [next(wtp.parse(item).external_links for item in firm_data if
    wtp.parse(item).external_links)]; [None] is the exhausted generator,
    which the [try] turns into [continue]. *)
Fixpoint first_external_links (firm_data : list string) : option (list ExternalLink) :=
  match firm_data with
  | [] => None
  | item :: rest =>
      match external_links item with
      | [] => first_external_links rest
      | ls => Some ls
      end
  end.

(** Lines 79-88: the assignments of one turn of the loop over the
    devices, up to the guard of line 90.  [firm] is the location of the
    row's one dict; an exception raised part-way leaves the fields written
    so far in place. *)
Definition store_fields (firm : loc) (buildids : list string)
    (ipsws : list ExternalLink) (ipsw_sizes : list Z) (fi : nat) : M unit :=
  let! b0 := lift (get_item buildids 0) in
  do! set_key firm "buildid" (VStr b0) in
  do! (if (1 <? length buildids)%nat
       then let! b := lift (get_item buildids fi) in set_key firm "buildid" (VStr b)
       else ret tt) in
  let! i0 := lift (get_item ipsws 0) in
  do! set_key firm "url" (VStr (url i0)) in
  let! z0 := lift (get_item ipsw_sizes 0) in
  do! set_key firm "size" (VInt z0) in
  if (1 <? length ipsws)%nat
  then
    let! i := lift (get_item ipsws fi) in
    do! set_key firm "url" (VStr (url i)) in
    let! z := lift (get_item ipsw_sizes fi) in
    set_key firm "size" (VInt z)
  else ret tt.

(** Lines 93-97 *)
Definition commit_record (device : string) (firm : loc) : M unit :=
  do! ensure_device device in
  let! records := device_list device in
  let! seen := (fun s => (any_same_buildid (heap s) (deref (heap s) firm) records, s)) in
  if seen then ret tt else append_record device firm.

(** What lines 38-75 extract from a row for the loop of line 77. *)
Record row_fields := {
  devices : list string;
  buildids : list string;
  ipsws : list ExternalLink;
  ipsw_sizes : list Z;
  firm : loc
}.

(** Lines 78-97: one turn of the loop, for the device at position [d]. *)
Definition device_step (r : row_fields) (d : nat) : M unit :=
  let fi := firm_index (length (devices r)) d in
  do! store_fields (firm r) (buildids r) (ipsws r) (ipsw_sizes r) fi in
  let! f := load (firm r) in
  if (size f <? 4)%nat then ret tt          (* incomplete firmware info *)
  else
    let! device := lift (get_item (devices r) d) in
    commit_record device (firm r).

(** Lines 38-75: the extraction steps of one data row; [None] when one of
    the three [continue]s is taken. *)
Definition row_setup (template row : list (option string)) : M (option row_fields) :=
  let firm_data := omap id row in
  let! idx := lift (template_index template) in
  let! keys := lift (get_item firm_data idx) in
  let devices := row_devices keys in
  let! firm := alloc in
  let! cell0 := lift (get_item firm_data 0) in
  let! version := lift (row_version cell0) in
  do! set_key firm "version" (VStr version) in
  let! cell1 := lift (get_item firm_data 1) in
  let buildids := row_buildids cell1 in
  match first_external_links firm_data with
  | None => ret None                          (* no URLs for this firmware *)
  | Some ipsws =>
      if negb (existsb (fun ipsw => endswith ".ipsw" (url ipsw)) ipsws)
      then ret None                           (* only IPSW firmwares *)
      else
        let! last_cell := lift (get_last firm_data) in
        let! ipsw_sizes := lift (row_sizes last_cell) in
        if negb (length ipsw_sizes =? length ipsws)%nat
        then ret None                         (* a size is missing *)
        else ret (Some {| devices := devices; buildids := buildids;
                          ipsws := ipsws; ipsw_sizes := ipsw_sizes;
                          firm := firm |})
  end.

(** Lines 38-97: one data row of a table. *)
Definition process_row (template row : list (option string)) : M unit :=
  let! r := row_setup template row in
  match r with
  | None => ret tt
  | Some r => for_each (seq 0 (length (devices r))) (device_step r)
  end.

(** Lines 35-37 *)
Definition process_table (data : table_data) : M unit :=
  let! template := lift (get_item data 0) in
  for_each (tail data) (process_row template).

Variable site : Site.

(** Lines 26-34 *)
Definition process_page (device_types : list string) (title : string) : M unit :=
  let! go := lift (page_gate device_types title) in
  if go then for_each (page_tables site title) process_table else ret tt.

Definition build_api (device_types : list string) : M unit :=
  for_each (search site) (process_page device_types).

End Extractor.

(** ** A reference parser for flat markup

    The claims below hold for whatever the parser returns.  To run the
    extractor on concrete cells, these scanners give the links of markup
    without nesting, templates or comments, the way wikitextparser does:
    a wiki-link is [[[target]]] or [[[target|text]]], an external link is
    [[url label]] with an http or https url. *)

Fixpoint until_close (s : string) : option (string * string) :=
  match s with
  | String "]" (String "]" r) => Some (EmptyString, r)
  | String c s' =>
      match until_close s' with
      | Some (inner, r) => Some (String c inner, r)
      | None => None
      end
  | EmptyString => None
  end.

Fixpoint after_pipe (s : string) : option string :=
  match s with
  | String "|" r => Some r
  | String _ s' => after_pipe s'
  | EmptyString => None
  end.

Fixpoint scan_wikilinks (skip : nat) (s : string) : list WikiLink :=
  match s with
  | EmptyString => []
  | String c s' =>
      match skip with
      | S k => scan_wikilinks k s'
      | O =>
          match s with
          | String "[" (String "[" body) =>
              match until_close body with
              | Some (inner, _) =>
                  {| wl_string := "[[" +:+ inner +:+ "]]"; wl_text := after_pipe inner |}
                    :: scan_wikilinks (String.length inner + 3) s'
              | None => scan_wikilinks 0 s'
              end
          | _ => scan_wikilinks 0 s'
          end
      end
  end.

Definition flat_wikilinks (s : string) : list WikiLink := scan_wikilinks 0 s.

Fixpoint url_text (s : string) : string :=
  match s with
  | String c s' =>
      if (Ascii.eqb c " " || Ascii.eqb c "]")%bool then EmptyString
      else String c (url_text s')
  | EmptyString => EmptyString
  end.

Fixpoint flat_external_links (s : string) : list ExternalLink :=
  match s with
  | EmptyString => []
  | String c s' =>
      if Ascii.eqb c "[" && (String.prefix "http://" s' || String.prefix "https://" s')
      then {| url := url_text s' |} :: flat_external_links s'
      else flat_external_links s'
  end.


(** ** [get_signing_status] *)

(** [records.index(firm)]: the first position holding a dict equal to
    [firm]; [ValueError] when there is none. *)
Fixpoint index_of (h : list pydict) (firm : pydict) (records : list loc) : outcome nat :=
  match records with
  | [] => Raise ValueError
  | f :: records' =>
      if dict_eq (deref h f) firm then Ok 0%nat
      else let? i := index_of h firm records' in Ok (S i)
  end.

(** [self.api[device].pop(i)] for an index in range *)
Definition pop_record (device : string) (i : nat) : M unit :=
  let! records := device_list device in
  fun s => (Ok tt, Scraper (heap s) (<[device := delete i records]> (api s))).

Section Signing.

(** The collaborators of the signing pass.
    - [boardconfig_of device]: the [boardconfig] of the device's first
      board in the answer of api.ipsw.me, or the exception of the lookup;
    - [fetch_manifest url]: the name of the archive member with
      [Manifest] in its name, extracted from the remote archive; [None]
      when anything inside the [try] raises;
    - [tsschecker device boardconfig manifest]: what the tool prints. *)
Variable boardconfig_of : string -> outcome string.
Variable fetch_manifest : string -> option string.
Variable tsschecker : string -> string -> string -> string.

(** Lines 104-106 on the dict [f] *)
Definition try_manifest (f : pydict) : option string :=
  match f !! "url" with
  | Some (VStr u) => fetch_manifest u
  | _ => None
  end.

(** Lines 102-122.  A Python list iterator holds the list object and an
    index [i]; each turn reads the list as it is then.  The list never
    grows, so [fuel] = its length at entry is enough turns. *)
Fixpoint signing_loop (fuel : nat) (device boardconfig : string) (i : nat) : M unit :=
  let! records := device_list device in
  match records !! i with
  | None => ret tt                              (* iterator exhausted *)
  | Some firm =>
      match fuel with
      | O => ret tt
      | S fuel' =>
          let! f := load firm in
          match try_manifest f with
          | None =>
              let! j := (fun s => (index_of (heap s) f records, s)) in
              do! pop_record device j in
              signing_loop fuel' device boardconfig (S i)
          | Some manifest =>
              let out := tsschecker device boardconfig manifest in
              do! set_key firm "signed" (VBool (contains "IS being signed!" out)) in
              signing_loop fuel' device boardconfig (S i)
          end
      end
  end.

Definition get_signing_status (device : string) : M unit :=
  let! boardconfig := lift (boardconfig_of device) in
  let! records := device_list device in
  signing_loop (length records) device boardconfig 0.

End Signing.

(** ** [write_api] *)

(** The file system: a path is the list of its components below the working
    directory (which is [[]] and always a directory); a regular file holds
    the list of records [json.dump] wrote into it. *)
Inductive node :=
  | File (data : list pydict)
  | Dir.

Global Instance node_eq_dec : EqDecision node.
Proof. solve_decision. Defined.

Abbreviation filesystem := (gmap (list string) node).

Definition is_dir (fs : filesystem) (p : list string) : bool :=
  match p with
  | [] => true
  | _ => bool_decide (fs !! p = Some Dir)
  end.

(** [os.path.exists(p)] *)
Definition path_exists (fs : filesystem) (p : list string) : bool :=
  match p with
  | [] => true
  | _ => bool_decide (is_Some (fs !! p))
  end.

(** [shutil.rmtree(p)]: removes the directory and all below it; raises on
    anything that is not a directory. *)
Definition rmtree (p : list string) (fs : filesystem) : outcome filesystem :=
  if is_dir fs p
  then Ok (filter (fun kv => ¬ p `prefix_of` kv.1) fs)
  else Raise OSError.

(** [os.mkdir(p)]: the path must be free and its parent a directory. *)
Definition mkdir (p : list string) (fs : filesystem) : outcome filesystem :=
  if path_exists fs p then Raise OSError
  else if is_dir fs (removelast p) then Ok (<[p := Dir]> fs)
  else Raise OSError.

(** [open(p, 'w')] followed by [json.dump(data, f)]: the parent must be a
    directory and [p] must not be one. *)
Definition write_file (p : list string) (data : list pydict) (fs : filesystem)
  : outcome filesystem :=
  if is_dir fs p then Raise OSError
  else if is_dir fs (removelast p) then Ok (<[p := File data]> fs)
  else Raise OSError.

(** [firm['buildid']] as a sort key; the build ids [build_api] stores are
    strings. *)
Definition buildid_key (f : pydict) : outcome string :=
  match f !! "buildid" with
  | Some (VStr b) => Ok b
  | Some _ => Raise TypeError
  | None => Raise KeyError
  end.

(** [sorted(records, key=..., reverse=True)]: descending and stable, so a
    record goes in front of the first one whose key is not greater. *)
Fixpoint insert_desc (x : string * pydict) (l : list (string * pydict))
  : list (string * pydict) :=
  match l with
  | [] => [x]
  | y :: l' => if String.ltb x.1 y.1 then y :: insert_desc x l' else x :: l
  end.

Fixpoint keyed (records : list pydict) : outcome (list (string * pydict)) :=
  match records with
  | [] => Ok []
  | f :: records' =>
      let? k := buildid_key f in
      let? rest := keyed records' in
      Ok ((k, f) :: rest)
  end.

Definition sorted_desc (records : list pydict) : outcome (list pydict) :=
  let? ks := keyed records in
  Ok ((foldr insert_desc [] ks).*2).

(** Lines 129-131.  The file of [device] is the entry [device] of the
    directory [path]: this is what [f'{path}/{device}'] names when
    [device] is a file name, that is, not empty, without a slash and not a
    dot name.  The keys [build_api] stores are device identifiers
    ([keys_are_device_ids]), which are such names; for other keys the
    function says nothing about the code. *)
Fixpoint write_devices (path : list string) (s : scraper) (keys : list string)
    (fs : filesystem) : outcome filesystem :=
  match keys with
  | [] => Ok fs
  | device :: keys' =>
      let? data := sorted_desc (records_of s device) in
      let? fs := write_file (path ++ [device]) data fs in
      write_devices path s keys' fs
  end.

(** [self.api.keys()].  Python visits the keys in insertion order, which the
    map does not record; the files written do not depend on the order. *)
Definition api_keys (s : scraper) : list string := (map_to_list (api s)).*1.

Definition write_api (path : list string) (s : scraper) (fs : filesystem)
  : outcome filesystem :=
  let? fs := (if path_exists fs path then rmtree path fs else Ok fs) in
  let? fs := mkdir path fs in
  write_devices path s (api_keys s) fs.

(** ** The claims as the specification words them *)

(** The family minimum of the specification: 7 for Apple TV pages, 9 for
    the others. *)
Definition family_minimum (title : string) : Z :=
  if contains "Apple TV" title then 7%Z else 9%Z.

(** The page filter as the specification words it, for a page of major
    version [mv]. *)
Definition gate_as_specified (device_types : list string) (title : string) (mv : Z) : bool :=
  contains ".x" title
  && existsb (fun x => contains x title) device_types
  && (family_minimum title <=? mv)%Z.

(** White space, as the tokens of a text are separated by it: tab to
    carriage return, the separators 28-31, the space, the next-line control
    and the no-break space. *)
Definition is_white (c : ascii) : bool :=
  let n := nat_of_ascii c in
  ((9 <=? n)%nat && (n <=? 13)%nat) || ((28 <=? n)%nat && (n <=? 32)%nat)
  || (n =? 133)%nat || (n =? 160)%nat.

(** The whitespace-separated tokens of a text: its maximal runs of
    characters that are not white space.  [cur] is the run being read. *)
Fixpoint tokens_go (cur s : string) : list string :=
  match s with
  | EmptyString => match cur with EmptyString => [] | _ => [cur] end
  | String c s' =>
      if is_white c
      then match cur with
           | EmptyString => tokens_go EmptyString s'
           | _ => cur :: tokens_go EmptyString s'
           end
      else tokens_go (cur +:+ String c EmptyString) s'
  end.

Definition whitespace_tokens (s : string) : list string := tokens_go EmptyString s.

(** A text without the occurrences of one character. *)
Fixpoint delete_char (c : ascii) (s : string) : string :=
  match s with
  | EmptyString => EmptyString
  | String a s' => if Ascii.eqb a c then delete_char c s' else String a (delete_char c s')
  end.

(** A token with its commas and line feeds stripped. *)
Definition strip_token (tok : string) : string :=
  delete_char "010"%char (delete_char ","%char tok).

(** The sizes among a list of tokens: those that, stripped, are purely
    numeric and greater than 10, read in decimal. *)
Definition sizes_of_tokens (tokens : list string) : list Z :=
  digits_val 0 <$>
    filter (fun w => isdecimal w = true /\ (10 < digits_val 0 w)%Z)
           (strip_token <$> tokens).

(** The sizes of a cell as the specification words them, from its
    whitespace-separated tokens. *)
Definition sizes_as_specified (cell : string) : list Z :=
  sizes_of_tokens (whitespace_tokens cell).

(** The pieces of a text between the occurrences of one character. *)
Fixpoint fields (c : ascii) (s : string) : list string :=
  match s with
  | EmptyString => [EmptyString]
  | String a s' =>
      if Ascii.eqb a c then EmptyString :: fields c s'
      else match fields c s' with
           | piece :: rest => String a piece :: rest
           | [] => [String a EmptyString]
           end
  end.

(** The sizes of a cell with the tokens taken between single spaces. *)
Definition sizes_between_spaces (cell : string) : list Z :=
  sizes_of_tokens (fields " "%char cell).

(** No label of the template contains Codename or Keys (a [None] label
    contains nothing). *)
Definition no_device_column (template : list (option string)) : bool :=
  forallb (fun x => match x with
                    | Some label => negb (contains "Codename" label || contains "Keys" label)
                    | None => true
                    end) template.

(** Every label of the template is a string. *)
Definition all_labels (template : list (option string)) : bool :=
  forallb (fun x => match x with Some _ => true | None => false end) template.

(** The exception of line 41 on a template without a Codename or Keys
    label: the generator is exhausted when all labels are strings; the test
    [i in x] fails on the first [None] label otherwise. *)
Definition no_column_exn (template : list (option string)) : exn :=
  if all_labels template then StopIteration else TypeError.

(** ** Concrete pages *)

Definition demo_template : list (option string) :=
  [Some "Version"; Some "Build"; Some "Keys"; Some "Release Date";
   Some "IPSW Download URL"; Some "File Size"].

(** Four devices, two build variants. *)
Definition row_four : list (option string) :=
  [Some "14.5 beta 1";
   Some "{{x   | A = 18E5154a}   | B = 18E5154b}   | }}";
   Some "[[k|iPhone12,1]] [[k|iPhone12,3]] [[k|iPhone12,5]] [[k|iPhone12,8]]";
   Some "Feb 1 2021";
   Some "[http://example/a.ipsw a] [http://example/b.ipsw b]";
   Some "5,432,100,000 6,123,400,000"].

(** Two devices, two build variants. *)
Definition row_two : list (option string) :=
  [Some "14.5 beta 2";
   Some "{{x   | A = 18E5164a}   | B = 18E5164b}   | }}";
   Some "[[k|iPhone13,1]] [[k|iPhone13,2]]";
   Some "Feb 16 2021";
   Some "[http://example/c.ipsw c] [http://example/d.ipsw d]";
   Some "5,432,100,001 6,123,400,001"].

(** One device, one build. *)
Definition row_one : list (option string) :=
  [Some "14.5 beta 1"; Some "18E5154b"; Some "[[k|iPhone12,1]]"; Some "Feb 1 2021";
   Some "[http://example/b.ipsw b]"; Some "6,123,400,000"].

(** The same build as [row_one] for the second of two devices. *)
Definition row_pair : list (option string) :=
  [Some "14.5 beta 1";
   Some "{{x   | A = 18E5154a}   | B = 18E5154b}   | }}";
   Some "[[k|iPhone12,1]] [[k|iPhone12,3]]";
   Some "Feb 1 2021";
   Some "[http://example/a.ipsw a] [http://example/b.ipsw b]";
   Some "5,432,100,000 6,123,400,000"].

(** A version cell that is a wiki-link without a pipe. *)
Definition row_bare_link : list (option string) :=
  [Some "[[iOS 10.1 beta 1]]"; Some "14B72"; Some "[[k|iPhone12,1]]"; Some "Oct 31 2016";
   Some "[http://example/b.ipsw b]"; Some "6,123,400,000"].

(** A row with cells in its first two columns only: compacted, it has no
    cell at the position of the Keys column. *)
Definition row_short : list (option string) :=
  [Some "14.5 beta 1"; Some "18E5154b"; None; None; None; None].

(** A row without any download link, and one with an OTA link only. *)
Definition row_no_link : list (option string) :=
  [Some "14.5 beta 1"; Some "18E5154b"; Some "[[k|iPhone12,1]]"; Some "Feb 1 2021";
   Some "N/A"; Some "6,123,400,000"].

Definition row_ota : list (option string) :=
  [Some "14.5 beta 1"; Some "18E5154b"; Some "[[k|iPhone12,1]]"; Some "Feb 1 2021";
   Some "[http://example/b.zip b]"; Some "6,123,400,000"].

(** A row with two links and one size. *)
Definition row_one_size : list (option string) :=
  [Some "14.5 beta 1";
   Some "{{x   | A = 18E5154a}   | B = 18E5154b}   | }}";
   Some "[[k|iPhone12,1]] [[k|iPhone12,3]]";
   Some "Feb 1 2021";
   Some "[http://example/a.ipsw a] [http://example/b.ipsw b]";
   Some "5,432,100,000 [1]"].

(** Two sizes on two lines, and a size followed by the footnote mark of a
    superscript two.  The characters are given by their codes: a string
    written out in this file holds the bytes of its UTF-8 form. *)
Definition cell_two_lines : string :=
  "5,432,100,000" +:+ String "010"%char "6,123,400,000".

Definition cell_superscript : string :=
  "5,432,100,000 " +:+ String "178"%char EmptyString.

Definition row_two_lines : list (option string) :=
  [Some "14.5 beta 1";
   Some "{{x   | A = 18E5154a}   | B = 18E5154b}   | }}";
   Some "[[k|iPhone12,1]] [[k|iPhone12,3]]";
   Some "Feb 1 2021";
   Some "[http://example/a.ipsw a] [http://example/b.ipsw b]";
   Some cell_two_lines].

Definition row_superscript : list (option string) :=
  [Some "14.5 beta 1"; Some "18E5154b"; Some "[[k|iPhone12,1]]"; Some "Feb 1 2021";
   Some "[http://example/b.ipsw b]"; Some cell_superscript].

(** A template without a Codename or Keys column. *)
Definition template_no_keys : list (option string) :=
  [Some "Version"; Some "Build"; Some "Devices"; Some "Release Date";
   Some "IPSW Download URL"; Some "File Size"].

(** The same with a header cell missing: the parser pads the row with
    [None]. *)
Definition template_padded : list (option string) :=
  [Some "Version"; Some "Build"; Some "Devices"; Some "Release Date";
   Some "IPSW Download URL"; None].

Definition site_of (tables : list table_data) : Site :=
  {| search := ["Beta Firmware/iPhone/14.x"]; page_tables := fun _ => tables |}.

(** [build_api(('iPhone',))] on a fresh scraper over one page with the given
    tables. *)
Definition run (tables : list table_data) : outcome unit * scraper :=
  build_api flat_wikilinks flat_external_links (site_of tables) ["iPhone"] empty_scraper.

Definition field_of (k : string) (s : scraper) (device : string) : list (option pyval) :=
  (fun f => f !! k) <$> records_of s device.

(** A scraper holding two records of one device, the first with a dead
    download link. *)
Definition record (version buildid link : string) (sz : Z) : pydict :=
  <["version" := VStr version]> (<["buildid" := VStr buildid]>
    (<["url" := VStr link]> (<["size" := VInt sz]> ∅))).

Definition two_records : scraper :=
  Scraper [record "14.5 beta 1" "18E5154a" "http://example/dead.ipsw" 5432100000;
           record "14.5 beta 2" "18E5164a" "http://example/live.ipsw" 5432100001]
          {["iPhone12,1" := [0; 1]%nat]}.

Definition demo_boardconfig (device : string) : outcome string := Ok "N104AP".

Definition demo_fetch (link : string) : option string :=
  if String.eqb link "http://example/live.ipsw" then Some "BuildManifest.plist" else None.

Definition demo_tsschecker (device boardconfig manifest : string) : string :=
  "Build 18E5164a for device iPhone12,1 IS being signed!".

(** A file system where an earlier run left output and a stray subtree. *)
Definition old_fs : filesystem :=
  {[ ["betas"] := Dir;
     ["betas"; "iPhone1,1"] := File [];
     ["betas"; "old"] := Dir;
     ["betas"; "old"; "x"] := File [];
     ["other"] := File [] ]}.

(** ** Predicates on states *)

(** [keeps_records s s']: going from [s] to [s'] touched no device list and
    no dict that existed in [s]. *)
Definition keeps_records (s s' : scraper) : Prop :=
  api s' = api s /\ heap s `prefix_of` heap s'.

(** Every location in a device list refers to a dict of the store. *)
Definition well_formed (s : scraper) : Prop :=
  forall device ls l, api s !! device = Some ls -> l ∈ ls -> (l < length (heap s))%nat.

(** [fields_from l s s']: from [s] to [s'] the device lists and the size of
    the store are unchanged and the dict at [l] kept its keys, gaining at
    most the three fields of the loop. *)
Definition fields_from (l : loc) (s s' : scraper) : Prop :=
  api s' = api s
  /\ length (heap s') = length (heap s)
  /\ dom (deref (heap s) l) ⊆ dom (deref (heap s') l)
  /\ dom (deref (heap s') l) ⊆ dom (deref (heap s) l) ∪ {["buildid"; "url"; "size"]}.

(** The four fields of a complete record. *)
Definition four_keys : gset string := {["version"; "buildid"; "url"; "size"]}.

(** The row's dict is in the store, has its version and no foreign key. *)
Definition firm_ready (l : loc) (s : scraper) : Prop :=
  (l < length (heap s))%nat
  /\ "version" ∈ dom (deref (heap s) l)
  /\ dom (deref (heap s) l) ⊆ four_keys.

(** Every entry of the file system sits in a directory. *)
Definition fs_wf (fs : filesystem) : bool :=
  forallb (fun qn => is_dir fs (removelast qn.1)) (map_to_list fs).

(** Every record of every device has a string under buildid. *)
Definition buildids_are_strings (s : scraper) : bool :=
  forallb (fun device =>
             forallb (fun f => match f !! "buildid" with
                               | Some (VStr _) => true
                               | _ => false
                               end) (records_of s device))
          (api_keys s).

(** The fields extracted from [row_pair] on a fresh scraper, and the states
    of the loop up to the guard in the turn of its second device. *)
Definition demo_fields : row_fields :=
  match (row_setup flat_wikilinks flat_external_links demo_template row_pair
           empty_scraper).1 with
  | Ok (Some r) => r
  | _ => {| devices := []; buildids := []; ipsws := []; ipsw_sizes := []; firm := 0 |}
  end.

Definition demo_s0 : scraper :=
  (row_setup flat_wikilinks flat_external_links demo_template row_pair empty_scraper).2.

Definition demo_s1 : scraper :=
  (for_each (seq 0 1) (device_step demo_fields) demo_s0).2.

Definition demo_s2 : scraper :=
  (store_fields (firm demo_fields) (buildids demo_fields) (ipsws demo_fields)
     (ipsw_sizes demo_fields) (firm_index (length (devices demo_fields)) 1) demo_s1).2.

(** The device lists refer to dicts of the store that carry a string under
    buildid. *)
Definition sound (s : scraper) : Prop :=
  forall device ls l, api s !! device = Some ls -> l ∈ ls ->
    (l < length (heap s))%nat
    /\ exists b, deref (heap s) l !! "buildid" = Some (VStr b).

(** [sound], with the row's dict in the store. *)
Definition loop_sound (l : loc) (s : scraper) : Prop :=
  sound s /\ (l < length (heap s))%nat.

(** ** Further predicates *)

(** The number of occurrences of a character. *)
Fixpoint count_char (c : ascii) (s : string) : nat :=
  match s with
  | EmptyString => 0
  | String a s' => (if Ascii.eqb c a then 1 else 0) + count_char c s'
  end.

(** The test of line 27, positively: the title has the version-range marker
    and names a requested family. *)
Definition title_selected (device_types : list string) (title : string) : bool :=
  contains ".x" title && existsb (fun x => contains x title) device_types.

(** The shape of a device identifier: one of the four names, digits, a
    comma, digits. *)
Definition is_device_id (g : string) : Prop :=
  exists p d1 d2,
    p ∈ device_prefixes /\ isdecimal d1 = true /\ isdecimal d2 = true
    /\ g = p +:+ d1 +:+ "," +:+ d2.

(** Every key of [self.api] is a device identifier. *)
Definition keys_are_device_ids (s : scraper) : Prop :=
  forall device, device ∈ dom (api s) -> is_device_id device.

(** A row whose Build cell has the separator once. *)
Definition row_one_separator : list (option string) :=
  [Some "14.5 beta 1"; Some "18E5154a   | 18E5154b";
   Some "[[k|iPhone12,1]] [[k|iPhone12,3]]"; Some "Feb 1 2021";
   Some "[http://example/b.ipsw b]"; Some "6,123,400,000"].

Definition demo_fields_sep : row_fields :=
  match (row_setup flat_wikilinks flat_external_links demo_template row_one_separator
           empty_scraper).1 with
  | Ok (Some r) => r
  | _ => {| devices := []; buildids := []; ipsws := []; ipsw_sizes := []; firm := 0 |}
  end.

Definition demo_s0_sep : scraper :=
  (row_setup flat_wikilinks flat_external_links demo_template row_one_separator
     empty_scraper).2.

(** A complete record: the four fields with the types the scraper gives
    them, the size above 10. *)
Definition complete_record (f : pydict) : Prop :=
  (exists v, f !! "version" = Some (VStr v))
  /\ (exists b, f !! "buildid" = Some (VStr b))
  /\ (exists u, f !! "url" = Some (VStr u))
  /\ (exists z, f !! "size" = Some (VInt z) /\ (10 < z)%Z).

(** Every record a device list refers to is in the store and complete. *)
Definition complete (s : scraper) : Prop :=
  forall device ls l, api s !! device = Some ls -> l ∈ ls ->
    (l < length (heap s))%nat /\ complete_record (deref (heap s) l).

(** [complete], with the row's dict in the store and its version set. *)
Definition loop_complete (l : loc) (s : scraper) : Prop :=
  complete s
  /\ (l < length (heap s))%nat
  /\ exists v, deref (heap s) l !! "version" = Some (VStr v).

(** From [s] to [s'] no device and no record was removed: every device list
    of [s] is extended in [s'], and the store did not shrink. *)
Definition grows (s s' : scraper) : Prop :=
  (length (heap s) <= length (heap s'))%nat
  /\ forall device ls, api s !! device = Some ls ->
       exists more, api s' !! device = Some (ls ++ more).

(** What the signing pass for [device] may change from [s] to [s']: the
    [signed] field of dicts, and the list of [device], from which records
    may go. *)
Definition signing_frame (device : string) (s s' : scraper) : Prop :=
  length (heap s') = length (heap s)
  /\ (forall l k, k <> "signed" -> deref (heap s') l !! k = deref (heap s) l !! k)
  /\ (forall d, d <> device -> api s' !! d = api s !! d)
  /\ match api s !! device with
     | Some ls => exists ls', api s' !! device = Some ls' /\ ls' `sublist_of` ls
     | None => api s' !! device = None
     end.

(** The record at [l] carries the verdict of the tool on its manifest. *)
Definition signed_by (fetch_manifest : string -> option string)
    (tsschecker : string -> string -> string -> string)
    (device boardconfig : string) (s : scraper) (l : loc) : Prop :=
  exists manifest,
    try_manifest fetch_manifest (deref (heap s) l) = Some manifest
    /\ deref (heap s) l !! "signed"
       = Some (VBool (contains "IS being signed!" (tsschecker device boardconfig manifest))).

(** A fetch under which every download resolves. *)
Definition demo_fetch_all (link : string) : option string := Some "BuildManifest.plist".

(** The dict at [l] holds the given version, build id, url and size. *)
Definition holds_fields (s : scraper) (l : loc) (v b u : string) (z : Z) : Prop :=
  deref (heap s) l !! "version" = Some (VStr v)
  /\ deref (heap s) l !! "buildid" = Some (VStr b)
  /\ deref (heap s) l !! "url" = Some (VStr u)
  /\ deref (heap s) l !! "size" = Some (VInt z).

(** The list of [device] has a record with build id [b]. *)
Definition has_build (s : scraper) (device b : string) : Prop :=
  exists ls l, api s !! device = Some ls /\ l ∈ ls
               /\ deref (heap s) l !! "buildid" = Some (VStr b).

(** The state of the loop over the devices of a row that started in [s0],
    with the row's dict at [l] and its version [v]: the records all have a
    build id, the row's dict has its version and no foreign key, no other
    dict has changed, and every record of a device list is the row's dict
    or was in the list before the loop. *)
Definition single_loop (l : loc) (v : string) (s0 s : scraper) : Prop :=
  sound s
  /\ (l < length (heap s))%nat
  /\ dom (deref (heap s) l) ⊆ four_keys
  /\ deref (heap s) l !! "version" = Some (VStr v)
  /\ (forall l', l' <> l -> deref (heap s) l' = deref (heap s0) l')
  /\ (forall device ls l', api s !! device = Some ls -> l' ∈ ls ->
        l' = l \/ exists ls0, api s0 !! device = Some ls0 /\ l' ∈ ls0).

Definition demo_fields_one : row_fields :=
  match (row_setup flat_wikilinks flat_external_links demo_template row_one
           empty_scraper).1 with
  | Ok (Some r) => r
  | _ => {| devices := []; buildids := []; ipsws := []; ipsw_sizes := []; firm := 0 |}
  end.

Definition demo_s0_one : scraper :=
  (row_setup flat_wikilinks flat_external_links demo_template row_one empty_scraper).2.

(** Facts about single characters are settled by running through the 256
    of them. *)
Ltac by_cases_on c :=
  destruct c as [[] [] [] [] [] [] [] []]; vm_compute; (reflexivity || discriminate || tauto).

(** A field of a dict after the inserts of the loop. *)
Ltac field_typed :=
  simplify_map_eq; eexists; first [done | split; [done | by eauto]].

(** * Properties *)

Example split_demo :
  py_split " " "a  b " = ["a"; EmptyString; "b"; EmptyString]
  /\ py_split "   | " "x   | A = 1a}   | B = 2b}   | y" = ["x"; "A = 1a}"; "B = 2b}"; "y"]
  /\ py_replace "[[a|b]]" "b" "see [[a|b]] and [[a|b]]" = "see b and b"
  /\ py_replace EmptyString "-" "ab" = "-a-b-"
  /\ py_int " 0_12 " = Some 12%Z /\ py_int "9." = None /\ py_int EmptyString = None
  /\ endswith ".ipsw" "http://x/a.ipsw" = true
  /\ drop_last 2 "10.x" = "10".
Proof. repeat split; reflexivity. Qed.

Example flat_parser_demo :
  flat_wikilinks "[[iOS 10.1 beta 1]]"
    = [{| wl_string := "[[iOS 10.1 beta 1]]"; wl_text := None |}]
  /\ flat_wikilinks "[[N71AP|iPhone8,1]] [[N66AP|iPhone8,2]]"
    = [{| wl_string := "[[N71AP|iPhone8,1]]"; wl_text := Some "iPhone8,1" |};
       {| wl_string := "[[N66AP|iPhone8,2]]"; wl_text := Some "iPhone8,2" |}]
  /\ flat_external_links "[http://example/a.ipsw a] 5,432,100,000"
    = [{| url := "http://example/a.ipsw" |}]
  /\ device_match "iPhone8,1" = Some "iPhone8,1"
  /\ device_match "iPad6,11 (Wi-Fi)" = Some "iPad6,11"
  /\ device_match "None" = None
  /\ device_match "iPhone,1" = None.
Proof. repeat split; reflexivity. Qed.

(** ** The shared record of a row *)

(** C1. On a 4-device row with build ids [18E5154a; 18E5154b] and on a
    2-device row with build ids [18E5164a; 18E5164b], every device of the
    row ends up with the row's second build id, url and size: the device
    lists all hold the one dict of the row (location 0, resp. 1), which the
    later turns of the loop overwrite.  The first two devices of the
    4-device row and the first device of the 2-device row do not carry the
    first build id. *)
Theorem shared_record_overwrites_buildid :
  let s := (run [[demo_template; row_four; row_two]]).2 in
  (run [[demo_template; row_four; row_two]]).1 = Ok tt
  /\ row_buildids "{{x   | A = 18E5154a}   | B = 18E5154b}   | }}" = ["18E5154a"; "18E5154b"]
  /\ firm_index 4 0 = 0%nat /\ firm_index 4 1 = 0%nat
  /\ firm_index 4 2 = 1%nat /\ firm_index 4 3 = 1%nat
  /\ firm_index 2 0 = 0%nat /\ firm_index 2 1 = 1%nat
  /\ api s !! "iPhone12,1" = Some [0%nat] /\ api s !! "iPhone12,3" = Some [0%nat]
  /\ api s !! "iPhone12,5" = Some [0%nat] /\ api s !! "iPhone12,8" = Some [0%nat]
  /\ field_of "buildid" s "iPhone12,1" = [Some (VStr "18E5154b")]
  /\ field_of "buildid" s "iPhone12,3" = [Some (VStr "18E5154b")]
  /\ field_of "buildid" s "iPhone12,5" = [Some (VStr "18E5154b")]
  /\ field_of "buildid" s "iPhone12,8" = [Some (VStr "18E5154b")]
  /\ field_of "url" s "iPhone12,1" = [Some (VStr "http://example/b.ipsw")]
  /\ field_of "size" s "iPhone12,1" = [Some (VInt 6123400000)]
  /\ field_of "buildid" s "iPhone13,1" = [Some (VStr "18E5164b")]
  /\ field_of "buildid" s "iPhone13,2" = [Some (VStr "18E5164b")].
Proof. vm_compute. repeat split; reflexivity. Qed.

(** C2. After a row that gives iPhone12,1 the build 18E5154b, a 2-device
    row appends its dict to the list of iPhone12,1 under the build id
    18E5154a and then overwrites that build id with 18E5154b for the second
    device: the list of iPhone12,1 ends with two records of equal build id. *)
Theorem duplicate_buildid_after_overwrite :
  let s := (run [[demo_template; row_one; row_pair]]).2 in
  (run [[demo_template; row_one; row_pair]]).1 = Ok tt
  /\ api s !! "iPhone12,1" = Some [0; 1]%nat
  /\ field_of "buildid" s "iPhone12,1" = [Some (VStr "18E5154b"); Some (VStr "18E5154b")].
Proof. vm_compute. repeat split; reflexivity. Qed.

(** ** The page gate *)

(** C4. The Apple TV page of major version 9 is requested, carries the
    version-range marker and is at or above the family minimum of 7, yet the
    gate skips it: for an Apple TV title the test of line 31 is the
    constant 7, which is true. *)
Theorem apple_tv_page_skipped :
  major_version "Beta Firmware/Apple TV/9.x" = Ok 9%Z
  /\ gate_as_specified ["Apple TV"] "Beta Firmware/Apple TV/9.x" 9 = true
  /\ page_gate ["Apple TV"] "Beta Firmware/Apple TV/9.x" = Ok false.
Proof. repeat split; reflexivity. Qed.

(** ** The version cell *)

(** C5. The version cell that is the bare wiki-link of iOS 10.1 beta 1 has
    a first link without display text; [str.replace] then gets [None] and
    raises [TypeError], which leaves [build_api]: the row gives no record,
    and neither does the well-formed row after it. *)
Theorem bare_wikilink_version_raises :
  flat_wikilinks "[[iOS 10.1 beta 1]]"
    = [{| wl_string := "[[iOS 10.1 beta 1]]"; wl_text := None |}]
  /\ row_version flat_wikilinks "[[iOS 10.1 beta 1]]" = Raise TypeError
  /\ (run [[demo_template; row_bare_link; row_one]]).1 = Raise TypeError
  /\ api (run [[demo_template; row_bare_link; row_one]]).2 = ∅
  /\ field_of "version" (run [[demo_template; row_one]]).2 "iPhone12,1"
       = [Some (VStr "14.5 beta 1")].
Proof. vm_compute. repeat split; reflexivity. Qed.

(** ** The signing pass *)

(** C6. With two records of which the first has a dead link, the pass
    removes the first and returns without having visited the second (the
    iterator's index has moved past it): the second record stays in the
    list without a [signed] field, although its download resolves.  When
    both links are dead the second record stays as well. *)
Theorem signing_skips_record_after_removal :
  let r := get_signing_status demo_boardconfig demo_fetch demo_tsschecker
             "iPhone12,1" two_records in
  let r' := get_signing_status demo_boardconfig (fun _ => None) demo_tsschecker
              "iPhone12,1" two_records in
  r.1 = Ok tt
  /\ api r.2 !! "iPhone12,1" = Some [1%nat]
  /\ field_of "signed" r.2 "iPhone12,1" = [None]
  /\ field_of "url" r.2 "iPhone12,1" = [Some (VStr "http://example/live.ipsw")]
  /\ demo_fetch "http://example/live.ipsw" = Some "BuildManifest.plist"
  /\ r'.1 = Ok tt
  /\ api r'.2 !! "iPhone12,1" = Some [1%nat]
  /\ field_of "signed" r'.2 "iPhone12,1" = [None].
Proof. vm_compute. repeat split; reflexivity. Qed.

(** ** Reasoning about the scraper monad *)

Lemma bind_ok {A B} (m : M A) (k : A -> M B) s a s' :
  m s = (Ok a, s') -> bind m k s = k a s'.
Proof. intros H. unfold bind. by rewrite H. Qed.

Lemma bind_raise {A B} (m : M A) (k : A -> M B) s e s' :
  m s = (Raise e, s') -> bind m k s = (Raise e, s').
Proof. intros H. unfold bind. by rewrite H. Qed.

Lemma for_each_app {A} (body : A -> M unit) l1 l2 s s1 :
  for_each l1 body s = (Ok tt, s1) ->
  for_each (l1 ++ l2) body s = for_each l2 body s1.
Proof.
  revert s. induction l1 as [|x l1 IH]; intros s H; simpl in *.
  - unfold ret in H. by simplify_eq.
  - unfold bind in *. destruct (body x s) as [[[]|e] s2]; [|done]. by apply IH.
Qed.

(** An exception in one turn of a loop ends the loop: the turns after it
    do not run. *)
Lemma for_each_raise {A} (body : A -> M unit) before x after s s1 e s2 :
  for_each before body s = (Ok tt, s1) ->
  body x s1 = (Raise e, s2) ->
  for_each (before ++ x :: after) body s = (Raise e, s2).
Proof.
  intros Hb Hx. rewrite (for_each_app _ _ _ _ _ Hb). simpl.
  by apply bind_raise.
Qed.

Lemma keeps_records_refl s : keeps_records s s.
Proof. by split. Qed.

Lemma keeps_records_of s s' device :
  keeps_records s s' -> well_formed s -> records_of s' device = records_of s device.
Proof.
  intros [Hapi Hheap] Hwf. unfold records_of. rewrite Hapi.
  destruct (api s !! device) as [ls|] eqn:Hls; [|done]. simpl.
  apply list_fmap_ext. intros i l Hl. unfold deref. f_equal.
  assert (l < length (heap s))%nat as Hlt.
  { eapply Hwf; [done|]. by eapply list_elem_of_lookup_2. }
  destruct (lookup_lt_is_Some_2 _ _ Hlt) as [d Hd].
  rewrite Hd. by apply (prefix_lookup_Some _ _ _ _ Hd).
Qed.

Lemma store_fresh (h : list pydict) (d d' : pydict) :
  <[length h := d']> (h ++ [d]) = h ++ [d'].
Proof.
  rewrite insert_app_r_alt; [|lia]. by rewrite Nat.sub_diag.
Qed.

Lemma deref_fresh (h : list pydict) (d : pydict) : deref (h ++ [d]) (length h) = d.
Proof.
  unfold deref. rewrite lookup_app_r; [|lia]. by rewrite Nat.sub_diag.
Qed.

Section ExtractorFacts.

Variable wikilinks : string -> list WikiLink.
Variable external_links : string -> list ExternalLink.

(** The extraction steps add at most the row's own fresh dict. *)
Lemma row_setup_keeps template row s :
  keeps_records s (row_setup wikilinks external_links template row s).2.
Proof.
  unfold row_setup, bind, lift, alloc, set_key, ret.
  repeat (case_match; simplify_eq/=);
    try apply keeps_records_refl;
    (split; simpl; [done|]);
    rewrite ?deref_fresh, ?store_fresh; by apply prefix_app_r.
Qed.

(** What a row has passed when its extraction reaches the loop. *)
Lemma row_setup_some template row s r s' :
  row_setup wikilinks external_links template row s = (Ok (Some r), s') ->
  exists last_cell,
    first_external_links external_links (omap id row) = Some (ipsws r)
    /\ existsb (fun ipsw => endswith ".ipsw" (url ipsw)) (ipsws r) = true
    /\ last (omap id row) = Some last_cell
    /\ row_sizes last_cell = Ok (ipsw_sizes r)
    /\ length (ipsw_sizes r) = length (ipsws r).
Proof.
  unfold row_setup, bind, lift, alloc, set_key, ret, get_last.
  intros H. repeat (case_match; simplify_eq/=).
  eexists. repeat split; try done.
  - by apply negb_false_iff.
  - apply Nat.eqb_eq. by apply negb_false_iff.
Qed.

(** A row stopped by one of the [continue]s, or by an exception of the
    extraction steps, leaves the records as they were. *)
Lemma process_row_skipped template row s :
  (forall r s', row_setup wikilinks external_links template row s <> (Ok (Some r), s')) ->
  keeps_records s (process_row wikilinks external_links template row s).2.
Proof.
  intros Hnone. pose proof (row_setup_keeps template row s) as Hk.
  unfold process_row, bind.
  destruct (row_setup wikilinks external_links template row s) as [[[r|]|e] s'] eqn:Hs; simpl in *; try done.
  by destruct (Hnone r s').
Qed.

End ExtractorFacts.

(** ** Rows without a usable download *)

Section RowGuards.

Variable wikilinks : string -> list WikiLink.
Variable external_links : string -> list ExternalLink.

Lemma first_external_links_none firm_data :
  Forall (fun item => external_links item = []) firm_data ->
  first_external_links external_links firm_data = None.
Proof.
  induction 1 as [|item rest Hitem _ IH]; simpl; [done|]. by rewrite Hitem.
Qed.

Lemma skipped_row_summary template row s :
  keeps_records s (process_row wikilinks external_links template row s).2 ->
  let s' := (process_row wikilinks external_links template row s).2 in
  api s' = api s
  /\ heap s `prefix_of` heap s'
  /\ (well_formed s -> forall device, records_of s' device = records_of s device).
Proof.
  intros Hk. repeat split; try apply Hk.
  intros Hwf device. by apply keeps_records_of.
Qed.

(** C8. A row none of whose compacted cells has an external link, and a
    row whose extracted links include none ending in [.ipsw], add no record
    for any device: the device lists and the dicts they refer to are
    after the row what they were before it. *)
Theorem row_without_ipsw_links_yields_nothing template row s :
  (Forall (fun item => external_links item = []) (omap id row)
   \/ exists ipsws,
        first_external_links external_links (omap id row) = Some ipsws
        /\ Forall (fun ipsw => endswith ".ipsw" (url ipsw) = false) ipsws) ->
  let s' := (process_row wikilinks external_links template row s).2 in
  api s' = api s
  /\ heap s `prefix_of` heap s'
  /\ (well_formed s -> forall device, records_of s' device = records_of s device).
Proof.
  intros Hrow. apply skipped_row_summary, process_row_skipped.
  intros r s' Hsome.
  destruct (row_setup_some _ _ _ _ _ _ _ Hsome) as (last_cell & Hlinks & Hipsw & _).
  destruct Hrow as [Hnone | (ipsws & Hsomel & Hnot)].
  - rewrite (first_external_links_none _ Hnone) in Hlinks. done.
  - rewrite Hsomel in Hlinks. simplify_eq.
    apply existsb_exists in Hipsw as (ipsw & Hin & Hend).
    rewrite Forall_forall in Hnot.
    apply list_elem_of_In in Hin. specialize (Hnot _ Hin). congruence.
Qed.

End RowGuards.

(** ** Equations of the string primitives *)

Lemma str_app_cons c s1 s2 : String c s1 +:+ s2 = String c (s1 +:+ s2).
Proof. reflexivity. Qed.

Lemma str_app_nil_r s : s +:+ EmptyString = s.
Proof. induction s as [|c s IH]; [done|]. by rewrite str_app_cons, IH. Qed.

Lemma str_app_assoc s1 s2 s3 : (s1 +:+ s2) +:+ s3 = s1 +:+ (s2 +:+ s3).
Proof. induction s1 as [|c s1 IH]; [done|]. by rewrite !str_app_cons, IH. Qed.

Lemma str_length_app s1 s2 :
  String.length (s1 +:+ s2) = (String.length s1 + String.length s2)%nat.
Proof. induction s1 as [|c s1 IH]; [done|]. rewrite str_app_cons. simpl. by rewrite IH. Qed.

Lemma prefix_cons a p b s :
  String.prefix (String a p) (String b s)
  = if ascii_dec a b then String.prefix p s else false.
Proof. reflexivity. Qed.

Lemma prefix_split p : forall s,
  String.prefix p s = true -> exists r, s = p +:+ r.
Proof.
  induction p as [|a p IH]; intros s H; [by exists s|].
  destruct s as [|b s]; [done|].
  rewrite prefix_cons in H.
  destruct (ascii_dec a b) as [->|]; [|done].
  destruct (IH _ H) as [r ->]. by exists r.
Qed.

Lemma split_go_cons sep skip cur c s :
  split_go sep skip cur (String c s)
  = match skip with
    | S k => split_go sep k cur s
    | O =>
        if String.prefix sep (String c s)
        then cur :: split_go sep (String.length sep - 1) EmptyString s
        else split_go sep 0 (cur +:+ String c EmptyString) s
    end.
Proof. reflexivity. Qed.

(** ** The sizes of a row *)

Lemma numeric_not_space c : is_numeric_char c = true -> is_space c = false.
Proof. by_cases_on c. Qed.

Lemma numeric_not_sign c :
  is_numeric_char c = true ->
  Ascii.eqb c "+" = false /\ Ascii.eqb c "-" = false /\ (nat_of_ascii c =? 95)%nat = false.
Proof. by_cases_on c. Qed.

Lemma numeric_char_ascii c :
  (nat_of_ascii c <? 128)%nat = true -> is_numeric_char c = is_digit c.
Proof. by_cases_on c. Qed.

Lemma digit_numeric c : is_digit c = true -> is_numeric_char c = true.
Proof. by_cases_on c. Qed.

Lemma digit_not_space c : is_digit c = true -> is_space c = false.
Proof. intros H. by apply numeric_not_space, digit_numeric. Qed.

Lemma digit_not_char c (x : ascii) :
  is_digit c = true -> is_digit x = false -> Ascii.eqb c x = false.
Proof.
  intros Hc Hx. apply Ascii.eqb_neq. intros ->. congruence.
Qed.

Lemma rstrip_digits s : all_digits s = true -> rstrip s = s.
Proof.
  induction s as [|c s IH]; simpl; [done|].
  intros H. apply andb_true_iff in H as [Hc Hs].
  rewrite (IH Hs). destruct s; [|done]. by rewrite (digit_not_space _ Hc).
Qed.

Lemma int_body_digits s : forall prev acc,
  all_digits s = true -> (s <> EmptyString \/ prev = true) ->
  int_body prev acc s = Some (digits_val acc s).
Proof.
  induction s as [|c s IH]; simpl; intros prev acc Hd Hne.
  - destruct Hne as [?| ->]; done.
  - apply andb_true_iff in Hd as [Hc Hs]. rewrite Hc. apply IH; auto.
Qed.

(** [int] of a decimal word is its decimal reading; it does not raise. *)
Lemma py_int_decimal w : isdecimal w = true -> py_int w = Some (digits_val 0 w).
Proof.
  destruct w as [|c w]; simpl; [done|]. intros Hd.
  pose proof Hd as Hd'. apply andb_true_iff in Hd' as [Hc Hw].
  unfold py_int. simpl. rewrite (digit_not_space _ Hc).
  rewrite (rstrip_digits (String c w)); [|done].
  rewrite (digit_not_char c "+" Hc), (digit_not_char c "-" Hc); [|done..].
  change (int_body false 0 (String c w) = Some (digits_val 0 (String c w))).
  apply int_body_digits; [done|]. by left.
Qed.

(** On ASCII text a numeric word is a decimal word. *)
Lemma numeric_ascii w : is_ascii w = true -> isnumeric w = isdecimal w.
Proof.
  intros Hw. destruct w as [|c w]; [done|].
  change (all_numeric (String c w) = all_digits (String c w)).
  induction (String c w) as [|a u IH]; [done|].
  cbn [is_ascii all_numeric all_digits] in *.
  apply andb_true_iff in Hw as [Ha Hu]. by rewrite (IH Hu), (numeric_char_ascii _ Ha).
Qed.

Lemma rstrip_numeric u : all_numeric u = true -> rstrip u = u.
Proof.
  induction u as [|a u IH]; [done|]. cbn [all_numeric rstrip]. intros H.
  apply andb_true_iff in H as [Ha Hu]. rewrite (IH Hu).
  destruct u; [|done]. by rewrite (numeric_not_space _ Ha).
Qed.

Lemma int_body_numeric u : forall prev acc z,
  all_numeric u = true -> int_body prev acc u = Some z -> all_digits u = true.
Proof.
  induction u as [|a u IH]; [done|]. cbn [all_numeric int_body all_digits].
  intros prev acc z H Hz. apply andb_true_iff in H as [Ha Hu].
  destruct (is_digit a) eqn:Hd; [by eapply IH|].
  destruct (numeric_not_sign _ Ha) as (_ & _ & Hund). rewrite Hund in Hz. done.
Qed.

(** [int] reads a numeric word only when it is a decimal word: on the
    superscripts and fractions it raises. *)
Lemma py_int_some_decimal w z : isnumeric w = true -> py_int w = Some z -> isdecimal w = true.
Proof.
  destruct w as [|c w]; [done|]. intros Hn.
  change (all_numeric (String c w) = true) in Hn.
  pose proof Hn as Hn'. cbn [all_numeric] in Hn'. apply andb_true_iff in Hn' as [Hc Hw].
  destruct (numeric_not_sign _ Hc) as (Hplus & Hminus & _).
  unfold py_int. cbn [lstrip]. rewrite (numeric_not_space _ Hc), (rstrip_numeric _ Hn).
  rewrite Hplus, Hminus. intros Hz.
  change (all_digits (String c w) = true). by eapply int_body_numeric.
Qed.

Lemma sizes_loop_filter words : forall acc,
  Forall (fun w => isnumeric w = isdecimal w) words ->
  sizes_loop words acc
  = Ok (acc ++ (digits_val 0 <$>
          filter (fun w => isdecimal w = true /\ (10 < digits_val 0 w)%Z) words)).
Proof.
  induction words as [|w words IH]; intros acc Hall; simpl.
  - by rewrite app_nil_r.
  - apply Forall_cons in Hall as [Hw Hall]. rewrite Hw.
    destruct (isdecimal w) eqn:Hn.
    + rewrite (py_int_decimal _ Hn).
      destruct (10 <? digits_val 0 w)%Z eqn:Hlt.
      * apply Z.ltb_lt in Hlt. rewrite filter_cons_True by done.
        rewrite IH by done. simpl. by rewrite <- app_assoc.
      * apply Z.ltb_ge in Hlt. rewrite filter_cons_False by lia. by apply IH.
    + rewrite filter_cons_False by (intros [? _]; congruence). by apply IH.
Qed.

(** The sizes the loop collects are above 10, whatever the words. *)
Lemma sizes_loop_above words : forall acc zs,
  sizes_loop words acc = Ok zs ->
  Forall (fun z => (10 < z)%Z) acc -> Forall (fun z => (10 < z)%Z) zs.
Proof.
  induction words as [|w words IH]; intros acc zs; simpl.
  - by intros [= <-].
  - destruct (isnumeric w); [|by apply IH].
    destruct (py_int w) as [n|]; [|done].
    destruct (10 <? n)%Z eqn:Hlt; [|by apply IH].
    intros Hrun Hacc. apply (IH _ _ Hrun). apply Forall_app. split; [done|].
    apply Forall_singleton. by apply Z.ltb_lt.
Qed.

(** [split] on a one-character separator gives the pieces between its
    occurrences. *)
Lemma fields_nonempty c s : fields c s <> [].
Proof. destruct s as [|a s]; simpl; [done|]. by repeat case_match. Qed.

Lemma split_go_fields c s : forall cur,
  split_go (String c EmptyString) 0 cur s
  = match fields c s with
    | piece :: rest => (cur +:+ piece) :: rest
    | [] => [cur]
    end.
Proof.
  induction s as [|a s IH]; intros cur.
  - simpl. by rewrite str_app_nil_r.
  - rewrite split_go_cons, prefix_cons. cbn [fields].
    pose proof (fields_nonempty c s) as Hne.
    destruct (ascii_dec c a) as [<-|Hca].
    + rewrite Ascii.eqb_refl. simpl.
      assert (String.prefix EmptyString s = true) as -> by (by destruct s).
      rewrite IH. destruct (fields c s) as [|piece rest]; [by destruct Hne|].
      by rewrite str_app_nil_r.
    + assert (Ascii.eqb a c = false) as -> by (apply Ascii.eqb_neq; congruence).
      rewrite IH. destruct (fields c s) as [|piece rest]; [done|].
      by rewrite str_app_assoc, str_app_cons.
Qed.

Lemma py_split_fields c s : py_split (String c EmptyString) s = fields c s.
Proof.
  unfold py_split. rewrite split_go_fields.
  pose proof (fields_nonempty c s). by destruct (fields c s).
Qed.

(** [replace] of a one-character text by the empty text deletes the
    character. *)
Lemma py_replace_delete c s :
  py_replace (String c EmptyString) EmptyString s = delete_char c s.
Proof.
  unfold py_replace. induction s as [|a s IH]; [done|].
  cbn [replace_go delete_char]. rewrite prefix_cons.
  destruct (ascii_dec c a) as [<-|Hca].
  - rewrite Ascii.eqb_refl. simpl.
    assert (String.prefix EmptyString s = true) as -> by (by destruct s).
    exact IH.
  - assert (Ascii.eqb a c = false) as -> by (apply Ascii.eqb_neq; congruence).
    by rewrite IH.
Qed.

Lemma row_words_fields cell : row_words cell = strip_token <$> fields " " cell.
Proof.
  unfold row_words, strip_token, newline.
  change " " with (String " "%char EmptyString) at 1.
  rewrite py_split_fields. apply list_fmap_ext. intros _ tok _.
  change "," with (String ","%char EmptyString).
  by rewrite !py_replace_delete.
Qed.

Lemma is_ascii_delete c s : is_ascii s = true -> is_ascii (delete_char c s) = true.
Proof.
  induction s as [|a s IH]; simpl; [done|]. intros H.
  apply andb_true_iff in H as [Ha Hs].
  destruct (Ascii.eqb a c); simpl; [by apply IH|]. rewrite Ha. by apply IH.
Qed.

Lemma is_ascii_fields c s : is_ascii s = true -> Forall (fun w => is_ascii w = true) (fields c s).
Proof.
  induction s as [|a s IH]; simpl; intros H.
  - by repeat constructor.
  - apply andb_true_iff in H as [Ha Hs]. specialize (IH Hs).
    destruct (Ascii.eqb a c); [by constructor|].
    destruct (fields c s) as [|piece rest]; [repeat constructor; simpl; by rewrite Ha|].
    apply Forall_cons in IH as [Hp Hr]. constructor; [|done]. simpl. by rewrite Ha, Hp.
Qed.

(** On an ASCII cell the loop of lines 69-72 does not raise and collects
    the sizes among the tokens between single spaces. *)
Lemma row_sizes_ascii cell :
  is_ascii cell = true -> row_sizes cell = Ok (sizes_between_spaces cell).
Proof.
  intros Hcell. unfold row_sizes, sizes_between_spaces, sizes_of_tokens.
  rewrite row_words_fields. rewrite sizes_loop_filter; [done|].
  apply Forall_fmap. eapply Forall_impl; [by apply is_ascii_fields|].
  intros w Hw. simpl. apply numeric_ascii. unfold strip_token.
  by do 2 apply is_ascii_delete.
Qed.

(** C7, as amended.  For a cell of ASCII text, the sizes the loop of lines
    69-72 collects are the tokens between single spaces (the cell is split
    at the space character, not at white space in general) that, with
    commas and line feeds stripped, are purely numeric and greater than
    10, in order and read in decimal, and the loop raises nothing; and a
    row that reaches the test of line 74 with a count of such sizes
    different from the count of its download links adds no record. *)
Theorem sizes_and_count_guard
    (wikilinks : string -> list WikiLink)
    (external_links : string -> list ExternalLink) :
  (forall cell, is_ascii cell = true -> row_sizes cell = Ok (sizes_between_spaces cell))
  /\ forall template row s ipsws last_cell,
       first_external_links external_links (omap id row) = Some ipsws ->
       last (omap id row) = Some last_cell ->
       is_ascii last_cell = true ->
       length (sizes_between_spaces last_cell) <> length ipsws ->
       let s' := (process_row wikilinks external_links template row s).2 in
       api s' = api s
       /\ heap s `prefix_of` heap s'
       /\ (well_formed s -> forall device, records_of s' device = records_of s device).
Proof.
  split; [apply row_sizes_ascii|].
  intros template row s ipsws last_cell Hlinks Hlast Hascii Hcount.
  apply skipped_row_summary, process_row_skipped.
  intros r s' Hsome.
  destruct (row_setup_some _ _ _ _ _ _ _ Hsome) as (cell & Hl & _ & Hc & Hsz & Hlen).
  rewrite Hlinks in Hl. rewrite Hlast in Hc. simplify_eq.
  rewrite (row_sizes_ascii _ Hascii) in Hsz. simplify_eq. congruence.
Qed.

(** ** The record at the completeness guard *)

Lemma for_each_invariant {A} (I : scraper -> Prop) (body : A -> M unit) l :
  (forall x s, I s -> I (body x s).2) ->
  forall s, I s -> I (for_each l body s).2.
Proof.
  intros Hbody. induction l as [|x l IH]; intros s Hs; simpl; [done|].
  unfold bind. specialize (Hbody x s Hs).
  destruct (body x s) as [[[]|e] s1]; simpl in *; [by apply IH | done].
Qed.

Lemma deref_insert (h : list pydict) l d :
  (l < length h)%nat -> deref (<[l := d]> h) l = d.
Proof. intros Hl. unfold deref. by rewrite list_lookup_insert_eq. Qed.

Lemma fields_from_refl l s : fields_from l s s.
Proof. repeat split; set_solver. Qed.

Section GuardFacts.

Variable wikilinks : string -> list WikiLink.
Variable external_links : string -> list ExternalLink.

Lemma store_fields_spec l bs ls zs fi s :
  (l < length (heap s))%nat ->
  let r := store_fields l bs ls zs fi s in
  fields_from l s r.2
  /\ (r.1 = Ok tt ->
      {["buildid"; "url"; "size"]} ⊆ dom (deref (heap r.2) l)).
Proof.
  intros Hl. unfold store_fields, bind, lift, ret, set_key.
  repeat (case_match; simplify_eq/=);
    unfold fields_from; simpl;
    repeat (rewrite ?length_insert, ?list_insert_insert_eq;
            rewrite ?deref_insert by (rewrite ?length_insert; done));
    rewrite ?dom_insert_L;
    (split; [repeat split; try done; set_solver | try done; intros _; set_solver]).
Qed.

Lemma commit_record_heap device l s :
  heap (commit_record device l s).2 = heap s.
Proof.
  unfold commit_record, bind, ensure_device, device_list, append_record,
    bind, device_list, ret.
  repeat (case_match; simplify_eq/=); done.
Qed.

Lemma device_step_ready r d s :
  firm_ready (firm r) s -> firm_ready (firm r) (device_step r d s).2.
Proof.
  intros (Hl & Hv & Hsub).
  pose proof (store_fields_spec (firm r) (buildids r) (ipsws r) (ipsw_sizes r)
                (firm_index (length (devices r)) d) s Hl) as [(Ha & Hlen & Hd1 & Hd2) _].
  unfold device_step, bind.
  destruct (store_fields _ _ _ _ _ s) as [[[]|e] s1]; simpl in *.
  - assert (firm_ready (firm r) s1) as Hr1.
    { split; [lia|]. split; [set_solver|].
      etrans; [exact Hd2|]. unfold four_keys. set_solver. }
    unfold load, lift, ret.
    destruct (size (deref (heap s1) (firm r)) <? 4)%nat; [done|].
    destruct (get_item (devices r) d); simpl; [|done].
    unfold firm_ready. by rewrite commit_record_heap.
  - split; [lia|]. split; [set_solver|].
    etrans; [exact Hd2|]. unfold four_keys. set_solver.
Qed.

Lemma row_setup_ready template row s r s0 :
  row_setup wikilinks external_links template row s = (Ok (Some r), s0) ->
  firm_ready (firm r) s0.
Proof.
  unfold row_setup, bind, lift, alloc, set_key, ret.
  intros H. repeat (case_match; simplify_eq/=).
  unfold firm_ready. simpl.
  rewrite deref_fresh, store_fresh, deref_fresh, length_app, dom_insert_L.
  simpl. split; [lia|]. unfold four_keys. set_solver.
Qed.

(** C9. Whenever control reaches the guard of line 90 -- the row has
    passed its extraction steps, the turns for the devices before position
    [d] have completed and so have the assignments of lines 79-88 for
    position [d] -- the dict [firm] has exactly the keys version, buildid,
    url and size, so the test [len(firm.keys()) < 4] is false. *)
Theorem record_complete_at_guard template row s r s0 d s1 s2 :
  row_setup wikilinks external_links template row s = (Ok (Some r), s0) ->
  (d < length (devices r))%nat ->
  for_each (seq 0 d) (device_step r) s0 = (Ok tt, s1) ->
  store_fields (firm r) (buildids r) (ipsws r) (ipsw_sizes r)
    (firm_index (length (devices r)) d) s1 = (Ok tt, s2) ->
  dom (deref (heap s2) (firm r)) = four_keys
  /\ size (deref (heap s2) (firm r)) = 4%nat
  /\ (size (deref (heap s2) (firm r)) <? 4)%nat = false.
Proof.
  intros Hsetup _ Hloop Hstore.
  pose proof (row_setup_ready _ _ _ _ _ Hsetup) as Hr0.
  pose proof (for_each_invariant (firm_ready (firm r)) (device_step r) (seq 0 d)
                (fun x s => device_step_ready r x s) s0 Hr0) as Hr1.
  rewrite Hloop in Hr1. simpl in Hr1. destruct Hr1 as (Hl & Hv & Hsub).
  pose proof (store_fields_spec (firm r) (buildids r) (ipsws r) (ipsw_sizes r)
                (firm_index (length (devices r)) d) s1 Hl) as [(_ & _ & Hd1 & Hd2) Hall].
  rewrite Hstore in Hd1, Hd2, Hall. simpl in *. specialize (Hall eq_refl).
  assert (dom (deref (heap s2) (firm r)) = four_keys) as Hdom.
  { apply set_eq. intros k. unfold four_keys in *. set_solver. }
  assert (size (deref (heap s2) (firm r)) = 4%nat) as Hsize.
  { rewrite <- size_dom, Hdom. reflexivity. }
  split; [done|]. split; [done|]. by rewrite Hsize.
Qed.

End GuardFacts.

(** ** Malformed rows *)

Lemma first_label_none template :
  no_device_column template = true ->
  first_label template = Raise (no_column_exn template).
Proof.
  induction template as [|[label|] t IH]; simpl; [done| |done].
  intros H. apply andb_true_iff in H as [Hl Ht].
  apply negb_true_iff in Hl. rewrite Hl. by apply IH.
Qed.

Section MalformedRows.

Variable wikilinks : string -> list WikiLink.
Variable external_links : string -> list ExternalLink.

Lemma process_row_no_column template row s :
  no_device_column template = true ->
  process_row wikilinks external_links template row s = (Raise (no_column_exn template), s).
Proof.
  intros H. unfold process_row, row_setup, bind, lift, template_index.
  by rewrite (first_label_none _ H).
Qed.

Lemma process_row_short template row s idx :
  template_index template = Ok idx ->
  (length (omap id row) <= idx)%nat ->
  process_row wikilinks external_links template row s = (Raise IndexError, s).
Proof.
  intros Hidx Hlen. unfold process_row, row_setup, bind, lift, get_item.
  rewrite Hidx. by rewrite (lookup_ge_None_2 _ _ Hlen).
Qed.

(** An exception of a row leaves [build_api], in the state reached just
    before the row: nothing after the row is processed. *)
Lemma build_api_row_raises site device_types template row e
    titles_before title titles_after tables_before rows_before rows_after
    tables_after s_init s_page s_table s s' :
  process_row wikilinks external_links template row s = (Raise e, s') ->
  search site = titles_before ++ title :: titles_after ->
  for_each titles_before (process_page wikilinks external_links site device_types) s_init
    = (Ok tt, s_page) ->
  page_gate device_types title = Ok true ->
  page_tables site title
    = tables_before ++ (template :: rows_before ++ row :: rows_after) :: tables_after ->
  for_each tables_before (process_table wikilinks external_links) s_page = (Ok tt, s_table) ->
  for_each rows_before (process_row wikilinks external_links template) s_table = (Ok tt, s) ->
  build_api wikilinks external_links site device_types s_init = (Raise e, s').
Proof.
  intros Hrow Hsearch Hpages Hgate Htables Htb Hrows.
  unfold build_api. rewrite Hsearch.
  eapply for_each_raise; [exact Hpages|].
  unfold process_page, bind, lift. rewrite Hgate, Htables.
  eapply for_each_raise; [exact Htb|].
  unfold process_table, bind, lift. simpl.
  eapply for_each_raise; [exact Hrows | exact Hrow].
Qed.

(** C3, as amended.  A row whose template has no column label containing
    Codename or Keys raises [StopIteration] when all labels are strings
    and [TypeError] when one of them is [None] (a header cell the parser
    padded), and a row whose compacted cell list has no cell at the
    position of that label raises [IndexError].  The row adds no record,
    and the exception is not caught in [build_api]: wherever the row
    stands, [build_api] ends with that exception in the state reached just
    before the row, so no later row, table or page is processed. *)
Theorem malformed_row_outcome template row e :
  (no_device_column template = true /\ e = no_column_exn template
   \/ exists idx, template_index template = Ok idx
        /\ (length (omap id row) <= idx)%nat /\ e = IndexError) ->
  (forall s, process_row wikilinks external_links template row s = (Raise e, s))
  /\ forall site device_types titles_before title titles_after
       tables_before rows_before rows_after tables_after s_init s_page s_table s,
       search site = titles_before ++ title :: titles_after ->
       for_each titles_before (process_page wikilinks external_links site device_types) s_init
         = (Ok tt, s_page) ->
       page_gate device_types title = Ok true ->
       page_tables site title
         = tables_before ++ (template :: rows_before ++ row :: rows_after) :: tables_after ->
       for_each tables_before (process_table wikilinks external_links) s_page
         = (Ok tt, s_table) ->
       for_each rows_before (process_row wikilinks external_links template) s_table
         = (Ok tt, s) ->
       build_api wikilinks external_links site device_types s_init = (Raise e, s).
Proof.
  intros Hrow.
  assert (forall s, process_row wikilinks external_links template row s = (Raise e, s))
    as Hraise.
  { intros s. destruct Hrow as [[Hcol ->] | (idx & Hidx & Hlen & ->)].
    - by apply process_row_no_column.
    - by eapply process_row_short. }
  split; [exact Hraise|]. intros. eapply build_api_row_raises; eauto.
Qed.

End MalformedRows.

(** C3, the claim as stated fails: a table whose template has no Codename
    or Keys column (with all header cells present, or with one missing)
    and a row whose compacted cells end before the position of the Keys
    column make [build_api] raise, and the well-formed rows and tables
    after them are not processed. *)
Lemma malformed_rows_raise :
  (run [[template_no_keys; row_one]; [demo_template; row_one]]).1 = Raise StopIteration
  /\ api (run [[template_no_keys; row_one]; [demo_template; row_one]]).2 = ∅
  /\ (run [[template_padded; row_one]; [demo_template; row_one]]).1 = Raise TypeError
  /\ api (run [[template_padded; row_one]; [demo_template; row_one]]).2 = ∅
  /\ (run [[demo_template; row_short; row_one]]).1 = Raise IndexError
  /\ api (run [[demo_template; row_short; row_one]]).2 = ∅
  /\ api (run [[demo_template; row_one]]).2 = {["iPhone12,1" := [0%nat]]}
  /\ ~ (forall wikilinks external_links site device_types s,
          (build_api wikilinks external_links site device_types s).1 = Ok tt).
Proof.
  repeat split; try (vm_compute; reflexivity).
  intros H.
  specialize (H flat_wikilinks flat_external_links
                (site_of [[demo_template; row_short; row_one]]) ["iPhone"] empty_scraper).
  vm_compute in H. discriminate.
Qed.

(** ** [write_api] replaces the directory *)

Lemma is_dir_nonempty (fs : filesystem) p :
  p <> [] -> is_dir fs p = bool_decide (fs !! p = Some Dir).
Proof. by destruct p. Qed.

Lemma path_exists_nonempty (fs : filesystem) p :
  p <> [] -> path_exists fs p = bool_decide (is_Some (fs !! p)).
Proof. by destruct p. Qed.

Lemma api_keys_dom s device : device ∈ api_keys s <-> device ∈ dom (api s).
Proof.
  unfold api_keys. rewrite elem_of_dom, list_elem_of_fmap. split.
  - intros ([k ls] & -> & Hin). apply elem_of_map_to_list in Hin. by exists ls.
  - intros [ls Hls]. exists (device, ls). split; [done|]. by apply elem_of_map_to_list.
Qed.



(** An entry strictly below [p] in a well-formed file system means that [p]
    is a directory. *)
Lemma fs_wf_parent (fs : filesystem) q n :
  fs_wf fs = true -> fs !! q = Some n -> q <> [] -> is_dir fs (removelast q) = true.
Proof.
  intros Hwf Hq _. unfold fs_wf in Hwf. rewrite forallb_forall in Hwf.
  apply (Hwf (q, n)). apply list_elem_of_In. by apply elem_of_map_to_list.
Qed.

Lemma fs_wf_above (fs : filesystem) p : forall k n,
  fs_wf fs = true -> p <> [] -> k <> [] -> fs !! (p ++ k) = Some n -> fs !! p = Some Dir.
Proof.
  intros k. induction k as [|x k IH] using rev_ind; intros n Hwf Hp Hk Hq; [done|].
  pose proof (fs_wf_parent fs _ n Hwf Hq) as Hpar.
  rewrite app_assoc, removelast_last in Hpar.
  assert (p ++ k <> []) as Hne by (destruct p; done).
  specialize (Hpar ltac:(by destruct (p ++ k))).
  rewrite is_dir_nonempty in Hpar by done.
  apply bool_decide_eq_true in Hpar.
  destruct k as [|y k']; [by rewrite app_nil_r in Hpar|].
  by apply (IH Dir).
Qed.

Lemma write_devices_spec path s keys : forall fs,
  path <> [] ->
  fs !! path = Some Dir ->
  (forall device, device ∈ keys -> exists data, sorted_desc (records_of s device) = Ok data) ->
  (forall device, device ∈ keys -> fs !! (path ++ [device]) <> Some Dir) ->
  exists fs', write_devices path s keys fs = Ok fs'
    /\ (forall device, device ∈ keys ->
          exists data, sorted_desc (records_of s device) = Ok data
                       /\ fs' !! (path ++ [device]) = Some (File data))
    /\ (forall q, (forall device, device ∈ keys -> q <> path ++ [device]) ->
          fs' !! q = fs !! q).
Proof.
  induction keys as [|device keys IH]; intros fs Hp Hdir Hsort Hfree; simpl.
  - exists fs. split; [done|]. split; [|done]. intros d Hd. by apply elem_of_nil in Hd.
  - destruct (Hsort device) as [data Hdata]; [by left|].
    rewrite Hdata. simpl. unfold write_file.
    assert (path ++ [device] <> []) as Hne by (destruct path; done).
    rewrite (is_dir_nonempty _ _ Hne), removelast_last, (is_dir_nonempty _ _ Hp).
    rewrite bool_decide_eq_false_2 by (apply Hfree; by left).
    rewrite bool_decide_eq_true_2 by done. simpl.
    assert (path <> path ++ [device]) as Hpd.
    { intros Heq. apply (f_equal length) in Heq. rewrite length_app in Heq. simpl in Heq. lia. }
    destruct (IH (<[path ++ [device] := File data]> fs)) as (fs' & Hrun & Hfiles & Hrest).
    + done.
    + by rewrite lookup_insert_ne.
    + intros d Hd. apply Hsort. by right.
    + intros d Hd. destruct (decide (d = device)) as [->|Hneq].
      * by rewrite lookup_insert_eq.
      * rewrite lookup_insert_ne by (intros Heq; by simplify_list_eq).
        apply Hfree. by right.
    + exists fs'. split; [done|]. split.
      * intros d Hd. destruct (decide (d ∈ keys)) as [Hin|Hnin]; [by apply Hfiles|].
        apply elem_of_cons in Hd as [->|Hd]; [|done].
        exists data. split; [done|]. rewrite Hrest.
        -- by rewrite lookup_insert_eq.
        -- intros d Hd Heq. by simplify_list_eq.
      * intros q Hq. rewrite Hrest.
        -- rewrite lookup_insert_ne; [done|]. intros Heq. by apply (Hq device); [left|].
        -- intros d Hd. apply Hq. by right.
Qed.

(** What is left at and below [path] once lines 125-128 have run. *)
Lemma fresh_directory (path : list string) (fs : filesystem) :
  path <> [] ->
  fs_wf fs = true ->
  is_dir fs (removelast path) = true ->
  (fs !! path = None \/ fs !! path = Some Dir) ->
  exists fs0,
    (let? fs1 := (if path_exists fs path then rmtree path fs else Ok fs) in mkdir path fs1)
      = Ok (<[path := Dir]> fs0)
    /\ (forall q, path `prefix_of` q -> fs0 !! q = None)
    /\ (forall q, ¬ path `prefix_of` q -> fs0 !! q = fs !! q).
Proof.
  intros Hp Hwf Hpar Hpath.
  assert (¬ path `prefix_of` removelast path) as Hshort.
  { intros Hpre. apply prefix_length in Hpre.
    destruct path as [|x path] using rev_ind; [done|].
    rewrite removelast_last, length_app in Hpre. simpl in Hpre. lia. }
  set (fs0 := if path_exists fs path
              then filter (fun kv => ¬ path `prefix_of` kv.1) fs else fs).
  assert (forall q, path `prefix_of` q -> fs0 !! q = None) as Hbelow.
  { intros q Hq. unfold fs0. rewrite (path_exists_nonempty _ _ Hp).
    destruct Hpath as [Hnone|Hdir].
    - rewrite bool_decide_eq_false_2 by (rewrite Hnone; by intros [? ?]).
      destruct (fs !! q) as [n|] eqn:Hfq; [|done].
      destruct Hq as [k ->]. destruct k as [|x k].
      + rewrite app_nil_r in Hfq. congruence.
      + rewrite (fs_wf_above fs path (x :: k) n) in Hnone; done.
    - rewrite bool_decide_eq_true_2 by (rewrite Hdir; by eexists).
      apply map_lookup_filter_None. right. intros n _ Hn. by apply Hn. }
  assert (forall q, ¬ path `prefix_of` q -> fs0 !! q = fs !! q) as Hout.
  { intros q Hq. unfold fs0. destruct (path_exists fs path); [|done].
    destruct (fs !! q) as [n|] eqn:Hfq.
    - by apply map_lookup_filter_Some.
    - apply map_lookup_filter_None. by left. }
  assert (is_dir fs0 (removelast path) = true) as Hpar0.
  { destruct (removelast path) as [|x p'] eqn:Hrl; [done|].
    rewrite is_dir_nonempty in Hpar |- * by done. rewrite <- Hrl in *.
    by rewrite Hout. }
  exists fs0. split; [|done].
  assert ((if path_exists fs path then rmtree path fs else Ok fs) = Ok fs0) as ->.
  { unfold fs0, rmtree. destruct (path_exists fs path) eqn:Hex; [|done].
    rewrite (path_exists_nonempty _ _ Hp) in Hex. apply bool_decide_eq_true in Hex.
    destruct Hpath as [Hnone|Hdir]; [rewrite Hnone in Hex; by destruct Hex|].
    rewrite (is_dir_nonempty _ _ Hp), bool_decide_eq_true_2; done. }
  simpl. unfold mkdir. rewrite (path_exists_nonempty _ _ Hp).
  rewrite bool_decide_eq_false_2 by (rewrite Hbelow; [by intros [? ?]|done]).
  by rewrite Hpar0.
Qed.


(** When [path] names a regular file, [rmtree] raises and nothing is
    written. *)
Lemma write_api_on_file (path : list string) (s : scraper) (fs : filesystem) data :
  path <> [] -> fs !! path = Some (File data) -> write_api path s fs = Raise OSError.
Proof.
  intros Hp Hf. unfold write_api, rmtree.
  rewrite (path_exists_nonempty _ _ Hp), (is_dir_nonempty _ _ Hp).
  rewrite bool_decide_eq_true_2 by (rewrite Hf; by eexists).
  rewrite bool_decide_eq_false_2 by (rewrite Hf; done). done.
Qed.

(** ** The theorems at concrete rows *)

Example ota_row_skipped :
  (run [[demo_template; row_ota]]).1 = Ok tt
  /\ api (run [[demo_template; row_ota]]).2 = ∅
  /\ (run [[demo_template; row_no_link; row_one_size; row_one]]).1 = Ok tt
  /\ api (run [[demo_template; row_no_link; row_one_size; row_one]]).2
     = {["iPhone12,1" := [2%nat]]}.
Proof. repeat split; vm_compute; reflexivity. Qed.

(** A row whose download cell reads N/A adds nothing to a fresh scraper. *)
Lemma row_without_ipsw_links_witness :
  Forall (fun item => flat_external_links item = []) (omap id row_no_link)
  /\ api (process_row flat_wikilinks flat_external_links demo_template row_no_link
            empty_scraper).2 = api empty_scraper.
Proof.
  assert (Forall (fun item => flat_external_links item = []) (omap id row_no_link)) as H.
  { vm_compute. repeat constructor. }
  split; [exact H|].
  exact (proj1 (row_without_ipsw_links_yields_nothing flat_wikilinks flat_external_links
                  demo_template row_no_link empty_scraper (or_introl H))).
Defined.

(** A row with two links and the one size 5,432,100,000 (the footnote
    marker is no size) adds nothing to a fresh scraper. *)
Lemma sizes_and_count_guard_witness :
  row_sizes "5,432,100,000 [1]" = Ok [5432100000%Z]
  /\ api (process_row flat_wikilinks flat_external_links demo_template row_one_size
            empty_scraper).2 = api empty_scraper.
Proof.
  split.
  - exact (proj1 (sizes_and_count_guard flat_wikilinks flat_external_links)
             "5,432,100,000 [1]" eq_refl).
  - refine (proj1 (proj2 (sizes_and_count_guard flat_wikilinks flat_external_links)
                     demo_template row_one_size empty_scraper
                     [{| url := "http://example/a.ipsw" |};
                      {| url := "http://example/b.ipsw" |}]
                     "5,432,100,000 [1]" _ _ _ _)).
    + reflexivity.
    + reflexivity.
    + reflexivity.
    + vm_compute. lia.
Defined.

(** C7, the claim as stated fails.  Two sizes on two lines are two
    whitespace-separated tokens, but the code splits at the space only and
    then deletes the line feed, so it reads them as one number; a row with
    this cell and two links is skipped.  And a footnote mark that is a
    superscript digit counts as numeric, so [int] is called on it and
    raises [ValueError]. *)
Lemma sizes_not_whitespace_tokens :
  sizes_as_specified cell_two_lines = [5432100000%Z; 6123400000%Z]
  /\ row_sizes cell_two_lines = Ok [54321000006123400000%Z]
  /\ row_sizes cell_two_lines <> Ok (sizes_as_specified cell_two_lines)
  /\ api (run [[demo_template; row_two_lines]]).2 = ∅
  /\ sizes_as_specified cell_superscript = [5432100000%Z]
  /\ row_sizes cell_superscript = Raise ValueError
  /\ (run [[demo_template; row_superscript]]).1 = Raise ValueError.
Proof. repeat split; try (vm_compute; reflexivity). vm_compute. discriminate. Qed.

(** At the guard in the turn of the second device of [row_pair] the dict
    has four keys. *)
Lemma record_complete_at_guard_witness :
  devices demo_fields = ["iPhone12,1"; "iPhone12,3"]
  /\ size (deref (heap demo_s2) (firm demo_fields)) = 4%nat.
Proof.
  split; [vm_compute; reflexivity|].
  refine (proj1 (proj2 (record_complete_at_guard flat_wikilinks flat_external_links
                   demo_template row_pair empty_scraper demo_fields demo_s0 1
                   demo_s1 demo_s2 _ _ _ _))).
  - vm_compute. reflexivity.
  - vm_compute. lia.
  - vm_compute. reflexivity.
  - vm_compute. reflexivity.
Defined.

(** A table without a Keys column ends [build_api] with [StopIteration]
    before anything is recorded, and with [TypeError] when its last header
    cell is missing; the table after it is not read. *)
Lemma malformed_row_outcome_witness :
  no_device_column template_no_keys = true
  /\ build_api flat_wikilinks flat_external_links
       (site_of [[template_no_keys; row_one]; [demo_template; row_one]]) ["iPhone"]
       empty_scraper
     = (Raise StopIteration, empty_scraper)
  /\ no_device_column template_padded = true
  /\ build_api flat_wikilinks flat_external_links
       (site_of [[template_padded; row_one]; [demo_template; row_one]]) ["iPhone"]
       empty_scraper
     = (Raise TypeError, empty_scraper).
Proof.
  split; [reflexivity|]. split; [|split; [reflexivity|]].
  - refine (proj2 (malformed_row_outcome flat_wikilinks flat_external_links
                     template_no_keys row_one StopIteration _)
              (site_of [[template_no_keys; row_one]; [demo_template; row_one]]) ["iPhone"]
              [] "Beta Firmware/iPhone/14.x" [] [] [] [] [[demo_template; row_one]]
              empty_scraper empty_scraper empty_scraper empty_scraper _ _ _ _ _ _).
    + left. split; reflexivity.
    + reflexivity.
    + reflexivity.
    + reflexivity.
    + reflexivity.
    + reflexivity.
    + reflexivity.
  - refine (proj2 (malformed_row_outcome flat_wikilinks flat_external_links
                     template_padded row_one TypeError _)
              (site_of [[template_padded; row_one]; [demo_template; row_one]]) ["iPhone"]
              [] "Beta Firmware/iPhone/14.x" [] [] [] [] [[demo_template; row_one]]
              empty_scraper empty_scraper empty_scraper empty_scraper _ _ _ _ _ _).
    + left. split; reflexivity.
    + reflexivity.
    + reflexivity.
    + reflexivity.
    + reflexivity.
    + reflexivity.
    + reflexivity.
Defined.



(** ** Supporting facts *)

(** *** [split] cuts at the separator and nowhere else *)

Lemma split_go_skip sep p : forall cur r,
  split_go sep (String.length p) cur (p +:+ r) = split_go sep 0 cur r.
Proof.
  induction p as [|a p IH]; intros cur r; [done|].
  rewrite str_app_cons, split_go_cons. apply IH.
Qed.

Lemma split_go_nonempty sep s : forall skip cur, split_go sep skip cur s <> [].
Proof.
  induction s as [|c s IH]; intros skip cur; [done|].
  rewrite split_go_cons. destruct skip; [|by apply IH].
  destruct (String.prefix sep (String c s)); [done | by apply IH].
Qed.

Lemma join_split_go sep n : forall s cur,
  sep <> EmptyString -> (String.length s <= n)%nat ->
  py_join sep (split_go sep 0 cur s) = cur +:+ s.
Proof.
  induction n as [|n IH]; intros s cur Hsep Hlen.
  - destruct s; simpl in *; [by rewrite str_app_nil_r | lia].
  - destruct s as [|c s]; [simpl; by rewrite str_app_nil_r|].
    rewrite split_go_cons.
    destruct (String.prefix sep (String c s)) eqn:Hpre.
    + destruct (prefix_split _ _ Hpre) as [r Hr].
      destruct sep as [|a sep']; [done|]. rewrite str_app_cons in Hr. simplify_eq.
      change (String.length (String a sep') - 1)%nat with (String.length sep' - 0)%nat.
      rewrite Nat.sub_0_r, split_go_skip.
      pose proof (split_go_nonempty (String a sep') r 0 EmptyString) as Hne.
      pose proof (IH r EmptyString Hsep) as Hrec.
      destruct (split_go (String a sep') 0 EmptyString r) as [|x l]; [done|].
      change (py_join (String a sep') (cur :: x :: l))
        with (cur +:+ String a sep' +:+ py_join (String a sep') (x :: l)).
      rewrite Hrec; [done|].
      simpl in Hlen. rewrite str_length_app in Hlen. lia.
    + rewrite IH; [|done|simpl in Hlen; lia].
      by rewrite str_app_assoc, str_app_cons.
Qed.

(** Joining the pieces of [s.split(sep)] with [sep] gives [s] back. *)
Lemma join_split sep s : sep <> EmptyString -> py_join sep (py_split sep s) = s.
Proof. intros Hsep. unfold py_split. by rewrite (join_split_go sep (String.length s)). Qed.

(** *** The page gate outside the Apple TV family *)

Lemma apple_tv_never_processed device_types title :
  contains "Apple TV" title = true -> page_gate device_types title <> Ok true.
Proof.
  intros Htv. unfold page_gate. rewrite Htv.
  destruct (negb (contains ".x" title) || _); [done|].
  destruct (major_version title); done.
Qed.

Lemma page_gate_other_families device_types title mv :
  contains "Apple TV" title = false ->
  major_version title = Ok mv ->
  page_gate device_types title = Ok (gate_as_specified device_types title mv).
Proof.
  intros Htv Hmv. unfold page_gate, gate_as_specified, family_minimum.
  rewrite Htv, Hmv. simpl.
  destruct (contains ".x" title); simpl; [|done].
  destruct (existsb _ device_types); simpl; [|done].
  destruct (Z.ltb_spec mv 9), (Z.leb_spec 9 mv); simpl; try done; lia.
Qed.

(** *** The version of a row whose link has display text *)

Lemma row_version_cases wikilinks cell :
  match wikilinks cell with
  | [] => row_version wikilinks cell = Ok cell
  | w :: _ =>
      match wl_text w with
      | Some t => row_version wikilinks cell = Ok (py_replace (wl_string w) t cell)
      | None => row_version wikilinks cell = Raise TypeError
      end
  end.
Proof.
  unfold row_version. destruct (wikilinks cell) as [|w ?]; [done|].
  by destruct (wl_text w).
Qed.

(** *** The signing loop has turns to spare *)

Section SigningFuel.

Variable boardconfig_of : string -> outcome string.
Variable fetch_manifest : string -> option string.
Variable tsschecker : string -> string -> string -> string.

Lemma length_delete_le {A} (l : list A) : forall j, (length (delete j l) <= length l)%nat.
Proof.
  induction l as [|x l IH]; intros [|j]; simpl; [lia..|].
  specialize (IH j). lia.
Qed.

Lemma bind_ext {A B} (m : M A) (k1 k2 : A -> M B) s :
  (forall a s', m s = (Ok a, s') -> k1 a s' = k2 a s') ->
  bind m k1 s = bind m k2 s.
Proof.
  intros H. unfold bind. destruct (m s) as [[a|e] s']; [by apply H|done].
Qed.

Lemma signing_loop_S fuel device boardconfig i :
  signing_loop fetch_manifest tsschecker (S fuel) device boardconfig i
  = bind (device_list device) (fun records =>
      match records !! i with
      | None => ret tt
      | Some firm =>
          bind (load firm) (fun f =>
            match try_manifest fetch_manifest f with
            | None =>
                bind (fun s => (index_of (heap s) f records, s)) (fun j =>
                  bind (pop_record device j) (fun _ =>
                    signing_loop fetch_manifest tsschecker fuel device boardconfig (S i)))
            | Some manifest =>
                bind (set_key firm "signed"
                        (VBool (contains "IS being signed!"
                                  (tsschecker device boardconfig manifest))))
                  (fun _ => signing_loop fetch_manifest tsschecker fuel device
                              boardconfig (S i))
            end)
      end).
Proof. reflexivity. Qed.

Lemma signing_loop_fuel fuel : forall device boardconfig i s ls,
  api s !! device = Some ls ->
  (length ls - i <= fuel)%nat ->
  signing_loop fetch_manifest tsschecker fuel device boardconfig i s
  = signing_loop fetch_manifest tsschecker (S fuel) device boardconfig i s.
Proof.
  induction fuel as [|fuel IH]; intros device boardconfig i s ls Hls Hlen.
  - simpl. unfold bind, device_list. rewrite Hls.
    destruct (ls !! i) as [firm|] eqn:Hi; [|done].
    apply lookup_lt_Some in Hi. lia.
  - rewrite (signing_loop_S (S fuel)), (signing_loop_S fuel).
    apply bind_ext. intros records s1 Hd.
    unfold device_list in Hd. rewrite Hls in Hd. simplify_eq.
    destruct (records !! i) as [firm|] eqn:Hi; [|done].
    apply lookup_lt_Some in Hi.
    apply bind_ext. intros f s2 Hload. unfold load in Hload. simplify_eq.
    destruct (try_manifest fetch_manifest (deref (heap s2) firm)) as [manifest|].
    + apply bind_ext. intros [] s3 Hset. unfold set_key in Hset. simplify_eq.
      apply (IH _ _ _ _ records); simpl; [done|lia].
    + apply bind_ext. intros j s3 Hj. simplify_eq.
      apply bind_ext. intros [] s4 Hpop.
      unfold pop_record, bind, device_list in Hpop. rewrite Hls in Hpop. simplify_eq.
      apply (IH _ _ _ _ (delete j records)); simpl.
      * by rewrite lookup_insert_eq.
      * pose proof (length_delete_le records j). lia.
Qed.

(** With the list's length as fuel the loop ends because the iterator is
    exhausted: more fuel gives the same result. *)
Lemma get_signing_status_fuel device s ls boardconfig extra :
  api s !! device = Some ls ->
  signing_loop fetch_manifest tsschecker (length ls) device boardconfig 0 s
  = signing_loop fetch_manifest tsschecker (length ls + extra) device boardconfig 0 s.
Proof.
  intros Hls. induction extra as [|extra IH]; [by rewrite Nat.add_0_r|].
  rewrite IH, Nat.add_succ_r. apply (signing_loop_fuel _ _ _ _ _ ls Hls). lia.
Qed.

End SigningFuel.

(** *** The states [build_api] and the signing pass reach *)

Lemma sound_empty : sound empty_scraper.
Proof. intros device ls l H. simpl in H. by rewrite lookup_empty in H. Qed.

Lemma sound_well_formed s : sound s -> well_formed s.
Proof. intros H device ls l Hls Hl. by destruct (H device ls l Hls Hl). Qed.

Lemma sound_buildids s : sound s -> buildids_are_strings s = true.
Proof.
  intros H. unfold buildids_are_strings. apply forallb_forall. intros device Hd.
  apply list_elem_of_In, api_keys_dom, elem_of_dom in Hd as [ls Hls].
  apply forallb_forall. intros f Hf. apply list_elem_of_In in Hf.
  unfold records_of in Hf. rewrite Hls in Hf. simpl in Hf.
  apply list_elem_of_fmap in Hf as (l & -> & Hl).
  destruct (H device ls l Hls Hl) as [_ [b ->]]. done.
Qed.

Lemma sound_keeps s s' : keeps_records s s' -> sound s -> sound s'.
Proof.
  intros [Hapi Hpre] H device ls l Hls Hl. rewrite Hapi in Hls.
  destruct (H device ls l Hls Hl) as [Hlt [b Hb]].
  split; [apply prefix_length in Hpre; lia|]. exists b.
  destruct (lookup_lt_is_Some_2 _ _ Hlt) as [d Hd].
  unfold deref in *. rewrite (prefix_lookup_Some _ _ _ _ Hd Hpre). by rewrite Hd in Hb.
Qed.

Lemma deref_insert_ne (h : list pydict) l l' d :
  l' <> l -> deref (<[l := d]> h) l' = deref h l'.
Proof. intros Hne. unfold deref. by rewrite list_lookup_insert_ne. Qed.

Section ReachableStates.
Variable wikilinks : string -> list WikiLink.
Variable external_links : string -> list ExternalLink.

Lemma store_fields_frame l bs ls zs fi s :
  (l < length (heap s))%nat ->
  let r := store_fields l bs ls zs fi s in
  api r.2 = api s
  /\ length (heap r.2) = length (heap s)
  /\ (forall l', l' <> l -> deref (heap r.2) l' = deref (heap s) l')
  /\ ((exists b, deref (heap r.2) l !! "buildid" = Some (VStr b))
      \/ deref (heap r.2) l !! "buildid" = deref (heap s) l !! "buildid")
  /\ (r.1 = Ok tt -> exists b, deref (heap r.2) l !! "buildid" = Some (VStr b)).
Proof.
  intros Hl. unfold store_fields, bind, lift, ret, set_key.
  repeat (case_match; simplify_eq/=);
    repeat (rewrite ?length_insert, ?list_insert_insert_eq;
            rewrite ?deref_insert by (rewrite ?length_insert; done));
    (split; [done|]); (split; [done|]);
    (split; [intros l' Hne; by rewrite ?deref_insert_ne by done|]);
    (split; [first [by right | left; simplify_map_eq; by eexists]
            | try done; intros _; simplify_map_eq; by eexists]).
Qed.

Lemma sound_insert s device ls' :
  sound s ->
  (forall l, l ∈ ls' ->
     (l < length (heap s))%nat
     /\ exists b, deref (heap s) l !! "buildid" = Some (VStr b)) ->
  sound (Scraper (heap s) (<[device := ls']> (api s))).
Proof.
  intros H Hnew device' ls l Hls Hl. simpl in *.
  destruct (decide (device = device')) as [->|Hne].
  - rewrite lookup_insert_eq in Hls. simplify_eq. by apply Hnew.
  - rewrite lookup_insert_ne in Hls by done. by eapply H.
Qed.

Lemma commit_record_sound device l s :
  sound s -> (l < length (heap s))%nat ->
  (exists b, deref (heap s) l !! "buildid" = Some (VStr b)) ->
  sound (commit_record device l s).2.
Proof.
  intros H Hl Hb.
  assert (sound (ensure_device device s).2
          /\ heap (ensure_device device s).2 = heap s) as [H1 Hh1].
  { unfold ensure_device. destruct (api s !! device); simpl; [done|].
    split; [|done]. apply sound_insert; [done|].
    intros l' Hl'. by apply elem_of_nil in Hl'. }
  unfold commit_record, bind.
  destruct (ensure_device device s) as [[[]|e] s1] eqn:He; simpl in *; [|done].
  unfold device_list. destruct (api s1 !! device) as [records|] eqn:Hrec; simpl; [|done].
  destruct (any_same_buildid (heap s1) (deref (heap s1) l) records) as [[]|e]; simpl;
    try done.
  unfold append_record, bind, device_list. rewrite Hrec. simpl.
  apply sound_insert; [done|]. intros l' Hl'.
  apply elem_of_app in Hl' as [Hin|Hin].
  - by eapply H1.
  - apply list_elem_of_singleton in Hin as ->. by rewrite Hh1.
Qed.

Lemma device_step_sound r d s :
  loop_sound (firm r) s -> loop_sound (firm r) (device_step r d s).2.
Proof.
  intros [H Hl].
  pose proof (store_fields_frame (firm r) (buildids r) (ipsws r) (ipsw_sizes r)
                (firm_index (length (devices r)) d) s Hl) as (Ha & Hlen & Hoth & Hsame & Hok).
  unfold device_step, bind.
  destruct (store_fields _ _ _ _ _ s) as [o s1]; simpl in *.
  assert (loop_sound (firm r) s1) as [H1 Hl1].
  { split; [|lia]. intros device ls l Hls Hin. rewrite Ha in Hls.
    destruct (H device ls l Hls Hin) as [Hlt [b Hb]]. split; [lia|].
    destruct (decide (l = firm r)) as [->|Hne].
    - destruct Hsame as [?|Heq]; [done|]. exists b. by rewrite Heq.
    - exists b. by rewrite Hoth. }
  destruct o as [[]|e]; [|done].
  unfold load, lift, ret.
  destruct (size (deref (heap s1) (firm r)) <? 4)%nat; [done|].
  destruct (get_item (devices r) d) as [device|]; simpl; [|done].
  split.
  - apply commit_record_sound; auto.
  - by rewrite commit_record_heap.
Qed.

Lemma process_row_sound template row s :
  sound s -> sound (process_row wikilinks external_links template row s).2.
Proof.
  intros H. pose proof (row_setup_keeps wikilinks external_links template row s) as Hk.
  unfold process_row, bind.
  destruct (row_setup wikilinks external_links template row s) as [[[r|]|e] s0] eqn:Hs;
    simpl in *; try by eapply sound_keeps.
  pose proof (row_setup_ready _ _ _ _ _ _ _ Hs) as (Hl & _).
  apply (for_each_invariant (loop_sound (firm r)) (device_step r)).
  - intros x s'. apply device_step_sound.
  - split; [by eapply sound_keeps | done].
Qed.

Lemma process_table_sound data s :
  sound s -> sound (process_table wikilinks external_links data s).2.
Proof.
  intros H. unfold process_table, bind, lift.
  destruct (get_item data 0); simpl; [|done].
  apply (for_each_invariant sound); [|done].
  intros row s'. apply process_row_sound.
Qed.

Variable site : Site.

Lemma process_page_sound device_types title s :
  sound s -> sound (process_page wikilinks external_links site device_types title s).2.
Proof.
  intros H. unfold process_page, bind, lift.
  destruct (page_gate device_types title) as [[]|]; simpl; try done.
  apply (for_each_invariant sound); [|done].
  intros data s'. apply process_table_sound.
Qed.

(** Whatever the pages hold and however [build_api] ends, the device lists
    refer to dicts of the store that carry a string build id. *)
Lemma build_api_sound device_types s :
  sound s -> sound (build_api wikilinks external_links site device_types s).2.
Proof.
  intros H. unfold build_api.
  apply (for_each_invariant sound); [|done].
  intros title s'. apply process_page_sound.
Qed.

Lemma build_api_ready device_types :
  let s := (build_api wikilinks external_links site device_types empty_scraper).2 in
  well_formed s /\ buildids_are_strings s = true.
Proof.
  pose proof (build_api_sound device_types empty_scraper sound_empty) as H.
  split; [by apply sound_well_formed | by apply sound_buildids].
Qed.

End ReachableStates.

Section SigningSound.

Variable boardconfig_of : string -> outcome string.
Variable fetch_manifest : string -> option string.
Variable tsschecker : string -> string -> string -> string.

Lemma set_signed_sound l v s :
  sound s -> sound (set_key l "signed" v s).2.
Proof.
  intros H device ls l' Hls Hl'. simpl in *. rewrite length_insert.
  destruct (H device ls l' Hls Hl') as [Hlt [b Hb]]. split; [done|]. exists b.
  destruct (decide (l' = l)) as [->|Hne].
  - rewrite deref_insert by done. by rewrite lookup_insert_ne.
  - by rewrite deref_insert_ne.
Qed.

Lemma pop_record_sound device j s :
  sound s -> sound (pop_record device j s).2.
Proof.
  intros H. unfold pop_record, bind, device_list.
  destruct (api s !! device) as [records|] eqn:Hrec; simpl; [|done].
  apply sound_insert; [done|]. intros l Hl.
  apply (H device records l Hrec).
  by eapply list_elem_of_delete_inv.
Qed.

Lemma signing_loop_sound fuel : forall device boardconfig i s,
  sound s -> sound (signing_loop fetch_manifest tsschecker fuel device boardconfig i s).2.
Proof.
  induction fuel as [|fuel IH]; intros device boardconfig i s H.
  - simpl. unfold bind, device_list.
    destruct (api s !! device) as [records|]; simpl; [|done].
    by destruct (records !! i).
  - rewrite signing_loop_S. unfold bind at 1. unfold device_list.
    destruct (api s !! device) as [records|]; simpl; [|done].
    destruct (records !! i) as [firm|]; [|done].
    unfold bind at 1. unfold load.
    destruct (try_manifest fetch_manifest (deref (heap s) firm)) as [manifest|].
    + unfold bind at 1.
      pose proof (set_signed_sound firm
                    (VBool (contains "IS being signed!"
                              (tsschecker device boardconfig manifest))) s H) as H1.
      destruct (set_key firm "signed" _ s) as [[[]|e] s1]; simpl in *; [|done].
      by apply IH.
    + unfold bind at 1.
      destruct (index_of (heap s) (deref (heap s) firm) records) as [j|e]; simpl; [|done].
      unfold bind at 1.
      pose proof (pop_record_sound device j s H) as H1.
      destruct (pop_record device j s) as [[[]|e] s1]; simpl in *; [|done].
      by apply IH.
Qed.

Lemma get_signing_status_sound device s :
  sound s ->
  sound (get_signing_status boardconfig_of fetch_manifest tsschecker device s).2.
Proof.
  intros H. unfold get_signing_status, bind, lift, device_list.
  destruct (boardconfig_of device); simpl; [|done].
  destruct (api s !! device); simpl; [|done].
  by apply signing_loop_sound.
Qed.

End SigningSound.

(** * Further properties of the code *)

(** ** More on the page gate *)

Lemma prefix_char c a s :
  String.prefix (String c EmptyString) (String a s) = Ascii.eqb c a.
Proof.
  rewrite prefix_cons. destruct (ascii_dec c a) as [->|Hne].
  - rewrite Ascii.eqb_refl. by destruct s.
  - symmetry. by apply Ascii.eqb_neq.
Qed.

Lemma prefix_refl s : String.prefix s s = true.
Proof.
  induction s as [|c s IH]; [done|]. rewrite prefix_cons.
  by destruct (ascii_dec c c).
Qed.

Lemma prefix_app p r : String.prefix p (p +:+ r) = true.
Proof.
  induction p as [|c p IH]; [by destruct r|].
  rewrite str_app_cons, prefix_cons. by destruct (ascii_dec c c).
Qed.

Lemma contains_cons x c s :
  contains x (String c s) = String.prefix x (String c s) || contains x s.
Proof. reflexivity. Qed.

Lemma contains_app_r x p : forall r, contains x (p +:+ x +:+ r) = true.
Proof.
  induction p as [|c p IH]; intros r.
  - change (EmptyString +:+ x +:+ r) with (x +:+ r).
    destruct (x +:+ r) eqn:Hx.
    + destruct x; [done|]. by rewrite str_app_cons in Hx.
    + rewrite contains_cons, <- Hx, prefix_app. done.
  - rewrite str_app_cons, contains_cons, IH. apply orb_true_r.
Qed.

Lemma contains_suffix x p : contains x (p +:+ x) = true.
Proof.
  pose proof (contains_app_r x p EmptyString) as H. by rewrite str_app_nil_r in H.
Qed.

Lemma contains_app_skip x p s : contains x s = true -> contains x (p +:+ s) = true.
Proof.
  intros H. induction p as [|c p IH]; [done|].
  rewrite str_app_cons, contains_cons, IH. apply orb_true_r.
Qed.

(** The pieces of a split at one character. *)
Lemma split_char_piece c p : forall cur rest,
  count_char c p = 0%nat ->
  split_go (String c EmptyString) 0 cur (p +:+ String c rest)
  = (cur +:+ p) :: split_go (String c EmptyString) 0 EmptyString rest.
Proof.
  induction p as [|a p IH]; intros cur rest Hp.
  - change (EmptyString +:+ String c rest) with (String c rest).
    rewrite split_go_cons, prefix_char, Ascii.eqb_refl, str_app_nil_r. done.
  - simpl in Hp. destruct (Ascii.eqb c a) eqn:Hca; [done|].
    rewrite str_app_cons, split_go_cons, prefix_char, Hca, IH by done.
    by rewrite str_app_assoc, str_app_cons.
Qed.

Lemma split_char_last c p : forall cur,
  count_char c p = 0%nat ->
  split_go (String c EmptyString) 0 cur p = [cur +:+ p].
Proof.
  induction p as [|a p IH]; intros cur Hp.
  - by rewrite str_app_nil_r.
  - simpl in Hp. destruct (Ascii.eqb c a) eqn:Hca; [done|].
    rewrite split_go_cons, prefix_char, Hca, IH by done.
    by rewrite str_app_assoc, str_app_cons.
Qed.

Lemma split_char_length c s : forall cur,
  length (split_go (String c EmptyString) 0 cur s) = S (count_char c s).
Proof.
  induction s as [|a s IH]; intros cur; [done|].
  rewrite split_go_cons, prefix_char. simpl.
  destruct (Ascii.eqb c a); simpl; by rewrite IH.
Qed.

Lemma take_str_app n r : take_str (String.length n) (n +:+ r) = n.
Proof.
  induction n as [|c n IH]; [by destruct r|].
  rewrite str_app_cons. simpl. by rewrite IH.
Qed.

Lemma count_char_app c s1 s2 :
  count_char c (s1 +:+ s2) = (count_char c s1 + count_char c s2)%nat.
Proof.
  induction s1 as [|a s1 IH]; [done|]. rewrite str_app_cons. simpl. rewrite IH. lia.
Qed.

Lemma digits_no_char c n :
  all_digits n = true -> is_digit c = false -> count_char c n = 0%nat.
Proof.
  intros Hn Hc. induction n as [|a n IH]; [done|].
  simpl in *. apply andb_true_iff in Hn as [Ha Hn].
  rewrite IH by done. destruct (Ascii.eqb_spec c a) as [->|]; [congruence|done].
Qed.

(** The major version of a title of the wiki's shape
    [<prefix>/<family>/<N>.x] is the number [N]. *)
Lemma major_version_of_title pre family n :
  count_char "/" pre = 0%nat -> count_char "/" family = 0%nat ->
  isdecimal n = true ->
  major_version (pre +:+ "/" +:+ family +:+ "/" +:+ n +:+ ".x") = Ok (digits_val 0 n).
Proof.
  intros Hpre Hfam Hn. unfold major_version, py_split.
  assert (all_digits n = true) as Hd by (by destruct n).
  change ("/" +:+ family +:+ "/" +:+ n +:+ ".x")
    with (String "/" (family +:+ "/" +:+ n +:+ ".x")).
  rewrite split_char_piece by done.
  change ("/" +:+ n +:+ ".x") with (String "/" (n +:+ ".x")).
  rewrite split_char_piece by done.
  rewrite split_char_last
    by (rewrite count_char_app, (digits_no_char "/" n) by done; done).
  simpl get_item. unfold get_item. simpl.
  change (EmptyString +:+ n +:+ ".x") with (n +:+ ".x").
  unfold drop_last. rewrite str_length_app. simpl.
  replace (String.length n + 2 - 2)%nat with (String.length n) by lia.
  rewrite take_str_app, (py_int_decimal _ Hn). done.
Qed.

(** X1. A title of the shape [<prefix>/<family>/<N>.x] that does not
    contain Apple TV goes on to be parsed exactly when it contains one of
    the requested family substrings and [N], read in decimal, is at least
    9; the gate raises nothing on such a title. *)
Theorem gate_on_wellformed_title device_types pre family n :
  count_char "/" pre = 0%nat -> count_char "/" family = 0%nat ->
  isdecimal n = true ->
  let title := pre +:+ "/" +:+ family +:+ "/" +:+ n +:+ ".x" in
  contains "Apple TV" title = false ->
  page_gate device_types title
  = Ok (existsb (fun x => contains x title) device_types && (9 <=? digits_val 0 n)%Z).
Proof.
  intros Hpre Hfam Hn title Htv. unfold page_gate.
  assert (contains ".x" title = true) as ->.
  { unfold title. do 4 apply contains_app_skip. apply contains_suffix. }
  simpl negb at 1. rewrite orb_false_l.
  destruct (existsb _ device_types); simpl; [|done].
  unfold title. rewrite (major_version_of_title _ _ _ Hpre Hfam Hn). simpl.
  fold title. rewrite Htv. simpl.
  destruct (Z.ltb_spec (digits_val 0 n) 9), (Z.leb_spec 9 (digits_val 0 n)); simpl;
    try done; lia.
Qed.

Lemma gate_on_wellformed_title_witness :
  page_gate ["iPhone"] "Beta Firmware/iPhone/14.x" = Ok true
  /\ page_gate ["iPhone"] "Beta Firmware/iPhone/8.x" = Ok false.
Proof.
  split.
  - refine (gate_on_wellformed_title ["iPhone"] "Beta Firmware" "iPhone" "14" _ _ _ _);
      reflexivity.
  - refine (gate_on_wellformed_title ["iPhone"] "Beta Firmware" "iPhone" "8" _ _ _ _);
      reflexivity.
Defined.


Lemma major_version_few_parts title :
  (count_char "/" title < 2)%nat -> major_version title = Raise IndexError.
Proof.
  intros H. unfold major_version, py_split, get_item.
  rewrite lookup_ge_None_2; [done|]. rewrite split_char_length. lia.
Qed.

Lemma page_gate_unselected device_types title :
  title_selected device_types title = false -> page_gate device_types title = Ok false.
Proof.
  unfold title_selected, page_gate. intros H.
  destruct (contains ".x" title); simpl in *; [|done]. by rewrite H.
Qed.

Lemma page_gate_error device_types title e :
  title_selected device_types title = true -> major_version title = Raise e ->
  page_gate device_types title = Raise e.
Proof.
  unfold title_selected, page_gate. intros H He.
  apply andb_true_iff in H as [-> ->]. simpl. by rewrite He.
Qed.

Section GateFacts.

Variable wikilinks : string -> list WikiLink.
Variable external_links : string -> list ExternalLink.
Variable site : Site.

(** X2. A selected title (it has the marker and a requested family) whose
    major version cannot be read makes [build_api] raise: with fewer than
    two slashes the third part is missing ([IndexError]), and in general
    the exception of [int] or of the indexing leaves [build_api] in the
    state reached after the titles before it; no later title is looked
    at. *)
Theorem unreadable_title_aborts device_types before title after e s0 s :
  title_selected device_types title = true ->
  ((count_char "/" title < 2)%nat /\ e = IndexError \/ major_version title = Raise e) ->
  search site = before ++ title :: after ->
  for_each before (process_page wikilinks external_links site device_types) s0 = (Ok tt, s) ->
  build_api wikilinks external_links site device_types s0 = (Raise e, s).
Proof.
  intros Hsel He Hsearch Hbefore.
  assert (major_version title = Raise e) as Hmv.
  { destruct He as [[Hc ->]|He]; [by apply major_version_few_parts | done]. }
  unfold build_api. rewrite Hsearch.
  eapply for_each_raise; [exact Hbefore|].
  unfold process_page, bind, lift. by rewrite (page_gate_error _ _ _ Hsel Hmv).
Qed.

(** X3. When no title of the search has both the version-range marker and
    a requested family substring -- in particular when no family is
    requested -- [build_api] returns normally and leaves the scraper as it
    was: such titles are skipped before anything of them is parsed. *)
Theorem nothing_selected_is_noop device_types s :
  Forall (fun title => title_selected device_types title = false) (search site) ->
  build_api wikilinks external_links site device_types s = (Ok tt, s).
Proof.
  unfold build_api. induction 1 as [|title titles Htitle _ IH]; [done|].
  simpl. unfold bind at 1. unfold process_page at 1. unfold bind, lift.
  by rewrite (page_gate_unselected _ _ Htitle).
Qed.

End GateFacts.

Lemma unreadable_title_aborts_witness :
  build_api flat_wikilinks flat_external_links
    {| search := ["iPhone 14.x"; "Beta Firmware/iPhone/14.x"];
       page_tables := fun _ => [[demo_template; row_one]] |}
    ["iPhone"] empty_scraper
  = (Raise IndexError, empty_scraper).
Proof.
  refine (unreadable_title_aborts flat_wikilinks flat_external_links _ ["iPhone"]
            [] "iPhone 14.x" ["Beta Firmware/iPhone/14.x"] IndexError
            empty_scraper empty_scraper _ _ _ _).
  - reflexivity.
  - left. split; [vm_compute; lia | reflexivity].
  - reflexivity.
  - reflexivity.
Defined.

Lemma nothing_selected_is_noop_witness :
  build_api flat_wikilinks flat_external_links
    {| search := ["Beta Firmware/iPhone/14.x"; "Beta Firmware/iPhone"];
       page_tables := fun _ => [[demo_template; row_one]] |}
    [] empty_scraper
  = (Ok tt, empty_scraper).
Proof.
  refine (nothing_selected_is_noop flat_wikilinks flat_external_links _ [] empty_scraper _).
  repeat constructor.
Defined.


(** ** Device identifiers *)

Lemma span_digits_cons c s :
  span_digits (String c s)
  = if is_digit c then (String c (span_digits s).1, (span_digits s).2)
    else (EmptyString, String c s).
Proof. simpl. destruct (is_digit c); [|done]. by destruct (span_digits s). Qed.

Lemma span_digits_spec s :
  s = (span_digits s).1 +:+ (span_digits s).2
  /\ all_digits (span_digits s).1 = true.
Proof.
  induction s as [|c s [IH1 IH2]]; [done|].
  rewrite span_digits_cons. destruct (is_digit c) eqn:Hc; simpl; [|done].
  rewrite str_app_cons, <- IH1, Hc. done.
Qed.

Lemma span_digits_app d c r :
  all_digits d = true -> is_digit c = false ->
  span_digits (d +:+ String c r) = (d, String c r).
Proof.
  intros Hd Hc. induction d as [|a d IH].
  - change (EmptyString +:+ String c r) with (String c r).
    by rewrite span_digits_cons, Hc.
  - simpl in Hd. apply andb_true_iff in Hd as [Ha Hd].
    by rewrite str_app_cons, span_digits_cons, Ha, IH.
Qed.

Lemma span_digits_all d : all_digits d = true -> span_digits d = (d, EmptyString).
Proof.
  intros Hd. induction d as [|a d IH]; [done|].
  simpl in Hd. apply andb_true_iff in Hd as [Ha Hd].
  by rewrite span_digits_cons, Ha, IH.
Qed.

Lemma isdecimal_cons c s : all_digits (String c s) = true -> isdecimal (String c s) = true.
Proof. done. Qed.

Lemma match_numbers_some s t :
  match_numbers s = Some t ->
  exists d1 d2 rest,
    isdecimal d1 = true /\ isdecimal d2 = true
    /\ t = d1 +:+ "," +:+ d2 /\ s = t +:+ rest.
Proof.
  unfold match_numbers.
  destruct (span_digits_spec s) as [Hs Hd1].
  destruct (span_digits s) as [d1 r1]; simpl in *.
  destruct d1 as [|a d1]; [done|].
  destruct r1 as [|c r2]; [done|].
  destruct (Ascii.eqb_spec c ",") as [->|Hne].
  - destruct (span_digits_spec r2) as [Hr Hd2].
    destruct (span_digits r2) as [d2 rest]; simpl in *.
    destruct d2 as [|b d2]; [done|]. intros [= <-].
    exists (String a d1), (String b d2), rest. repeat split; try done.
    rewrite Hs, Hr. by rewrite !str_app_assoc.
  - intros H. exfalso. apply Hne. clear -H.
    destruct c as [[] [] [] [] [] [] [] []]; done.
Qed.

Lemma match_numbers_id d1 d2 :
  isdecimal d1 = true -> isdecimal d2 = true ->
  match_numbers (d1 +:+ "," +:+ d2) = Some (d1 +:+ "," +:+ d2).
Proof.
  intros H1 H2. unfold match_numbers.
  assert (all_digits d1 = true) as Ha1 by (by destruct d1).
  assert (all_digits d2 = true) as Ha2 by (by destruct d2).
  change ("," +:+ d2) with (String "," d2).
  rewrite (span_digits_app d1 "," d2 Ha1) by done.
  destruct d1 as [|a d1]; [done|].
  rewrite (span_digits_all d2 Ha2). by destruct d2.
Qed.

Lemma drop_str_app p r : drop_str (String.length p) (p +:+ r) = r.
Proof. induction p as [|c p IH]; [by destruct r|]. by rewrite str_app_cons. Qed.

Lemma match_alternatives_some ps s g :
  match_alternatives ps s = Some g ->
  exists p t r, p ∈ ps /\ s = p +:+ r /\ match_numbers r = Some t /\ g = p +:+ t.
Proof.
  induction ps as [|p ps IH]; [done|]. simpl.
  destruct (String.prefix p s) eqn:Hp.
  - destruct (prefix_split _ _ Hp) as [r ->]. rewrite drop_str_app.
    destruct (match_numbers r) as [t|] eqn:Ht.
    + intros [= <-]. exists p, t, r. repeat split; try done. by left.
    + intros H. destruct (IH H) as (p' & t' & r' & Hin & ? & ? & ?).
      exists p', t', r'. repeat split; try done. by right.
  - intros H. destruct (IH H) as (p' & t' & r' & Hin & ? & ? & ?).
    exists p', t', r'. repeat split; try done. by right.
Qed.

Lemma match_alternatives_cons p ps s :
  match_alternatives (p :: ps) s
  = match (if String.prefix p s
           then match_numbers (drop_str (String.length p) s)
           else None) with
    | Some t => Some (p +:+ t)
    | None => match_alternatives ps s
    end.
Proof. reflexivity. Qed.

Lemma device_match_id_of p t :
  p ∈ device_prefixes -> match_numbers t = Some t -> device_match (p +:+ t) = Some (p +:+ t).
Proof.
  intros Hp Ht. unfold device_prefixes in Hp.
  assert (forall q, match_numbers (drop_str (String.length q) (q +:+ t)) = Some t) as Hd.
  { intros q. by rewrite drop_str_app. }
  unfold device_match, device_prefixes.
  repeat (apply elem_of_cons in Hp as [->|Hp]);
    [..|by apply elem_of_nil in Hp].
  - rewrite match_alternatives_cons, prefix_app, Hd. done.
  - rewrite match_alternatives_cons.
    replace (String.prefix "iPhone" ("AppleTV" +:+ t)) with false by reflexivity.
    rewrite match_alternatives_cons, prefix_app, Hd. done.
  - rewrite match_alternatives_cons.
    replace (String.prefix "iPhone" ("iPad" +:+ t)) with false by reflexivity.
    rewrite match_alternatives_cons.
    replace (String.prefix "AppleTV" ("iPad" +:+ t)) with false by reflexivity.
    rewrite match_alternatives_cons, prefix_app, Hd. done.
  - rewrite match_alternatives_cons.
    replace (String.prefix "iPhone" ("iPod" +:+ t)) with false by reflexivity.
    rewrite match_alternatives_cons.
    replace (String.prefix "AppleTV" ("iPod" +:+ t)) with false by reflexivity.
    rewrite match_alternatives_cons.
    replace (String.prefix "iPad" ("iPod" +:+ t)) with false by reflexivity.
    rewrite match_alternatives_cons, prefix_app, Hd. done.
Qed.

Lemma device_match_shape s g :
  device_match s = Some g -> is_device_id g /\ String.prefix g s = true.
Proof.
  intros H. apply match_alternatives_some in H as (p & t & r & Hp & -> & Ht & ->).
  apply match_numbers_some in Ht as (d1 & d2 & rest & H1 & H2 & -> & ->).
  split.
  - by exists p, d1, d2.
  - rewrite <- (str_app_assoc p (d1 +:+ "," +:+ d2) rest). apply prefix_app.
Qed.

Lemma device_id_fixed g : is_device_id g -> device_match g = Some g.
Proof.
  intros (p & d1 & d2 & Hp & H1 & H2 & ->).
  apply device_match_id_of; [done|]. by apply match_numbers_id.
Qed.

Lemma device_id_filename g :
  is_device_id g -> g <> EmptyString /\ count_char "/" g = 0%nat.
Proof.
  intros (p & d1 & d2 & Hp & H1 & H2 & ->).
  assert (all_digits d1 = true) as Ha1 by (by destruct d1).
  assert (all_digits d2 = true) as Ha2 by (by destruct d2).
  split.
  - unfold device_prefixes in Hp.
    repeat (apply elem_of_cons in Hp as [->|Hp]); try done. by apply elem_of_nil in Hp.
  - rewrite !count_char_app, (digits_no_char "/" d1), (digits_no_char "/" d2) by done.
    unfold device_prefixes in Hp.
    repeat (apply elem_of_cons in Hp as [->|Hp]); try done. by apply elem_of_nil in Hp.
Qed.

(** X4. What the device pattern matches: the matched text is a prefix of
    the link text and has the shape name, digits, comma, digits with one of
    the four names; it is not empty and has no slash; and the strings of
    that shape are exactly those the pattern matches whole. *)
Theorem device_match_characterised :
  (forall s g, device_match s = Some g ->
     is_device_id g /\ String.prefix g s = true
     /\ g <> EmptyString /\ count_char "/" g = 0%nat)
  /\ (forall g, is_device_id g <-> device_match g = Some g).
Proof.
  split.
  - intros s g H. destruct (device_match_shape s g H) as [Hid Hpre].
    destruct (device_id_filename g Hid). done.
  - intros g. split; [apply device_id_fixed|].
    intros H. by destruct (device_match_shape g g H).
Qed.


Lemma device_match_characterised_witness :
  is_device_id "iPad6,11" /\ String.prefix "iPad6,11" "iPad6,11 (Wi-Fi)" = true.
Proof.
  destruct (proj1 device_match_characterised "iPad6,11 (Wi-Fi)" "iPad6,11" eq_refl)
    as (Hid & Hpre & _).
  split; [exact Hid | exact Hpre].
Defined.

Lemma keys_insert s device ls :
  is_device_id device -> keys_are_device_ids s ->
  keys_are_device_ids (Scraper (heap s) (<[device := ls]> (api s))).
Proof.
  intros Hd H k Hk. simpl in Hk. rewrite dom_insert_L in Hk.
  apply elem_of_union in Hk as [Hk|Hk]; [|by apply H].
  by apply elem_of_singleton in Hk as ->.
Qed.

Section KeyFacts.

Variable wikilinks : string -> list WikiLink.
Variable external_links : string -> list ExternalLink.

Lemma row_devices_ids cell : Forall is_device_id (row_devices wikilinks cell).
Proof.
  apply Forall_forall. intros g Hg. unfold row_devices in Hg.
  apply list_elem_of_omap in Hg as (w & _ & Hm).
  by destruct (device_match_shape _ _ Hm).
Qed.

Lemma row_setup_devices template row s r s0 :
  row_setup wikilinks external_links template row s = (Ok (Some r), s0) ->
  Forall is_device_id (devices r).
Proof.
  unfold row_setup, bind, lift, alloc, set_key, ret.
  intros H. repeat (case_match; simplify_eq/=). apply row_devices_ids.
Qed.

Lemma store_fields_api l bs ls zs fi s :
  api (store_fields l bs ls zs fi s).2 = api s.
Proof.
  unfold store_fields, bind, lift, ret, set_key.
  repeat (case_match; simplify_eq/=); done.
Qed.

Lemma commit_record_keys device l s :
  is_device_id device -> keys_are_device_ids s ->
  keys_are_device_ids (commit_record device l s).2.
Proof.
  intros Hd H.
  assert (keys_are_device_ids (ensure_device device s).2) as H1.
  { unfold ensure_device. destruct (api s !! device); simpl; [done|].
    by apply keys_insert. }
  unfold commit_record, bind.
  destruct (ensure_device device s) as [[[]|e] s1]; simpl in *; [|done].
  unfold device_list. destruct (api s1 !! device) as [records|] eqn:Hrec; simpl; [|done].
  destruct (any_same_buildid (heap s1) (deref (heap s1) l) records) as [[]|e]; simpl;
    try done.
  unfold append_record, bind, device_list. rewrite Hrec. simpl.
  by apply keys_insert.
Qed.

Lemma device_step_keys r d s :
  Forall is_device_id (devices r) -> keys_are_device_ids s ->
  keys_are_device_ids (device_step r d s).2.
Proof.
  intros Hr H.
  pose proof (store_fields_api (firm r) (buildids r) (ipsws r) (ipsw_sizes r)
                (firm_index (length (devices r)) d) s) as Ha.
  unfold device_step, bind.
  destruct (store_fields _ _ _ _ _ s) as [o s1]; simpl in *.
  assert (keys_are_device_ids s1) as H1.
  { intros k Hk. apply H. by rewrite <- Ha. }
  destruct o as [[]|e]; [|done].
  unfold load, lift, ret.
  destruct (size (deref (heap s1) (firm r)) <? 4)%nat; [done|].
  unfold get_item. destruct (devices r !! d) as [device|] eqn:Hdev; simpl; [|done].
  apply commit_record_keys; [|done].
  rewrite Forall_forall in Hr. apply Hr. by eapply list_elem_of_lookup_2.
Qed.

Lemma process_row_keys template row s :
  keys_are_device_ids s ->
  keys_are_device_ids (process_row wikilinks external_links template row s).2.
Proof.
  intros H. pose proof (row_setup_keeps wikilinks external_links template row s) as [Hk _].
  unfold process_row, bind.
  destruct (row_setup wikilinks external_links template row s) as [[[r|]|e] s0] eqn:Hs;
    simpl in *; try (intros k Hk'; apply H; by rewrite <- Hk).
  apply (for_each_invariant keys_are_device_ids (device_step r)).
  - intros x s'. apply device_step_keys. by eapply row_setup_devices.
  - intros k Hk'. apply H. by rewrite <- Hk.
Qed.

Variable site : Site.

(** X5. [build_api] only ever adds keys the device pattern matched: if
    every key of [self.api] is a device identifier before the call, so is
    every key after it, however the call ends.  From the empty mapping of
    [__init__], all keys are of the shape name, digits, comma, digits --
    non-empty and without a slash, so each names a file in the output
    directory. *)
Theorem build_api_keys_are_device_ids device_types s :
  keys_are_device_ids s ->
  keys_are_device_ids (build_api wikilinks external_links site device_types s).2.
Proof.
  intros H. unfold build_api.
  apply (for_each_invariant keys_are_device_ids); [|done].
  intros title s' H'. unfold process_page, bind, lift.
  destruct (page_gate device_types title) as [[]|]; simpl; try done.
  apply (for_each_invariant keys_are_device_ids); [|done].
  intros data s'' H''. unfold process_table, bind, lift.
  destruct (get_item data 0); simpl; [|done].
  apply (for_each_invariant keys_are_device_ids); [|done].
  intros row s3. apply process_row_keys.
Qed.

End KeyFacts.

Lemma build_api_keys_are_device_ids_witness :
  keys_are_device_ids empty_scraper
  /\ keys_are_device_ids (run [[demo_template; row_four; row_two]]).2.
Proof.
  assert (keys_are_device_ids empty_scraper) as H.
  { intros k Hk. simpl in Hk. by rewrite dom_empty_L in Hk. }
  split; [exact H|].
  exact (build_api_keys_are_device_ids flat_wikilinks flat_external_links
           (site_of [[demo_template; row_four; row_two]]) ["iPhone"] empty_scraper H).
Defined.


(** ** The extraction steps of a row *)

Lemma split_no_separator sep s : forall cur,
  contains sep s = false -> split_go sep 0 cur s = [cur +:+ s].
Proof.
  induction s as [|c s IH]; intros cur H.
  - by rewrite str_app_nil_r.
  - rewrite contains_cons in H. apply orb_false_iff in H as [Hp Hs].
    rewrite split_go_cons, Hp, IH by done.
    by rewrite str_app_assoc, str_app_cons.
Qed.

Lemma split_with_separator sep s : forall cur,
  sep <> EmptyString -> contains sep s = true ->
  (2 <= length (split_go sep 0 cur s))%nat.
Proof.
  induction s as [|c s IH]; intros cur Hsep H.
  - destruct sep; done.
  - rewrite contains_cons in H. rewrite split_go_cons.
    destruct (String.prefix sep (String c s)) eqn:Hp.
    + simpl. pose proof (split_go_nonempty sep s (String.length sep - 1) EmptyString) as Hne.
      destruct (split_go sep (String.length sep - 1) EmptyString s); [done|]. simpl. lia.
    + simpl in H. by apply IH.
Qed.

(** X6. The build ids of a cell.  A cell without the separator is itself
    the one build id.  A cell with the separator gives two entries fewer
    than it has pieces (the first and the last piece are dropped), so a
    cell in which the separator occurs once gives no build id at all. *)
Theorem row_buildids_count cell :
  (contains "   | " cell = false -> row_buildids cell = [cell])
  /\ (contains "   | " cell = true ->
      (2 <= length (py_split "   | " cell))%nat
      /\ length (row_buildids cell) = (length (py_split "   | " cell) - 2)%nat).
Proof.
  unfold row_buildids, py_split. split; intros H.
  - by rewrite (split_no_separator _ _ _ H).
  - pose proof (split_with_separator "   | " cell EmptyString ltac:(done) H) as Hlen.
    split; [done|].
    assert (forall (l : list string) a, length (removelast (a :: l)) = length l) as Hrm.
    { intros l a. rewrite removelast_firstn_len, length_firstn. simpl. lia. }
    destruct (split_go "   | " 0 EmptyString cell) as [|x [|y parts]];
      [simpl in Hlen; lia..|].
    change (1 <? length (x :: y :: parts))%nat with true. cbv iota.
    rewrite length_fmap. change (tail (x :: y :: parts)) with (y :: parts).
    rewrite Hrm. simpl. lia.
Qed.

Lemma row_buildids_count_witness :
  row_buildids "18E5154b" = ["18E5154b"]
  /\ length (row_buildids "{{x   | A = 18E5154a}   | B = 18E5154b}   | }}") = 2%nat
  /\ length (row_buildids "18E5154a   | 18E5154b") = 0%nat.
Proof.
  split; [|split].
  - exact (proj1 (row_buildids_count "18E5154b") eq_refl).
  - exact (proj2 (proj2 (row_buildids_count "{{x   | A = 18E5154a}   | B = 18E5154b}   | }}")
                          eq_refl)).
  - exact (proj2 (proj2 (row_buildids_count "18E5154a   | 18E5154b") eq_refl)).
Defined.

Lemma first_label_matches template x :
  first_label template = Ok x ->
  (contains "Codename" x || contains "Keys" x) = true.
Proof.
  induction template as [|[l|] t IH]; simpl; try done.
  destruct (contains "Codename" l || contains "Keys" l) eqn:Hl; [|done].
  by intros [= <-].
Qed.

(** X7. The column of the devices.  When the lookup of line 41 succeeds
    with position [i], the template has at [i] a label containing Codename
    or Keys and every label before [i] is a string containing neither: the
    position is that of the first such label.  A [None] label met before
    any such label makes the lookup raise [TypeError]. *)
Theorem template_index_first template :
  (forall i, template_index template = Ok i ->
     (exists label, template !! i = Some (Some label)
        /\ (contains "Codename" label || contains "Keys" label) = true)
     /\ forall j, (j < i)%nat ->
          exists label, template !! j = Some (Some label)
            /\ (contains "Codename" label || contains "Keys" label) = false)
  /\ (forall before after,
        template = (Some <$> before) ++ None :: after ->
        Forall (fun label => (contains "Codename" label || contains "Keys" label) = false)
          before ->
        template_index template = Raise TypeError).
Proof.
  split.
  - induction template as [|[l|] t IH]; intros i; unfold template_index; simpl; try done.
    destruct (contains "Codename" l || contains "Keys" l) eqn:Hl.
    + simpl. rewrite bool_decide_eq_true_2 by done. intros [= <-].
      split; [by exists l | intros j Hj; lia].
    + destruct (first_label t) as [x|e] eqn:Hx; simpl; [|done].
      pose proof (first_label_matches _ _ Hx) as Hm.
      rewrite bool_decide_eq_false_2 by (intros [= ->]; congruence).
      destruct (list_index x t) as [i'|] eqn:Hi; simpl; [|done].
      intros [= <-].
      destruct (IH i') as [Hhere Hbefore].
      { unfold template_index. by rewrite Hx. }
      split; [done|]. intros [|j] Hj; [by exists l|].
      apply Hbefore. lia.
  - intros before after -> Hb. unfold template_index.
    assert (first_label ((Some <$> before) ++ None :: after) = Raise TypeError) as ->; [|done].
    induction Hb as [|l before Hl _ IH]; [done|].
    change (first_label ((Some <$> l :: before) ++ None :: after))
      with (if contains "Codename" l || contains "Keys" l then Ok l
            else first_label ((Some <$> before) ++ None :: after)).
    by rewrite Hl.
Qed.

Lemma template_index_first_witness :
  template_index demo_template = Ok 2%nat
  /\ template_index [Some "Version"; None; Some "Keys"] = Raise TypeError.
Proof.
  split; [reflexivity|].
  refine (proj2 (template_index_first [Some "Version"; None; Some "Keys"])
            ["Version"] [Some "Keys"] _ _).
  - reflexivity.
  - repeat constructor.
Defined.


(** ** Exceptions of the loop over the devices *)

Lemma row_buildids_nil cell :
  row_buildids cell = [] <-> length (py_split "   | " cell) = 2%nat.
Proof.
  unfold row_buildids.
  pose proof (split_go_nonempty "   | " cell 0 EmptyString) as Hne.
  fold (py_split "   | " cell) in Hne.
  destruct (py_split "   | " cell) as [|x [|y parts]]; [done|by split|].
  change (1 <? length (x :: y :: parts))%nat with true. cbv iota.
  change (tail (x :: y :: parts)) with (y :: parts).
  split.
  - intros H. apply (f_equal length) in H. rewrite length_fmap in H.
    rewrite removelast_firstn_len, length_firstn in H. simpl in *. lia.
  - intros H. simpl in H. destruct parts; [done|simpl in H; lia].
Qed.

Lemma firm_index_le n d : (firm_index n d <= 1)%nat.
Proof. unfold firm_index. case_match; lia. Qed.

Lemma store_fields_ok l bs ls zs fi s :
  bs <> [] -> ls <> [] -> length zs = length ls -> (fi <= 1)%nat ->
  (store_fields l bs ls zs fi s).1 = Ok tt.
Proof.
  intros Hb Hl Hz Hfi.
  destruct bs as [|b [|b' bs]]; [done|..];
    destruct ls as [|i [|i' ls]]; try done;
    destruct zs as [|z [|z' zs]]; try done;
    destruct fi as [|[|fi]]; try lia; reflexivity.
Qed.

Lemma any_same_buildid_ok h firm records :
  (forall f, f ∈ records -> exists b, deref h f !! "buildid" = Some (VStr b)) ->
  (exists b, firm !! "buildid" = Some (VStr b)) ->
  exists seen, any_same_buildid h firm records = Ok seen.
Proof.
  intros Hrec [b Hb]. induction records as [|f records IH]; [by eexists|].
  simpl. unfold dict_get. destruct (Hrec f) as [a Ha]; [by left|].
  rewrite Ha, Hb. simpl. destruct (String.eqb a b); [by eexists|].
  apply IH. intros f' Hf'. apply Hrec. by right.
Qed.

Lemma commit_record_ok device l s :
  sound s -> (exists b, deref (heap s) l !! "buildid" = Some (VStr b)) ->
  (commit_record device l s).1 = Ok tt.
Proof.
  intros H Hb. unfold commit_record, bind.
  assert (exists records,
            api (ensure_device device s).2 !! device = Some records
            /\ heap (ensure_device device s).2 = heap s
            /\ (ensure_device device s).1 = Ok tt
            /\ forall f, f ∈ records ->
                 exists b, deref (heap s) f !! "buildid" = Some (VStr b))
    as (records & Hrec & Hh & Hok & Hall).
  { unfold ensure_device. destruct (api s !! device) as [records|] eqn:Hd; simpl.
    - exists records. repeat split; try done. intros f Hf. by destruct (H device records f).
    - exists []. rewrite lookup_insert_eq. repeat split; try done.
      intros f Hf. by apply elem_of_nil in Hf. }
  destruct (ensure_device device s) as [o s1]; simpl in *. subst o.
  unfold device_list. rewrite Hrec. simpl. rewrite Hh.
  destruct (any_same_buildid_ok (heap s) (deref (heap s) l) records Hall Hb) as [seen ->].
  simpl. destruct seen; [done|].
  unfold append_record, bind, device_list. by rewrite Hrec.
Qed.

Lemma for_each_ok {A} (J : scraper -> Prop) (body : A -> M unit) l :
  (forall x s, x ∈ l -> J s -> (body x s).1 = Ok tt /\ J (body x s).2) ->
  forall s, J s -> (for_each l body s).1 = Ok tt /\ J (for_each l body s).2.
Proof.
  induction l as [|x l IH]; intros Hbody s Hs; [done|].
  simpl. unfold bind. destruct (Hbody x s) as [Hok HJ]; [by left|done|].
  destruct (body x s) as [o s1]; simpl in *. subst o.
  apply IH; [|done]. intros y s' Hy. apply Hbody. by right.
Qed.

Section LoopFacts.

Variable wikilinks : string -> list WikiLink.
Variable external_links : string -> list ExternalLink.

Lemma first_external_links_nonempty firm_data ls :
  first_external_links external_links firm_data = Some ls -> ls <> [].
Proof.
  induction firm_data as [|item rest IH]; simpl; [done|].
  destruct (external_links item) eqn:Hl; [done|]. by intros [= <-].
Qed.

Lemma row_setup_buildids template row s r s0 :
  row_setup wikilinks external_links template row s = (Ok (Some r), s0) ->
  exists cell1, omap id row !! 1%nat = Some cell1 /\ buildids r = row_buildids cell1.
Proof.
  unfold row_setup, bind, lift, alloc, set_key, ret, get_item.
  intros H. repeat (case_match; simplify_eq/=). by eexists.
Qed.

Lemma device_step_ok r d s :
  buildids r <> [] -> ipsws r <> [] -> length (ipsw_sizes r) = length (ipsws r) ->
  (d < length (devices r))%nat ->
  loop_sound (firm r) s ->
  (device_step r d s).1 = Ok tt.
Proof.
  intros Hb Hl Hz Hd [H Hfirm].
  pose proof (store_fields_ok (firm r) (buildids r) (ipsws r) (ipsw_sizes r)
                (firm_index (length (devices r)) d) s Hb Hl Hz (firm_index_le _ _)) as Hok.
  pose proof (store_fields_frame (firm r) (buildids r) (ipsws r) (ipsw_sizes r)
                (firm_index (length (devices r)) d) s Hfirm)
    as (Ha & Hlen & Hoth & Hsame & Hbid).
  unfold device_step, bind.
  destruct (store_fields _ _ _ _ _ s) as [o s1]; simpl in *. subst o.
  specialize (Hbid eq_refl).
  unfold load, lift, ret.
  destruct (size (deref (heap s1) (firm r)) <? 4)%nat; [done|].
  destruct (lookup_lt_is_Some_2 (devices r) d Hd) as [device Hdev].
  unfold get_item. rewrite Hdev. simpl.
  apply commit_record_ok; [|done].
  intros dev ls l Hls Hin. rewrite Ha in Hls.
  destruct (H dev ls l Hls Hin) as [Hlt [b Hb']]. split; [lia|].
  destruct (decide (l = firm r)) as [->|Hne]; [done|].
  exists b. by rewrite Hoth.
Qed.

(** X8. The loop over the devices of a row that has passed the extraction
    steps and the three guards, run on a scraper whose records all have a
    build id.  If the Build cell does not split into exactly two pieces,
    the loop completes for every device without an exception.  If it does
    (the separator occurs once, so no build id is left) and the row has a
    device, the first turn raises [IndexError] at line 79 before anything
    is recorded. *)
Theorem device_loop_outcome template row s r s0 cell1 :
  sound s ->
  row_setup wikilinks external_links template row s = (Ok (Some r), s0) ->
  omap id row !! 1%nat = Some cell1 ->
  (length (py_split "   | " cell1) <> 2%nat ->
   (process_row wikilinks external_links template row s).1 = Ok tt)
  /\ (length (py_split "   | " cell1) = 2%nat -> devices r <> [] ->
      process_row wikilinks external_links template row s = (Raise IndexError, s0)
      /\ api s0 = api s).
Proof.
  intros H Hsetup Hcell.
  destruct (row_setup_buildids _ _ _ _ _ Hsetup) as (cell & Hc & Hb).
  rewrite Hcell in Hc. simplify_eq.
  destruct (row_setup_some _ _ _ _ _ _ _ Hsetup) as (last_cell & Hlinks & _ & _ & _ & Hlen).
  pose proof (first_external_links_nonempty _ _ Hlinks) as Hne.
  pose proof (row_setup_keeps wikilinks external_links template row s) as Hk.
  pose proof (row_setup_ready _ _ _ _ _ _ _ Hsetup) as (Hfirm & _).
  unfold process_row, bind. rewrite Hsetup in *. simpl in Hk.
  split.
  - intros Hsplit.
    apply (for_each_ok (loop_sound (firm r)) (device_step r)).
    + intros d s' Hd Hs'. apply elem_of_seq in Hd. split.
      * apply device_step_ok; try done; [|lia].
        rewrite Hb. intros Hnil. by apply row_buildids_nil in Hnil.
      * by apply device_step_sound.
    + split; [by eapply sound_keeps | done].
  - intros Hsplit Hdev. split; [|by destruct Hk].
    destruct (devices r) as [|d0 ds] eqn:Hds; [done|].
    change (seq 0 (length (d0 :: ds))) with (0%nat :: seq 1 (length ds)).
    apply row_buildids_nil in Hsplit. simpl. unfold bind, device_step, bind, store_fields,
      bind, lift. rewrite Hb, Hsplit. done.
Qed.

End LoopFacts.

(** A row with two devices whose Build cell has the separator once. *)
Lemma device_loop_outcome_witness :
  (process_row flat_wikilinks flat_external_links demo_template row_pair empty_scraper).1
    = Ok tt
  /\ (process_row flat_wikilinks flat_external_links demo_template row_one_separator
        empty_scraper).1 = Raise IndexError.
Proof.
  assert (sound empty_scraper) as H by apply sound_empty.
  split.
  - refine (proj1 (device_loop_outcome flat_wikilinks flat_external_links
                     demo_template row_pair empty_scraper demo_fields demo_s0
                     "{{x   | A = 18E5154a}   | B = 18E5154b}   | }}" H _ _) _).
    + vm_compute. reflexivity.
    + reflexivity.
    + vm_compute. lia.
  - refine (f_equal fst (proj1 (proj2 (device_loop_outcome flat_wikilinks flat_external_links
                     demo_template row_one_separator empty_scraper
                     demo_fields_sep demo_s0_sep
                     "18E5154a   | 18E5154b" H _ _) _ _))).
    + vm_compute. reflexivity.
    + reflexivity.
    + vm_compute. reflexivity.
    + vm_compute. discriminate.
Defined.


(** ** The records [build_api] leaves *)

Lemma sizes_above_ten cell zs :
  row_sizes cell = Ok zs -> Forall (fun z => (10 < z)%Z) zs.
Proof. intros H. by apply (sizes_loop_above _ _ _ H). Qed.

Lemma complete_keeps s s' : keeps_records s s' -> complete s -> complete s'.
Proof.
  intros [Hapi Hpre] H device ls l Hls Hl. rewrite Hapi in Hls.
  destruct (H device ls l Hls Hl) as [Hlt Hc].
  split; [apply prefix_length in Hpre; lia|].
  destruct (lookup_lt_is_Some_2 _ _ Hlt) as [d Hd].
  unfold deref in *. rewrite (prefix_lookup_Some _ _ _ _ Hd Hpre). by rewrite Hd in Hc.
Qed.

Lemma complete_insert s device ls' :
  complete s ->
  (forall l, l ∈ ls' -> (l < length (heap s))%nat /\ complete_record (deref (heap s) l)) ->
  complete (Scraper (heap s) (<[device := ls']> (api s))).
Proof.
  intros H Hnew device' ls l Hls Hl. simpl in *.
  destruct (decide (device = device')) as [->|Hne].
  - rewrite lookup_insert_eq in Hls. simplify_eq. by apply Hnew.
  - rewrite lookup_insert_ne in Hls by done. by eapply H.
Qed.

Lemma store_fields_typed l bs ls zs fi s :
  (l < length (heap s))%nat ->
  Forall (fun z => (10 < z)%Z) zs ->
  let r := store_fields l bs ls zs fi s in
  let f := deref (heap s) l in
  let f' := deref (heap r.2) l in
  api r.2 = api s
  /\ length (heap r.2) = length (heap s)
  /\ (forall l', l' <> l -> deref (heap r.2) l' = deref (heap s) l')
  /\ f' !! "version" = f !! "version"
  /\ ((exists b, f' !! "buildid" = Some (VStr b)) \/ f' !! "buildid" = f !! "buildid")
  /\ ((exists u, f' !! "url" = Some (VStr u)) \/ f' !! "url" = f !! "url")
  /\ ((exists z, f' !! "size" = Some (VInt z) /\ (10 < z)%Z) \/ f' !! "size" = f !! "size")
  /\ (r.1 = Ok tt ->
      (exists b, f' !! "buildid" = Some (VStr b))
      /\ (exists u, f' !! "url" = Some (VStr u))
      /\ (exists z, f' !! "size" = Some (VInt z) /\ (10 < z)%Z)).
Proof.
  intros Hl Hzs.
  assert (forall i z, get_item zs i = Ok z -> (10 < z)%Z) as Hz.
  { intros i z. unfold get_item. destruct (zs !! i) as [z'|] eqn:Hi; [|done].
    intros [= <-]. rewrite Forall_forall in Hzs. apply Hzs.
    by eapply list_elem_of_lookup_2. }
  unfold store_fields, bind, lift, ret, set_key.
  repeat (case_match; simplify_eq/=);
    repeat (rewrite ?length_insert, ?list_insert_insert_eq;
            rewrite ?deref_insert by (rewrite ?length_insert; done));
    (split; [done|]); (split; [done|]);
    (split; [intros l' Hne; by rewrite ?deref_insert_ne by done|]);
    (split; [by simplify_map_eq|]);
    (split; [first [right; by simplify_map_eq | left; field_typed]|]);
    (split; [first [right; by simplify_map_eq | left; field_typed]|]);
    (split; [first [right; by simplify_map_eq | left; field_typed]|]);
    first [done | intros _; split; [field_typed|]; split; field_typed].
Qed.

Lemma commit_record_complete device l s :
  complete s -> (l < length (heap s))%nat -> complete_record (deref (heap s) l) ->
  complete (commit_record device l s).2.
Proof.
  intros H Hl Hc.
  assert (complete (ensure_device device s).2
          /\ heap (ensure_device device s).2 = heap s) as [H1 Hh1].
  { unfold ensure_device. destruct (api s !! device); simpl; [done|].
    split; [|done]. apply complete_insert; [done|].
    intros l' Hl'. by apply elem_of_nil in Hl'. }
  unfold commit_record, bind.
  destruct (ensure_device device s) as [[[]|e] s1] eqn:He; simpl in *; [|done].
  unfold device_list. destruct (api s1 !! device) as [records|] eqn:Hrec; simpl; [|done].
  destruct (any_same_buildid (heap s1) (deref (heap s1) l) records) as [[]|e]; simpl;
    try done.
  unfold append_record, bind, device_list. rewrite Hrec. simpl.
  apply complete_insert; [done|]. intros l' Hl'.
  apply elem_of_app in Hl' as [Hin|Hin].
  - by eapply H1.
  - apply list_elem_of_singleton in Hin as ->. by rewrite Hh1.
Qed.

Lemma device_step_complete r d s :
  Forall (fun z => (10 < z)%Z) (ipsw_sizes r) ->
  loop_complete (firm r) s -> loop_complete (firm r) (device_step r d s).2.
Proof.
  intros Hzs (H & Hl & v & Hv).
  pose proof (store_fields_typed (firm r) (buildids r) (ipsws r) (ipsw_sizes r)
                (firm_index (length (devices r)) d) s Hl Hzs)
    as (Ha & Hlen & Hoth & Hver & Hb & Hu & Hz & Hok).
  unfold device_step, bind.
  destruct (store_fields _ _ _ _ _ s) as [o s1]; simpl in *.
  assert (loop_complete (firm r) s1) as (H1 & Hl1 & Hv1).
  { split; [|split; [lia | exists v; by rewrite Hver]].
    intros device ls l Hls Hin. rewrite Ha in Hls.
    destruct (H device ls l Hls Hin) as [Hlt Hc]. split; [lia|].
    destruct (decide (l = firm r)) as [->|Hne]; [|by rewrite Hoth].
    destruct Hc as (Hcv & Hcb & Hcu & Hcz).
    split; [by rewrite Hver|].
    split; [destruct Hb as [? | ->]; done|].
    split; [destruct Hu as [? | ->]; done|].
    destruct Hz as [? | ->]; done. }
  destruct o as [[]|e]; [|done].
  destruct (Hok eq_refl) as (Hfb & Hfu & Hfz).
  unfold load, lift, ret.
  destruct (size (deref (heap s1) (firm r)) <? 4)%nat; [done|].
  destruct (get_item (devices r) d) as [device|]; simpl; [|done].
  split; [|rewrite commit_record_heap; done].
  apply commit_record_complete; [done..|]. done.
Qed.

Section CompleteFacts.

Variable wikilinks : string -> list WikiLink.
Variable external_links : string -> list ExternalLink.

Lemma row_setup_version template row s r s0 :
  row_setup wikilinks external_links template row s = (Ok (Some r), s0) ->
  exists v, deref (heap s0) (firm r) !! "version" = Some (VStr v).
Proof.
  unfold row_setup, bind, lift, alloc, set_key, ret.
  intros H. repeat (case_match; simplify_eq/=).
  rewrite deref_fresh, store_fresh, deref_fresh, lookup_insert_eq. by eexists.
Qed.

Lemma process_row_complete template row s :
  complete s -> complete (process_row wikilinks external_links template row s).2.
Proof.
  intros H. pose proof (row_setup_keeps wikilinks external_links template row s) as Hk.
  unfold process_row, bind.
  destruct (row_setup wikilinks external_links template row s) as [[[r|]|e] s0] eqn:Hs;
    simpl in *; try by eapply complete_keeps.
  pose proof (row_setup_ready _ _ _ _ _ _ _ Hs) as (Hl & _).
  pose proof (row_setup_version _ _ _ _ _ Hs) as Hv.
  destruct (row_setup_some _ _ _ _ _ _ _ Hs) as (cell & _ & _ & _ & Hsz & _).
  apply (for_each_invariant (loop_complete (firm r)) (device_step r)).
  - intros x s'. apply device_step_complete. by eapply sizes_above_ten.
  - split; [by eapply complete_keeps | done].
Qed.

Variable site : Site.

(** X9. Every record [build_api] leaves in [self.api] is complete: from a
    scraper whose records all have a string version, build id and url and
    an integer size above 10 -- the empty one of [__init__] in particular
    -- every state [build_api] ends in, normally or by an exception, has
    only such records. *)
Theorem build_api_records_complete device_types s :
  complete s -> complete (build_api wikilinks external_links site device_types s).2.
Proof.
  intros H. unfold build_api.
  apply (for_each_invariant complete); [|done].
  intros title s' H'. unfold process_page, bind, lift.
  destruct (page_gate device_types title) as [[]|]; simpl; try done.
  apply (for_each_invariant complete); [|done].
  intros data s'' H''. unfold process_table, bind, lift.
  destruct (get_item data 0); simpl; [|done].
  apply (for_each_invariant complete); [|done].
  intros row s3. apply process_row_complete.
Qed.

End CompleteFacts.

Lemma build_api_records_complete_witness :
  complete empty_scraper /\ complete (run [[demo_template; row_one; row_pair]]).2.
Proof.
  assert (complete empty_scraper) as H.
  { intros device ls l Hls. simpl in Hls. by rewrite lookup_empty in Hls. }
  split; [exact H|].
  exact (build_api_records_complete flat_wikilinks flat_external_links
           (site_of [[demo_template; row_one; row_pair]]) ["iPhone"] empty_scraper H).
Defined.

(** ** [build_api] only adds *)

Lemma grows_refl s : grows s s.
Proof. split; [done|]. intros device ls Hls. exists []. by rewrite app_nil_r. Qed.

Lemma grows_trans s1 s2 s3 : grows s1 s2 -> grows s2 s3 -> grows s1 s3.
Proof.
  intros [Hl1 H1] [Hl2 H2]. split; [lia|]. intros device ls Hls.
  destruct (H1 device ls Hls) as [m1 Hm1]. destruct (H2 device _ Hm1) as [m2 Hm2].
  exists (m1 ++ m2). by rewrite app_assoc.
Qed.

Lemma grows_keeps s s' : keeps_records s s' -> grows s s'.
Proof.
  intros [Hapi Hpre]. split; [by apply prefix_length|].
  intros device ls Hls. exists []. by rewrite app_nil_r, Hapi.
Qed.

Lemma grows_insert s device ls more :
  api s !! device = Some ls \/ (api s !! device = None /\ ls = []) ->
  grows s (Scraper (heap s) (<[device := ls ++ more]> (api s))).
Proof.
  intros Hd. split; [done|]. intros device' ls' Hls'. simpl.
  destruct (decide (device = device')) as [->|Hne].
  - rewrite lookup_insert_eq. destruct Hd as [Hd|[Hd _]]; [|congruence].
    rewrite Hd in Hls'. simplify_eq. by exists more.
  - rewrite lookup_insert_ne by done. exists []. by rewrite app_nil_r.
Qed.

Lemma commit_record_grows device l s : grows s (commit_record device l s).2.
Proof.
  assert (grows s (ensure_device device s).2) as H1.
  { unfold ensure_device. destruct (api s !! device) eqn:Hd; simpl; [apply grows_refl|].
    apply (grows_insert s device [] []). by right. }
  unfold commit_record, bind.
  destruct (ensure_device device s) as [[[]|e] s1]; simpl in *; [|done].
  unfold device_list. destruct (api s1 !! device) as [records|] eqn:Hrec; simpl; [|done].
  destruct (any_same_buildid (heap s1) (deref (heap s1) l) records) as [[]|e]; simpl;
    try done.
  unfold append_record, bind, device_list. rewrite Hrec. simpl.
  eapply grows_trans; [exact H1|]. apply grows_insert. by left.
Qed.

Lemma store_fields_length l bs ls zs fi s :
  length (heap (store_fields l bs ls zs fi s).2) = length (heap s).
Proof.
  unfold store_fields, bind, lift, ret, set_key.
  repeat (case_match; simplify_eq/=); by rewrite ?length_insert.
Qed.

Lemma device_step_grows r d s : grows s (device_step r d s).2.
Proof.
  pose proof (store_fields_api (firm r) (buildids r) (ipsws r) (ipsw_sizes r)
                (firm_index (length (devices r)) d) s) as Ha.
  pose proof (store_fields_length (firm r) (buildids r) (ipsws r) (ipsw_sizes r)
                (firm_index (length (devices r)) d) s) as Hlen.
  unfold device_step, bind.
  destruct (store_fields _ _ _ _ _ s) as [o s1]; simpl in *.
  assert (grows s s1) as H1.
  { split; [lia|]. intros device ls Hls. exists []. by rewrite app_nil_r, Ha. }
  destruct o as [[]|e]; [|done].
  unfold load, lift, ret.
  destruct (size (deref (heap s1) (firm r)) <? 4)%nat; [done|].
  destruct (get_item (devices r) d) as [device|]; simpl; [|done].
  eapply grows_trans; [exact H1|]. apply commit_record_grows.
Qed.

Lemma for_each_grows {A} (body : A -> M unit) l :
  (forall x s, grows s (body x s).2) -> forall s, grows s (for_each l body s).2.
Proof.
  intros Hbody s.
  apply (for_each_invariant (grows s) body l); [|apply grows_refl].
  intros x s' Hs'. eapply grows_trans; [exact Hs'|]. apply Hbody.
Qed.

Section GrowFacts.

Variable wikilinks : string -> list WikiLink.
Variable external_links : string -> list ExternalLink.
Variable site : Site.

(** X10. [build_api] never removes anything: whatever the pages hold and
    however the call ends, every device that had a list still has it, with
    the records it had in the same order and possibly more after them, and
    no dict of the store is dropped. *)
Theorem build_api_only_adds device_types s :
  grows s (build_api wikilinks external_links site device_types s).2.
Proof.
  unfold build_api. apply for_each_grows. intros title s'.
  unfold process_page, bind, lift.
  destruct (page_gate device_types title) as [[]|]; simpl; try apply grows_refl.
  apply for_each_grows. intros data s''. unfold process_table, bind, lift.
  destruct (get_item data 0) as [template|]; simpl; [|apply grows_refl].
  apply for_each_grows. intros row s3.
  pose proof (row_setup_keeps wikilinks external_links template row s3) as Hk.
  unfold process_row, bind.
  destruct (row_setup wikilinks external_links template row s3) as [[[r|]|e] s0];
    simpl in *; try by apply grows_keeps.
  eapply grows_trans; [by apply grows_keeps|].
  apply for_each_grows. intros d s4. apply device_step_grows.
Qed.

End GrowFacts.


(** ** What the signing pass changes *)

Lemma signing_frame_refl device s : signing_frame device s s.
Proof.
  repeat split; try done. destruct (api s !! device) as [ls|]; [|done]. by exists ls.
Qed.

Lemma signing_frame_trans device s1 s2 s3 :
  signing_frame device s1 s2 -> signing_frame device s2 s3 -> signing_frame device s1 s3.
Proof.
  intros (Hl1 & Hf1 & Ho1 & Hd1) (Hl2 & Hf2 & Ho2 & Hd2).
  split; [congruence|]. split; [intros l k Hk; by rewrite Hf2, Hf1|].
  split; [intros d Hd; by rewrite Ho2, Ho1|].
  destruct (api s1 !! device) as [ls|].
  - destruct Hd1 as (ls1 & Hls1 & Hsub1). rewrite Hls1 in Hd2.
    destruct Hd2 as (ls2 & Hls2 & Hsub2). exists ls2. split; [done|]. by etrans.
  - by rewrite Hd1 in Hd2.
Qed.

Lemma set_signed_frame device l v s :
  signing_frame device s (set_key l "signed" v s).2.
Proof.
  split; [simpl; by rewrite length_insert|].
  split; [|split; [done|simpl; destruct (api s !! device) as [ls|]; [by exists ls|done]]].
  intros l' k Hk. simpl.
  destruct (decide (l' = l)) as [->|Hne]; [|by rewrite deref_insert_ne].
  destruct (decide (l < length (heap s))%nat) as [Hlt|Hge].
  - rewrite deref_insert by done. by rewrite lookup_insert_ne.
  - by rewrite list_insert_ge by lia.
Qed.

Lemma pop_record_frame device j s :
  signing_frame device s (pop_record device j s).2.
Proof.
  unfold pop_record, bind, device_list.
  destruct (api s !! device) as [records|] eqn:Hrec; simpl; [|apply signing_frame_refl].
  repeat split; try done; simpl.
  - intros d Hd. by rewrite lookup_insert_ne.
  - rewrite Hrec, lookup_insert_eq. exists (delete j records). split; [done|].
    apply sublist_delete.
Qed.

Section SigningFrame.

Variable boardconfig_of : string -> outcome string.
Variable fetch_manifest : string -> option string.
Variable tsschecker : string -> string -> string -> string.

Lemma signing_loop_frame fuel : forall device boardconfig i s,
  signing_frame device s
    (signing_loop fetch_manifest tsschecker fuel device boardconfig i s).2.
Proof.
  induction fuel as [|fuel IH]; intros device boardconfig i s.
  - simpl. unfold bind, device_list.
    destruct (api s !! device) as [records|]; simpl; [|apply signing_frame_refl].
    destruct (records !! i); apply signing_frame_refl.
  - rewrite signing_loop_S. unfold bind at 1. unfold device_list.
    destruct (api s !! device) as [records|]; simpl; [|apply signing_frame_refl].
    destruct (records !! i) as [firm|]; [|apply signing_frame_refl].
    unfold bind at 1. unfold load.
    destruct (try_manifest fetch_manifest (deref (heap s) firm)) as [manifest|].
    + unfold bind at 1.
      pose proof (set_signed_frame device firm
                    (VBool (contains "IS being signed!"
                              (tsschecker device boardconfig manifest))) s) as H1.
      destruct (set_key firm "signed" _ s) as [[[]|e] s1]; simpl in *; [|done].
      eapply signing_frame_trans; [exact H1 | apply IH].
    + unfold bind at 1.
      destruct (index_of (heap s) (deref (heap s) firm) records) as [j|e]; simpl;
        [|apply signing_frame_refl].
      unfold bind at 1.
      pose proof (pop_record_frame device j s) as H1.
      destruct (pop_record device j s) as [[[]|e] s1]; simpl in *; [|done].
      eapply signing_frame_trans; [exact H1 | apply IH].
Qed.

(** X11. What [get_signing_status(device)] can change, however it ends:
    no dict is created or dropped and no field other than [signed] of any
    dict is written; the lists of the other devices are untouched; the
    list of [device] keeps a sub-list of its records in their order; and a
    device that was not a key does not become one.  In particular the
    version, build id, url and size of every record are what
    [build_api] left. *)
Theorem signing_pass_frame device s :
  let s' := (get_signing_status boardconfig_of fetch_manifest tsschecker device s).2 in
  length (heap s') = length (heap s)
  /\ (forall l k, k <> "signed" -> deref (heap s') l !! k = deref (heap s) l !! k)
  /\ (forall d, d <> device -> api s' !! d = api s !! d)
  /\ match api s !! device with
     | Some ls => exists ls', api s' !! device = Some ls' /\ ls' `sublist_of` ls
     | None => api s' !! device = None
     end.
Proof.
  change (signing_frame device s
            (get_signing_status boardconfig_of fetch_manifest tsschecker device s).2).
  unfold get_signing_status, bind, lift, device_list.
  destruct (boardconfig_of device); simpl; [|apply signing_frame_refl].
  destruct (api s !! device) eqn:Hd; simpl; [|apply signing_frame_refl].
  apply signing_loop_frame.
Qed.

Lemma try_manifest_frame device s s' l :
  signing_frame device s s' ->
  try_manifest fetch_manifest (deref (heap s') l)
  = try_manifest fetch_manifest (deref (heap s) l).
Proof. intros (_ & Hf & _). unfold try_manifest. by rewrite Hf. Qed.

Lemma signing_loop_step_signed fuel device boardconfig i s ls firm manifest :
  api s !! device = Some ls -> ls !! i = Some firm ->
  try_manifest fetch_manifest (deref (heap s) firm) = Some manifest ->
  signing_loop fetch_manifest tsschecker (S fuel) device boardconfig i s
  = signing_loop fetch_manifest tsschecker fuel device boardconfig (S i)
      (set_key firm "signed"
         (VBool (contains "IS being signed!" (tsschecker device boardconfig manifest))) s).2.
Proof.
  intros Hls Hi Hm. rewrite signing_loop_S. unfold bind, device_list, load.
  by rewrite Hls, Hi, Hm.
Qed.

Lemma signing_loop_done fuel device boardconfig i s ls :
  api s !! device = Some ls -> ls !! i = None ->
  signing_loop fetch_manifest tsschecker fuel device boardconfig i s = (Ok tt, s).
Proof.
  intros Hls Hi. destruct fuel; [simpl|rewrite signing_loop_S];
    unfold bind, device_list; by rewrite Hls, Hi.
Qed.

Lemma signing_loop_resolving device boardconfig ls fuel : forall i s,
  api s !! device = Some ls ->
  (forall l, l ∈ ls ->
     (l < length (heap s))%nat
     /\ is_Some (try_manifest fetch_manifest (deref (heap s) l))) ->
  (length ls - i <= fuel)%nat ->
  exists s',
    signing_loop fetch_manifest tsschecker fuel device boardconfig i s = (Ok tt, s')
    /\ api s' = api s
    /\ forall l, (signed_by fetch_manifest tsschecker device boardconfig s l
                  \/ exists j, (i <= j)%nat /\ ls !! j = Some l) ->
         signed_by fetch_manifest tsschecker device boardconfig s' l.
Proof.
  induction fuel as [|fuel IH]; intros i s Hls Hres Hfuel;
    destruct (ls !! i) as [firm|] eqn:Hi;
    try (apply lookup_lt_Some in Hi; lia);
    try (exists s; split; [by eapply signing_loop_done|]; split; [done|];
         intros l [Hl|(j & Hj & Hjl)]; [done|];
         apply lookup_lt_Some in Hjl; apply lookup_ge_None in Hi; lia).
  assert (firm ∈ ls) as Hfirm by (by eapply list_elem_of_lookup_2).
  destruct (Hres firm Hfirm) as [Hlt [manifest Hm]].
  rewrite (signing_loop_step_signed fuel device boardconfig i s ls firm manifest) by done.
  set (v := VBool (contains "IS being signed!" (tsschecker device boardconfig manifest))).
  pose proof (set_signed_frame device firm v s) as Hframe.
  set (s1 := (set_key firm "signed" v s).2) in *.
  assert (deref (heap s1) firm !! "signed" = Some v) as Hv.
  { unfold s1. simpl. rewrite deref_insert by done. by rewrite lookup_insert_eq. }
  assert (forall l, l <> firm -> deref (heap s1) l = deref (heap s) l) as Hoth.
  { intros l Hne. unfold s1. simpl. by rewrite deref_insert_ne. }
  assert (api s1 = api s) as Hapi by done.
  destruct (IH (S i) s1) as (s' & Hrun & Hapi' & Hsigned).
  - by rewrite Hapi.
  - intros l Hl. destruct (Hres l Hl) as [Hl1 Hl2].
    pose proof Hframe as (Hlen & _). split; [lia|].
    by rewrite (try_manifest_frame device s s1 l Hframe).
  - lia.
  - exists s'. split; [done|]. split; [congruence|].
    assert (forall l, signed_by fetch_manifest tsschecker device boardconfig s l ->
                      signed_by fetch_manifest tsschecker device boardconfig s1 l) as Hkeep.
    { intros l (m & Hlm & Hls'). exists m.
      rewrite (try_manifest_frame device s s1 l Hframe). split; [done|].
      destruct (decide (l = firm)) as [->|Hne]; [|by rewrite Hoth].
      rewrite Hv. unfold v. congruence. }
    intros l [Hl|(j & Hj & Hjl)]; apply Hsigned.
    + left. by apply Hkeep.
    + destruct (decide (j = i)) as [->|Hne].
      * left. rewrite Hi in Hjl. simplify_eq. exists manifest.
        by rewrite (try_manifest_frame device s s1 l Hframe).
      * right. exists j. split; [lia|done].
Qed.

(** X12. When the download of every record of the device resolves, the
    pass removes nothing and marks every record: [get_signing_status]
    returns normally, [self.api] is unchanged, and each record of the
    device carries under [signed] whether the tool's output for its
    manifest contains the words IS being signed!. *)
Theorem signing_pass_all_resolve device boardconfig ls s :
  boardconfig_of device = Ok boardconfig ->
  api s !! device = Some ls ->
  (forall l, l ∈ ls ->
     (l < length (heap s))%nat
     /\ is_Some (try_manifest fetch_manifest (deref (heap s) l))) ->
  let r := get_signing_status boardconfig_of fetch_manifest tsschecker device s in
  r.1 = Ok tt
  /\ api r.2 = api s
  /\ forall l, l ∈ ls ->
       exists manifest,
         try_manifest fetch_manifest (deref (heap s) l) = Some manifest
         /\ deref (heap r.2) l !! "signed"
            = Some (VBool (contains "IS being signed!"
                             (tsschecker device boardconfig manifest))).
Proof.
  intros Hbc Hls Hres. unfold get_signing_status, bind, lift, device_list.
  rewrite Hbc, Hls. simpl.
  destruct (signing_loop_resolving device boardconfig ls (length ls) 0 s Hls Hres)
    as (s' & Hrun & Hapi & Hsigned); [lia|].
  pose proof (signing_loop_frame (length ls) device boardconfig 0 s) as Hframe.
  rewrite Hrun in *. simpl in *.
  split; [done|]. split; [done|]. intros l Hl.
  apply list_elem_of_lookup_1 in Hl as [j Hj].
  destruct (Hsigned l) as (m & Hm & Hs).
  { right. exists j. split; [lia|done]. }
  exists m. split; [|done].
  by rewrite <- (try_manifest_frame device s s' l Hframe).
Qed.

End SigningFrame.


(** ** The order of the records in a file *)

Lemma ltb_asym a b : String.ltb a b = true -> String.ltb b a = false.
Proof.
  unfold String.ltb. rewrite (String.compare_antisym b a).
  by destruct (String.compare a b).
Qed.

Lemma insert_desc_perm x l : insert_desc x l ≡ₚ x :: l.
Proof.
  induction l as [|y l IH]; [done|]. simpl.
  destruct (String.ltb x.1 y.1); [|done].
  rewrite IH. apply Permutation_swap.
Qed.

Lemma insert_desc_sorted x l :
  Sorted (fun a b : string * pydict => String.ltb a.1 b.1 = false) l ->
  Sorted (fun a b : string * pydict => String.ltb a.1 b.1 = false) (insert_desc x l).
Proof.
  induction 1 as [|y l Hs IH Hhd]; simpl; [by repeat constructor|].
  destruct (String.ltb x.1 y.1) eqn:Hxy.
  - constructor; [done|].
    destruct l as [|z l]; simpl in *.
    + constructor. by apply ltb_asym.
    + destruct (String.ltb x.1 z.1); constructor.
      * by inversion Hhd.
      * by apply ltb_asym.
  - constructor; [by constructor|]. by constructor.
Qed.

Lemma insert_desc_filter (k : string) x l :
  filter (fun kf : string * pydict => kf.1 = k) (insert_desc x l)
  = filter (fun kf : string * pydict => kf.1 = k) (x :: l).
Proof.
  induction l as [|y l IH]; [done|]. simpl.
  destruct (String.ltb x.1 y.1) eqn:Hxy; [|done].
  rewrite filter_cons, IH, !filter_cons.
  destruct (decide (y.1 = k)) as [Hy|Hy], (decide (x.1 = k)) as [Hx|Hx]; try done.
  rewrite Hx, Hy in Hxy. unfold String.ltb in Hxy.
  pose proof (String.compare_antisym k k) as Hk.
  by destruct (String.compare k k).
Qed.

Lemma keyed_spec records ks :
  keyed records = Ok ks ->
  ks.*2 = records /\ Forall (fun kf => kf.2 !! "buildid" = Some (VStr kf.1)) ks.
Proof.
  revert ks. induction records as [|f records IH]; intros ks; simpl.
  - by intros [= <-].
  - unfold buildid_key. destruct (f !! "buildid") as [[b| |]|] eqn:Hb; try done. simpl.
    destruct (keyed records) as [rest|]; [|done]. simpl. intros [= <-].
    destruct (IH rest eq_refl) as [Hrest Hall]. split; [|by constructor].
    by rewrite fmap_cons, Hrest.
Qed.

(** X13. The records written for a device.  When [sorted_desc] succeeds,
    its result is a rearrangement of the device's records, in descending
    order of build id (no record is followed by one with a greater build
    id), and records with the same build id keep the order they had in the
    device's list. *)
Theorem sorted_desc_sorts records out :
  sorted_desc records = Ok out ->
  out ≡ₚ records
  /\ Sorted (fun a b => exists ka kb,
               a !! "buildid" = Some (VStr ka) /\ b !! "buildid" = Some (VStr kb)
               /\ String.ltb ka kb = false) out
  /\ forall k, filter (fun f => f !! "buildid" = Some (VStr k)) out
             = filter (fun f => f !! "buildid" = Some (VStr k)) records.
Proof.
  unfold sorted_desc. destruct (keyed records) as [ks|] eqn:Hk; [|done]. simpl.
  intros [= <-]. destruct (keyed_spec _ _ Hk) as [<- Hall]. clear Hk.
  assert (foldr insert_desc [] ks ≡ₚ ks) as Hperm.
  { induction ks as [|x ks IH]; [done|]. simpl. rewrite insert_desc_perm.
    constructor. apply IH. by inversion Hall. }
  assert (Sorted (fun a b : string * pydict => String.ltb a.1 b.1 = false)
            (foldr insert_desc [] ks)) as Hsorted.
  { clear. induction ks as [|x ks IH]; simpl; [constructor|].
    by apply insert_desc_sorted. }
  assert (forall k, filter (fun kf : string * pydict => kf.1 = k) (foldr insert_desc [] ks)
                    = filter (fun kf : string * pydict => kf.1 = k) ks) as Hstable.
  { clear. intros k. induction ks as [|x ks IH]; [done|]. simpl.
    by rewrite insert_desc_filter, !filter_cons, IH. }
  assert (Forall (fun kf => kf.2 !! "buildid" = Some (VStr kf.1)) (foldr insert_desc [] ks))
    as Hall'.
  { rewrite Forall_forall in *. intros kf Hkf. apply Hall. by rewrite <- Hperm. }
  split; [by rewrite Hperm|]. split.
  - clear Hperm Hstable Hall.
    induction Hsorted as [|a l Hs IH Hhd]; simpl; [constructor|].
    apply Forall_cons in Hall' as [Ha Hl].
    constructor; [by apply IH|].
    destruct Hhd as [|b l Hab]; simpl; constructor.
    apply Forall_cons in Hl as [Hb _]. by exists a.1, b.1.
  - intros k.
    assert (forall l : list (string * pydict),
              Forall (fun kf => kf.2 !! "buildid" = Some (VStr kf.1)) l ->
              filter (fun f => f !! "buildid" = Some (VStr k)) l.*2
              = (filter (fun kf : string * pydict => kf.1 = k) l).*2) as Hproj.
    { induction 1 as [|kf l Hkf _ IH]; [done|].
      rewrite fmap_cons, !filter_cons, IH.
      destruct (decide (kf.2 !! "buildid" = Some (VStr k))) as [H1|H1],
               (decide (kf.1 = k)) as [H2|H2]; try done.
      - rewrite Hkf in H1. congruence.
      - rewrite Hkf, H2 in H1. done. }
    by rewrite (Hproj _ Hall'), (Hproj _ Hall), Hstable.
Qed.

Lemma sorted_desc_sorts_witness :
  sorted_desc [record "b1" "18E5154a" "u1" 11; record "b2" "18E5164a" "u2" 12;
               record "b3" "18E5154a" "u3" 13]
    = Ok [record "b2" "18E5164a" "u2" 12; record "b1" "18E5154a" "u1" 11;
          record "b3" "18E5154a" "u3" 13]
  /\ [record "b2" "18E5164a" "u2" 12; record "b1" "18E5154a" "u1" 11;
      record "b3" "18E5154a" "u3" 13]
     ≡ₚ [record "b1" "18E5154a" "u1" 11; record "b2" "18E5164a" "u2" 12;
         record "b3" "18E5154a" "u3" 13].
Proof.
  assert (sorted_desc [record "b1" "18E5154a" "u1" 11; record "b2" "18E5164a" "u2" 12;
                       record "b3" "18E5154a" "u3" 13]
          = Ok [record "b2" "18E5164a" "u2" 12; record "b1" "18E5154a" "u1" 11;
                record "b3" "18E5154a" "u3" 13]) as H.
  { vm_compute. reflexivity. }
  split; [exact H|]. exact (proj1 (sorted_desc_sorts _ _ H)).
Defined.


(** ** Running [write_api] again, and its failures *)

Lemma write_devices_data (path : list string) (s : scraper) keys : forall (fs fs' : filesystem),
  write_devices path s keys fs = Ok fs' ->
  forall device, device ∈ keys -> exists data, sorted_desc (records_of s device) = Ok data.
Proof.
  induction keys as [|d keys IH]; intros fs fs' H device Hd.
  - by apply elem_of_nil in Hd.
  - simpl in H. destruct (sorted_desc (records_of s d)) as [data|] eqn:Hdata; [|done].
    simpl in H. destruct (write_file (path ++ [d]) data fs) as [fs1|]; [|done].
    simpl in H. apply elem_of_cons in Hd as [->|Hd]; [by eexists|]. by eapply IH.
Qed.

(** What a successful run tells about the file system it started from. *)
Lemma write_api_ok_inv (path : list string) (s : scraper) (fs fs1 : filesystem) :
  write_api path s fs = Ok fs1 ->
  path <> []
  /\ is_dir fs (removelast path) = true
  /\ (fs !! path = None \/ fs !! path = Some Dir)
  /\ forall device, device ∈ api_keys s ->
       exists data, sorted_desc (records_of s device) = Ok data.
Proof.
  intros H.
  assert (path <> []) as Hp.
  { intros ->. unfold write_api, rmtree, mkdir in H. simpl in H. done. }
  assert (¬ path `prefix_of` removelast path) as Hshort.
  { intros Hpre. apply prefix_length in Hpre.
    destruct path as [|x path] using rev_ind; [done|].
    rewrite removelast_last, length_app in Hpre. simpl in Hpre. lia. }
  unfold write_api in H.
  rewrite (path_exists_nonempty _ _ Hp) in H.
  destruct (decide (is_Some (fs !! path))) as [Hex|Hnex].
  - rewrite bool_decide_eq_true_2 in H by done. unfold rmtree in H.
    destruct (is_dir fs path) eqn:Hdir; [|done]. simpl in H.
    rewrite (is_dir_nonempty _ _ Hp) in Hdir. apply bool_decide_eq_true in Hdir.
    unfold mkdir in H.
    destruct (path_exists _ path); [done|].
    destruct (is_dir _ (removelast path)) eqn:Hpar; [|done]. simpl in H.
    split; [done|]. split; [|split; [by right | by eapply write_devices_data]].
    destruct (removelast path) as [|x p'] eqn:Hrl; [done|].
    rewrite is_dir_nonempty in Hpar |- * by done.
    apply bool_decide_eq_true in Hpar. apply bool_decide_eq_true.
    apply map_lookup_filter_Some in Hpar as [Hpar _]. done.
  - rewrite bool_decide_eq_false_2 in H by done. simpl in H. unfold mkdir in H.
    destruct (path_exists fs path); [done|].
    destruct (is_dir fs (removelast path)) eqn:Hpar; [|done]. simpl in H.
    split; [done|]. split; [done|]. split; [|by eapply write_devices_data].
    left. destruct (fs !! path); [|done]. by destruct Hnex.
Qed.

(** The files of a run, read by path. *)
Lemma write_api_lookup (path : list string) (s : scraper) (fs fs1 : filesystem) :
  fs_wf fs = true ->
  write_api path s fs = Ok fs1 ->
  fs1 !! path = Some Dir
  /\ (forall device, device ∈ api_keys s ->
        exists data, sorted_desc (records_of s device) = Ok data
                     /\ fs1 !! (path ++ [device]) = Some (File data))
  /\ (forall q, path `prefix_of` q -> q <> path ->
        (forall device, device ∈ api_keys s -> q <> path ++ [device]) ->
        fs1 !! q = None)
  /\ (forall q, ¬ path `prefix_of` q -> fs1 !! q = fs !! q).
Proof.
  intros Hwf H.
  destruct (write_api_ok_inv _ _ _ _ H) as (Hp & Hpar & Hpath & Hdata).
  destruct (fresh_directory path fs Hp Hwf Hpar Hpath) as (fs0 & Hprep & Hbelow & Hout).
  assert (forall device, path <> path ++ [device]) as Hpd.
  { intros device Heq. apply (f_equal length) in Heq.
    rewrite length_app in Heq. simpl in Heq. lia. }
  destruct (write_devices_spec path s (api_keys s) (<[path := Dir]> fs0))
    as (fs' & Hrun & Hfiles & Hrest); try done.
  - by rewrite lookup_insert_eq.
  - intros device _. rewrite lookup_insert_ne by apply Hpd.
    rewrite Hbelow; [done|]. by apply prefix_app_r.
  - assert (fs1 = fs') as ->.
    { unfold write_api in H.
      destruct (if path_exists fs path then rmtree path fs else Ok fs) as [fsa|e];
        simpl in *; [|done].
      rewrite Hprep in H. simpl in H. congruence. }
    split.
    { rewrite Hrest; [by rewrite lookup_insert_eq|]. intros device _. apply Hpd. }
    split; [done|]. split.
    + intros q Hq Hne Hnot. rewrite Hrest by done.
      rewrite lookup_insert_ne by done. by apply Hbelow.
    + intros q Hq. rewrite Hrest.
      * rewrite lookup_insert_ne by (intros <-; by apply Hq). by apply Hout.
      * intros device _ ->. apply Hq. by apply prefix_app_r.
Qed.

Lemma fs_wf_outside (path : list string) (fs fs1 : filesystem) :
  fs_wf fs = true ->
  fs1 !! path = Some Dir ->
  path <> [] ->
  is_dir fs (removelast path) = true ->
  (forall q n, path `prefix_of` q -> q <> path -> fs1 !! q = Some n ->
     exists device, q = path ++ [device]) ->
  (forall q, ¬ path `prefix_of` q -> fs1 !! q = fs !! q) ->
  fs_wf fs1 = true.
Proof.
  intros Hwf Hdir Hp Hpar Hbelow Hout.
  assert (forall q, ¬ path `prefix_of` q -> ¬ path `prefix_of` removelast q) as Hup.
  { intros q Hq [k Hk]. apply Hq. destruct q as [|x q] using rev_ind; [by exists k|].
    rewrite removelast_last in Hk. exists (k ++ [x]). by rewrite Hk, app_assoc. }
  unfold fs_wf. apply forallb_forall. intros [q n] Hin.
  apply list_elem_of_In, elem_of_map_to_list in Hin. simpl.
  destruct (decide (path `prefix_of` q)) as [Hq|Hq].
  - destruct (decide (q = path)) as [->|Hne].
    + destruct (removelast path) as [|x p'] eqn:Hrl; [done|].
      rewrite is_dir_nonempty in Hpar |- * by done. rewrite <- Hrl in *.
      apply bool_decide_eq_true in Hpar. apply bool_decide_eq_true.
      rewrite Hout; [done|].
      intros Hpre. apply prefix_length in Hpre.
      destruct path as [|y path] using rev_ind; [done|].
      rewrite removelast_last, length_app in Hpre. simpl in Hpre. lia.
    + destruct (Hbelow q n Hq Hne Hin) as [device ->].
      rewrite removelast_last, (is_dir_nonempty _ _ Hp). by apply bool_decide_eq_true.
  - rewrite Hout in Hin by done.
    pose proof (fs_wf_parent fs q n Hwf Hin) as Hparq.
    destruct (removelast q) as [|x p'] eqn:Hrl; [done|].
    assert (q <> []) as Hqne by (intros ->; done).
    specialize (Hparq Hqne).
    rewrite is_dir_nonempty in Hparq |- * by done.
    apply bool_decide_eq_true in Hparq. apply bool_decide_eq_true.
    rewrite Hout; [done|]. rewrite <- Hrl. by apply Hup.
Qed.

(** X14. Running [write_api] again changes nothing.  On a well-formed file
    system, when [write_api(path)] succeeds, the file system it leaves is
    well-formed again, and a second [write_api(path)] with the same
    [self.api] succeeds and leaves exactly the same file system. *)
Theorem write_api_idempotent (path : list string) (s : scraper) (fs fs1 : filesystem) :
  fs_wf fs = true ->
  write_api path s fs = Ok fs1 ->
  fs_wf fs1 = true /\ write_api path s fs1 = Ok fs1.
Proof.
  intros Hwf H.
  destruct (write_api_ok_inv _ _ _ _ H) as (Hp & Hpar & Hpath & Hdata).
  destruct (write_api_lookup _ _ _ _ Hwf H) as (Hdir & Hfiles & Hgone & Hout).
  assert (¬ path `prefix_of` removelast path) as Hshort.
  { intros Hpre. apply prefix_length in Hpre.
    destruct path as [|x path] using rev_ind; [done|].
    rewrite removelast_last, length_app in Hpre. simpl in Hpre. lia. }
  assert (fs_wf fs1 = true) as Hwf1.
  { apply (fs_wf_outside path fs fs1); try done.
    intros q n Hq Hne Hqn.
    destruct (decide (Exists (fun device => q = path ++ [device]) (api_keys s)))
      as [Hex|Hnex].
    - apply Exists_exists in Hex as (device & _ & ->). by exists device.
    - rewrite Hgone in Hqn; [done..|].
      intros device Hd ->. apply Hnex. apply Exists_exists. by exists device. }
  split; [done|].
  assert (is_dir fs1 (removelast path) = true) as Hpar1.
  { destruct (removelast path) as [|x p'] eqn:Hrl; [done|].
    rewrite is_dir_nonempty in Hpar |- * by done. rewrite <- Hrl in *.
    apply bool_decide_eq_true in Hpar. apply bool_decide_eq_true. by rewrite Hout. }
  destruct (fresh_directory path fs1 Hp Hwf1 Hpar1 (or_intror Hdir))
    as (fs0 & Hprep & Hbelow & Hout0).
  assert (forall device, path <> path ++ [device]) as Hpd.
  { intros device Heq. apply (f_equal length) in Heq.
    rewrite length_app in Heq. simpl in Heq. lia. }
  destruct (write_devices_spec path s (api_keys s) (<[path := Dir]> fs0))
    as (fs2 & Hrun & Hfiles2 & Hrest2); try done.
  - by rewrite lookup_insert_eq.
  - intros device _. rewrite lookup_insert_ne by apply Hpd.
    rewrite Hbelow; [done|]. by apply prefix_app_r.
  - assert (write_api path s fs1 = Ok fs2) as Hrun2.
    { unfold write_api.
      destruct (if path_exists fs1 path then rmtree path fs1 else Ok fs1) as [fsa|e];
        simpl in *; [|done].
      rewrite Hprep. simpl. exact Hrun. }
    rewrite Hrun2. f_equal. apply map_eq. intros q.
    destruct (decide (Exists (fun device => q = path ++ [device]) (api_keys s)))
      as [Hex|Hnex].
    + apply Exists_exists in Hex as (device & Hd & ->).
      destruct (Hfiles device Hd) as (data & Hdata1 & ->).
      destruct (Hfiles2 device Hd) as (data2 & Hdata2 & ->). congruence.
    + assert (forall device, device ∈ api_keys s -> q <> path ++ [device]) as Hnot.
      { intros device Hd ->. apply Hnex. apply Exists_exists. by exists device. }
      rewrite Hrest2 by done.
      destruct (decide (q = path)) as [->|Hne]; [by rewrite lookup_insert_eq, Hdir|].
      rewrite lookup_insert_ne by done.
      destruct (decide (path `prefix_of` q)) as [Hq|Hq].
      * rewrite Hbelow by done. symmetry. by apply Hgone.
      * by rewrite Hout0.
Qed.

Lemma write_api_idempotent_witness :
  fs_wf old_fs = true
  /\ match write_api ["betas"] two_records old_fs with
     | Ok fs1 => write_api ["betas"] two_records fs1 = Ok fs1
     | Raise _ => False
     end.
Proof.
  split; [vm_compute; reflexivity|].
  destruct (write_api ["betas"] two_records old_fs) as [fs1|e] eqn:Hrun.
  - refine (proj2 (write_api_idempotent ["betas"] two_records old_fs fs1 _ Hrun)).
    vm_compute. reflexivity.
  - vm_compute in Hrun. discriminate.
Defined.

(** X15. When [write_api] fails.  It raises [OSError] without looking at
    any device when [path] names a regular file ([rmtree] refuses it) and
    when [path] is absent and its parent is not a directory ([mkdir]
    fails).  And it does not succeed when some device has a record without
    a build id: the sort of line 131 raises instead of dropping the
    record. *)
Theorem write_api_failures (path : list string) (s : scraper) (fs : filesystem) :
  path <> [] ->
  ((exists data, fs !! path = Some (File data)) -> write_api path s fs = Raise OSError)
  /\ (fs !! path = None -> is_dir fs (removelast path) = false ->
      write_api path s fs = Raise OSError)
  /\ (forall device f,
        device ∈ dom (api s) -> f ∈ records_of s device -> f !! "buildid" = None ->
        forall fs', write_api path s fs <> Ok fs').
Proof.
  intros Hp. split; [|split].
  - intros [data Hf]. by eapply write_api_on_file.
  - intros Hnone Hpar. unfold write_api, mkdir.
    rewrite (path_exists_nonempty _ _ Hp).
    rewrite bool_decide_eq_false_2 by (rewrite Hnone; by intros [? ?]).
    simpl. rewrite (path_exists_nonempty _ _ Hp).
    rewrite bool_decide_eq_false_2 by (rewrite Hnone; by intros [? ?]).
    by rewrite Hpar.
  - intros device f Hd Hf Hb fs' Hrun.
    destruct (write_api_ok_inv _ _ _ _ Hrun) as (_ & _ & _ & Hdata).
    destruct (Hdata device) as [data Hs]; [by apply api_keys_dom|].
    unfold sorted_desc in Hs.
    destruct (keyed (records_of s device)) as [ks|] eqn:Hk; [|done].
    destruct (keyed_spec _ _ Hk) as [Hrec Hall].
    rewrite <- Hrec in Hf. apply list_elem_of_fmap in Hf as (kf & -> & Hkf).
    rewrite Forall_forall in Hall. rewrite (Hall kf Hkf) in Hb. done.
Qed.

Lemma write_api_failures_witness :
  write_api ["other"] two_records old_fs = Raise OSError
  /\ write_api ["missing"; "betas"] two_records old_fs = Raise OSError.
Proof.
  split.
  - refine (proj1 (write_api_failures ["other"] two_records old_fs _) _).
    + discriminate.
    + exists []. vm_compute. reflexivity.
  - refine (proj1 (proj2 (write_api_failures ["missing"; "betas"] two_records old_fs _)) _ _).
    + discriminate.
    + vm_compute. reflexivity.
    + vm_compute. reflexivity.
Defined.


Lemma signing_pass_all_resolve_witness :
  (get_signing_status demo_boardconfig demo_fetch_all demo_tsschecker
     "iPhone12,1" two_records).1 = Ok tt
  /\ api (get_signing_status demo_boardconfig demo_fetch_all demo_tsschecker
            "iPhone12,1" two_records).2 = api two_records.
Proof.
  destruct (signing_pass_all_resolve demo_boardconfig demo_fetch_all demo_tsschecker
              "iPhone12,1" "N104AP" [0; 1]%nat two_records) as (Hok & Hapi & _).
  - reflexivity.
  - vm_compute. reflexivity.
  - intros l Hl. apply elem_of_cons in Hl as [->|Hl].
    { split; [simpl; lia | by eexists]. }
    apply elem_of_cons in Hl as [->|Hl].
    { split; [simpl; lia | by eexists]. }
    by apply elem_of_nil in Hl.
  - split; [exact Hok | exact Hapi].
Defined.

(** ** The duplicate guard *)

Lemma any_same_buildid_spec h firm records b :
  (forall f, f ∈ records -> exists a, deref h f !! "buildid" = Some (VStr a)) ->
  firm !! "buildid" = Some (VStr b) ->
  any_same_buildid h firm records
  = Ok (bool_decide (Exists (fun f => deref h f !! "buildid" = Some (VStr b)) records)).
Proof.
  intros Hrec Hb. induction records as [|f records IH].
  - reflexivity.
  - cbn [any_same_buildid]. unfold dict_get. destruct (Hrec f) as [a Ha]; [by left|].
    rewrite Ha, Hb. cbn [obind py_eq]. destruct (String.eqb_spec a b) as [->|Hne].
    + f_equal. symmetry. apply bool_decide_eq_true_2; by left.
    + rewrite IH by (intros f' Hf'; apply Hrec; by right).
      f_equal. apply bool_decide_ext. rewrite Exists_cons. split; [by right|].
      intros [H|H]; [|done]. rewrite Ha in H. congruence.
Qed.

Lemma commit_record_eq device firm s b :
  sound s ->
  deref (heap s) firm !! "buildid" = Some (VStr b) ->
  let ls := default [] (api s !! device) in
  commit_record device firm s
  = (Ok tt,
     Scraper (heap s)
       (<[device := if bool_decide (Exists (fun f => deref (heap s) f !! "buildid"
                                                    = Some (VStr b)) ls)
                    then ls else ls ++ [firm]]> (api s))).
Proof.
  intros H Hb ls.
  assert (forall f, f ∈ ls -> exists a, deref (heap s) f !! "buildid" = Some (VStr a)) as Hall.
  { intros f Hf. unfold ls in Hf. destruct (api s !! device) as [records|] eqn:Hd.
    - by destruct (H device records f Hd Hf).
    - by apply elem_of_nil in Hf. }
  pose proof (any_same_buildid_spec (heap s) (deref (heap s) firm) ls b Hall Hb) as Hany.
  clear Hall. subst ls.
  unfold commit_record, bind, ensure_device, device_list, append_record, bind, device_list, ret.
  destruct s as [h a]. cbn [heap api] in *.
  destruct (a !! device) as [records|] eqn:Hd; simpl in Hany |- *.
  - rewrite Hd. simpl. rewrite Hany.
    destruct (bool_decide _); simpl.
    + by rewrite insert_id.
    + by rewrite Hd.
  - rewrite lookup_insert_eq. simpl. rewrite lookup_insert_eq. simpl.
    by rewrite insert_insert_eq.
Qed.

(** X16. The guard of lines 93-97, at the time of the append.  On a
    scraper whose records all have a build id, committing a dict with build
    id [b] for a device never raises and touches neither the store nor the
    other devices; the device's list is left as it is when one of its
    records has build id [b] at that moment, and gets the dict appended at
    its end otherwise (a device without a list gets one first). *)
Theorem commit_record_guard device firm s b :
  sound s ->
  deref (heap s) firm !! "buildid" = Some (VStr b) ->
  let ls := default [] (api s !! device) in
  let r := commit_record device firm s in
  r.1 = Ok tt
  /\ heap r.2 = heap s
  /\ (forall d, d <> device -> api r.2 !! d = api s !! d)
  /\ api r.2 !! device
     = Some (if bool_decide (Exists (fun f => deref (heap s) f !! "buildid" = Some (VStr b)) ls)
             then ls else ls ++ [firm]).
Proof.
  intros H Hb ls r. unfold r. rewrite (commit_record_eq device firm s b H Hb).
  cbn [fst snd heap api]. repeat split.
  - intros d Hne. by rewrite lookup_insert_ne.
  - by rewrite lookup_insert_eq.
Qed.

Lemma commit_record_guard_witness :
  api (commit_record "iPhone12,1" 1 two_records).2 !! "iPhone12,1" = Some [0; 1]%nat
  /\ api (commit_record "iPhone12,3" 1 two_records).2 !! "iPhone12,3" = Some [1%nat].
Proof.
  assert (sound two_records) as H.
  { intros device ls l Hls Hl. unfold two_records in Hls. simpl in Hls.
    destruct (decide (device = "iPhone12,1")) as [->|Hne].
    - rewrite lookup_singleton_eq in Hls. simplify_eq.
      apply elem_of_cons in Hl as [->|Hl]; [split; [simpl; lia | by eexists]|].
      apply elem_of_cons in Hl as [->|Hl]; [split; [simpl; lia | by eexists]|].
      by apply elem_of_nil in Hl.
    - by rewrite lookup_singleton_ne in Hls. }
  split.
  - exact (proj2 (proj2 (proj2 (commit_record_guard "iPhone12,1" 1 two_records
                                   "18E5164a" H eq_refl)))).
  - exact (proj2 (proj2 (proj2 (commit_record_guard "iPhone12,3" 1 two_records
                                   "18E5164a" H eq_refl)))).
Defined.

(** ** A row with one build *)

Lemma store_fields_single l b i z fi s :
  (l < length (heap s))%nat ->
  store_fields l [b] [i] [z] fi s
  = (Ok tt,
     Scraper (<[l := <["size" := VInt z]> (<["url" := VStr (url i)]>
                       (<["buildid" := VStr b]> (deref (heap s) l)))]> (heap s))
             (api s)).
Proof.
  intros Hl. unfold store_fields, bind, lift, set_key, ret. simpl.
  rewrite !deref_insert by (rewrite ?length_insert; done).
  by rewrite !list_insert_insert_eq.
Qed.

Lemma for_each_collect {A} (J : scraper -> Prop) (P : A -> scraper -> Prop)
    (body : A -> M unit) l :
  (forall x s, x ∈ l -> J s ->
     exists s', body x s = (Ok tt, s') /\ J s' /\ P x s'
                /\ forall y, P y s -> P y s') ->
  forall s, J s ->
    exists s', for_each l body s = (Ok tt, s') /\ J s'
               /\ (forall x, x ∈ l -> P x s')
               /\ forall y, P y s -> P y s'.
Proof.
  induction l as [|x l IH]; intros Hbody s Hs.
  - exists s. repeat split; [done| |done]. intros x Hx. by apply elem_of_nil in Hx.
  - destruct (Hbody x s) as (s1 & Hx & HJ & HP & Hkeep); [by left|done|].
    destruct (IH (fun y s' Hy => Hbody y s' (proj2 (elem_of_cons l y x) (or_intror Hy)))
                s1 HJ) as (s' & Hl & HJ' & HP' & Hkeep').
    exists s'. repeat split; [|done| |].
    + simpl. unfold bind. by rewrite Hx.
    + intros y Hy. apply elem_of_cons in Hy as [->|Hy]; [by apply Hkeep'|by apply HP'].
    + intros y Hy. by apply Hkeep', Hkeep.
Qed.

Lemma four_keys_size (f : pydict) :
  dom f ⊆ four_keys -> "version" ∈ dom f ->
  size (<["size" := VInt 0]> (<["url" := VInt 0]> (<["buildid" := VInt 0]> f))) = 4%nat.
Proof.
  intros Hsub Hv. rewrite <- size_dom.
  assert (dom (<["size" := VInt 0]> (<["url" := VInt 0]> (<["buildid" := VInt 0]> f)))
          = four_keys) as ->.
  { rewrite !dom_insert_L. apply set_eq. intros k. unfold four_keys in *. set_solver. }
  reflexivity.
Qed.

Lemma device_step_single r d device b i z v s0 s :
  buildids r = [b] -> ipsws r = [i] -> ipsw_sizes r = [z] ->
  devices r !! d = Some device ->
  single_loop (firm r) v s0 s ->
  exists s',
    device_step r d s = (Ok tt, s')
    /\ single_loop (firm r) v s0 s'
    /\ (has_build s' device b /\ holds_fields s' (firm r) v b (url i) z)
    /\ forall device', has_build s device' b -> has_build s' device' b.
Proof.
  intros Hbs His Hzs Hdev (Hsound & Hl & Hdom & Hv & Hoth & Horig).
  set (f := <["size" := VInt z]> (<["url" := VStr (url i)]>
               (<["buildid" := VStr b]> (deref (heap s) (firm r))))).
  set (s1 := Scraper (<[firm r := f]> (heap s)) (api s)).
  assert (deref (heap s1) (firm r) = f) as Hf by (by apply deref_insert).
  assert (f !! "buildid" = Some (VStr b)) as Hfb by (unfold f; by simplify_map_eq).
  assert (forall l', l' <> firm r -> deref (heap s1) l' = deref (heap s) l') as Hne.
  { intros l' Hl'. by apply deref_insert_ne. }
  assert (forall l' a, deref (heap s) l' !! "buildid" = Some (VStr a) ->
            exists a', deref (heap s1) l' !! "buildid" = Some (VStr a')
                       /\ (a = b -> a' = b)) as Hbid.
  { intros l' a Ha. destruct (decide (l' = firm r)) as [->|Hl'].
    - exists b. by rewrite Hf.
    - exists a. by rewrite Hne. }
  assert (sound s1) as Hsound1.
  { intros dev ls l' Hls Hin. destruct (Hsound dev ls l' Hls Hin) as [Hlt [a Ha]].
    split; [simpl; by rewrite length_insert|].
    destruct (Hbid l' a Ha) as (a' & Ha' & _). by exists a'. }
  assert (size f = 4%nat) as Hsize.
  { unfold f. rewrite <- size_dom, !dom_insert_L.
    rewrite <- (four_keys_size (deref (heap s) (firm r)) Hdom), <- size_dom, !dom_insert_L;
      [done|]. apply elem_of_dom. by eexists. }
  assert (deref (heap s1) (firm r) !! "buildid" = Some (VStr b)) as Hb1 by (by rewrite Hf).
  pose proof (commit_record_eq device (firm r) s1 b Hsound1 Hb1) as Hc.
  cbv zeta in Hc.
  eexists. split; [|split; [|split]].
  - unfold device_step, bind. rewrite Hbs, His, Hzs.
    rewrite (store_fields_single _ _ _ _ _ _ Hl). fold f. fold s1.
    unfold load, lift, ret, get_item. rewrite Hf, Hsize, Hdev. simpl. exact Hc.
  - split; [|split; [|split; [|split; [|split]]]]; cbn [heap api].
    + fold (heap s1). apply sound_insert; [done|].
      intros l' Hl'. case_bool_decide as Hex.
      * destruct (api s1 !! device) as [ls|] eqn:Hls; simpl in Hl'.
        { by apply (Hsound1 device ls). }
        { by apply elem_of_nil in Hl'. }
      * apply elem_of_app in Hl' as [Hl'|Hl'].
        { destruct (api s1 !! device) as [ls|] eqn:Hls; simpl in Hl'.
          - by apply (Hsound1 device ls).
          - by apply elem_of_nil in Hl'. }
        { apply list_elem_of_singleton in Hl' as ->.
          split; [simpl; by rewrite length_insert | by exists b]. }
    + fold (heap s1). simpl. by rewrite length_insert.
    + fold (heap s1). rewrite Hf. unfold f. rewrite !dom_insert_L.
      unfold four_keys in *. set_solver.
    + fold (heap s1). rewrite Hf. unfold f. by simplify_map_eq.
    + intros l' Hl'. fold (heap s1). rewrite Hne by done. by apply Hoth.
    + intros dev ls l' Hls Hin.
      destruct (decide (dev = device)) as [->|Hd].
      * rewrite lookup_insert_eq in Hls. simplify_eq.
        assert (l' ∈ default [] (api s !! device) -> l' = firm r
                \/ exists ls0, api s0 !! device = Some ls0 /\ l' ∈ ls0) as Hold.
        { destruct (api s !! device) as [ls|] eqn:Hls; simpl.
          - by apply (Horig device ls).
          - intros Hnil. by apply elem_of_nil in Hnil. }
        simpl in Hin. case_bool_decide as Hex; [by apply Hold|].
        apply elem_of_app in Hin as [Hin|Hin]; [by apply Hold|].
        left. by apply list_elem_of_singleton in Hin.
      * rewrite lookup_insert_ne in Hls by done. by apply (Horig dev ls).
  - split.
    + unfold has_build. cbn [heap api]. rewrite lookup_insert_eq.
      case_bool_decide as Hex.
      * apply Exists_exists in Hex as (l' & Hin & Hl').
        exists (default [] (api s1 !! device)), l'. split; [reflexivity|].
        split; [exact Hin | exact Hl'].
      * eexists _, (firm r). split; [reflexivity|]. split; [|exact Hb1].
        apply elem_of_app. right. by left.
    + unfold holds_fields. cbn [heap]. fold (heap s1). rewrite Hf. unfold f.
      repeat split; by simplify_map_eq.
  - clear Hc. intros dev (ls & l' & Hls & Hin & Ha).
    destruct (Hbid l' b Ha) as (a' & Ha' & Heq). rewrite (Heq eq_refl) in Ha'.
    unfold has_build. cbn [heap api].
    destruct (decide (dev = device)) as [->|Hd].
    + rewrite lookup_insert_eq. simpl. rewrite Hls. simpl.
      eexists _, l'. split; [reflexivity|]. split; [|exact Ha'].
      destruct (bool_decide _); [exact Hin|]. apply elem_of_app. by left.
    + rewrite lookup_insert_ne by done. by exists ls, l'.
Qed.

Section SingleBuild.

Variable wikilinks : string -> list WikiLink.
Variable external_links : string -> list ExternalLink.

Lemma row_setup_state template row s r s0 :
  row_setup wikilinks external_links template row s = (Ok (Some r), s0) ->
  exists cell0 v,
    omap id row !! 0%nat = Some cell0
    /\ row_version wikilinks cell0 = Ok v
    /\ firm r = length (heap s)
    /\ heap s0 = heap s ++ [{["version" := VStr v]}]
    /\ api s0 = api s.
Proof.
  unfold row_setup, bind, lift, alloc, set_key, ret, get_item.
  intros H. repeat (case_match; simplify_eq/=).
  rewrite deref_fresh, store_fresh. eexists _, _. repeat split; try done.
Qed.

(** X17. A row with one build, one download link and one size, on a
    scraper whose records all have a build id.  The row is processed
    without an exception; afterwards every device of the row has a record
    with the row's build id; every record of every device list is either
    the row's dict or a record the list had before, with its fields
    untouched; and, when the row names a device, the row's dict holds the
    row's version, its build id, the link's url and the size. *)
Theorem single_build_row_recorded template row s r s0 b i :
  sound s ->
  row_setup wikilinks external_links template row s = (Ok (Some r), s0) ->
  buildids r = [b] -> ipsws r = [i] ->
  exists s' cell0 v z,
    process_row wikilinks external_links template row s = (Ok tt, s')
    /\ omap id row !! 0%nat = Some cell0
    /\ row_version wikilinks cell0 = Ok v
    /\ ipsw_sizes r = [z]
    /\ (forall device, device ∈ devices r -> has_build s' device b)
    /\ (forall device ls l, api s' !! device = Some ls -> l ∈ ls ->
          l = firm r
          \/ exists ls0, api s !! device = Some ls0 /\ l ∈ ls0
                         /\ deref (heap s') l = deref (heap s) l)
    /\ (devices r <> [] -> holds_fields s' (firm r) v b (url i) z).
Proof.
  intros Hsound Hsetup Hbs His.
  destruct (row_setup_state _ _ _ _ _ Hsetup) as (cell0 & v & Hcell & Hver & Hfirm & Hheap & Hapi).
  destruct (row_setup_some _ _ _ _ _ _ _ Hsetup) as (_ & _ & _ & _ & _ & Hlen).
  rewrite His in Hlen. destruct (ipsw_sizes r) as [|z [|z' zs]] eqn:Hzs; try done.
  pose proof (row_setup_keeps wikilinks external_links template row s) as Hk.
  pose proof (row_setup_ready _ _ _ _ _ _ _ Hsetup) as (Hlt & Hvdom & Hdom).
  rewrite Hsetup in Hk. simpl in Hk.
  assert (single_loop (firm r) v s0 s0) as HJ.
  { split; [by eapply sound_keeps|]. split; [done|]. split; [done|].
    split; [|split; [done|]].
    - rewrite Hheap, Hfirm, deref_fresh. by simplify_map_eq.
    - intros device ls l' Hls Hl'. right. by exists ls. }
  destruct (for_each_collect (single_loop (firm r) v s0)
              (fun d s' => (exists device, devices r !! d = Some device
                                           /\ has_build s' device b)
                           /\ holds_fields s' (firm r) v b (url i) z)
              (device_step r) (seq 0 (length (devices r)))) with (s := s0)
    as (s' & Hrun & HJ' & HP & _); [|done|].
  { intros d s1 Hd Hs1. apply elem_of_seq in Hd.
    destruct (lookup_lt_is_Some_2 (devices r) d) as [device Hdev]; [lia|].
    destruct (device_step_single r d device b i z v s0 s1 Hbs His Hzs Hdev Hs1)
      as (s2 & Hstep & HJ2 & [Hhas Hholds] & Hkeep).
    exists s2. split; [done|]. split; [done|]. split.
    - split; [by exists device | done].
    - intros y [(dev & Hy & Hb) _]. split; [|done]. exists dev. split; [done|].
      by apply Hkeep. }
  exists s', cell0, v, z. split; [|split; [done|split; [done|split; [done|split; [|split]]]]].
  - unfold process_row, bind. by rewrite Hsetup.
  - intros device Hdev. apply list_elem_of_lookup_1 in Hdev as [d Hd].
    destruct (HP d) as [(dev & Hdev & Hb) _].
    { apply elem_of_seq. apply lookup_lt_Some in Hd. lia. }
    by simplify_eq.
  - destruct HJ' as (_ & _ & _ & _ & Hoth & Horig).
    intros device ls l Hls Hl.
    destruct (decide (l = firm r)) as [->|Hne]; [by left|right].
    destruct (Horig device ls l Hls Hl) as [?|(ls0 & Hls0 & Hl0)]; [done|].
    rewrite Hapi in Hls0. exists ls0. split; [done|]. split; [done|].
    rewrite Hoth by done. destruct (Hsound device ls0 l Hls0 Hl0) as [Hlt0 _].
    unfold deref. rewrite Hheap. by rewrite lookup_app_l.
  - intros Hne. destruct (devices r) as [|d0 ds] eqn:Hds; [done|].
    destruct (HP 0%nat) as [_ Hholds]; [|done].
    apply elem_of_seq. simpl. lia.
Qed.

End SingleBuild.

(** The one-device row [row_one] on the empty scraper. *)
Lemma single_build_row_recorded_witness :
  exists s', process_row flat_wikilinks flat_external_links demo_template row_one
               empty_scraper = (Ok tt, s')
             /\ has_build s' "iPhone12,1" "18E5154b".
Proof.
  destruct (single_build_row_recorded flat_wikilinks flat_external_links
              demo_template row_one empty_scraper demo_fields_one demo_s0_one
              "18E5154b" (Build_ExternalLink "http://example/b.ipsw"))
    as (s' & cell0 & v & z & Hrun & _ & _ & _ & Hhas & _).
  - apply sound_empty.
  - vm_compute. reflexivity.
  - vm_compute. reflexivity.
  - vm_compute. reflexivity.
  - exists s'. split; [exact Hrun|]. apply Hhas. vm_compute. by left.
Defined.
